(** * The Porkbun REST client of terraform-provider-porkbun

    A shallow embedding of the Go package [internal/porkbun] (transport core,
    credential injection, loose-type converters, listing operations) and of
    the pagination loop of the domain-list data source, with the properties
    of the client layer stated and proved over it.

    Conventions of the embedding.
    - Go [string] is [string]; [json.Number] is a [string] as well (its Go
      definition is [type Number string]).
    - [int64] is [Z] with the two's-complement wrap-around written out.
    - A Go pointer that is either nil or points to a fresh value
      ([*int64], [*Domain]) is an [option].
    - Go [error] values are a small inductive type that keeps the format
      string and the operand of every [fmt.Errorf] of the package.
    - The bytes of an HTTP body are abstracted to the JSON document they
      spell; [encoding/json]'s field resolution is modelled on field tables
      copied from the struct tags of the source. *)

From Stdlib Require Import ZArith Lia Ascii String List Bool.
From stdpp Require Import base option list strings gmap.

Set Warnings "-register-all".

Open Scope string_scope.
Open Scope Z_scope.

(* ===================================================================== *)
(** ** Results and errors *)
(* ===================================================================== *)

(** The two sentinel causes of [strconv.NumError]. *)
Inductive NumErrKind : Type :=
| ErrSyntax
| ErrRange.

(** Errors made by the Go libraries the package calls. *)
Inductive LibErr : Type :=
| NumError (func num : string) (kind : NumErrKind)
    (* *strconv.NumError: function name, offending input, cause *)
| UnmarshalTypeError (value field : string)
    (* *json.UnmarshalTypeError: kind of JSON value, Go field it met *)
| InvalidNumberLiteral (lit : string)
    (* encoding/json refusing a string as a json.Number *)
| SyntaxError (text : string)
    (* *json.SyntaxError of a body that is not a JSON document *)
| NetError (text : string).
    (* an error of net/http, net/url or io, a cancelled context included *)

(** Go [error] values as the package builds and receives them. *)
Inductive error : Type :=
| Lib (e : LibErr)
| Errorf (format : string) (arg : string)
    (* fmt.Errorf(format, s) with one %s verb and a string operand *)
| ErrorfErr (format : string) (cause : error)
    (* fmt.Errorf(format, err) and fmt.Errorf(format, err.Error()) *)
| Panic (text : string).
    (* a run-time panic: the call does not return to its caller *)

(** A Go pair [(value, error)] in which the value is meaningful only when
    the error is nil. *)
Inductive result (A : Type) : Type :=
| Ok (a : A)
| Err (e : error).
Arguments Ok {A} a.
Arguments Err {A} e.

Definition is_ok {A} (r : result A) : bool :=
  match r with Ok _ => true | Err _ => false end.

Definition is_err {A} (r : result A) : bool := negb (is_ok r).

Definition bind {A B} (r : result A) (k : A -> result B) : result B :=
  match r with
  | Ok a => k a
  | Err e => Err e
  end.

Notation "x <- r ;; k" := (bind r (fun x => k))
  (at level 100, r at next level, right associativity,
   format "'[v' x  <-  r  ;;  '/' k ']'").

(** [fmt.Sprintf(format, arg)] for a format with [%s] verbs only: the first
    [%s] is replaced by the operand. *)
Fixpoint Sprintf (format arg : string) : string :=
  match format with
  | EmptyString => EmptyString
  | String "%" (String "s" rest) => arg +:+ rest
  | String c rest => String c (Sprintf rest arg)
  end.

(** [err.Error()]. The text of a library error is rendered by the library
    ([strconv.Quote] and the type names of [reflect] are involved), so its
    renderer is a parameter. *)
Fixpoint Error (libText : LibErr -> string) (e : error) : string :=
  match e with
  | Lib l => libText l
  | Errorf format arg => Sprintf format arg
  | ErrorfErr format cause => Sprintf format (Error libText cause)
  | Panic text => "panic: " +:+ text
  end.

(* ===================================================================== *)
(** ** strconv: decimal integers in 64 bits *)
(* ===================================================================== *)

Module strconv.

Definition maxUint64 : Z := 2 ^ 64 - 1.
Definition minInt64 : Z := - 2 ^ 63.
Definition maxInt64 : Z := 2 ^ 63 - 1.

(** Two's-complement reduction of an integer to [int64]. *)
Definition wrap64 (z : Z) : Z := (z + 2 ^ 63) mod 2 ^ 64 - 2 ^ 63.

Definition is_int64 (z : Z) : Prop := minInt64 <= z <= maxInt64.

Definition digit_char (d : Z) : ascii :=
  ascii_of_nat (48 + Z.to_nat d).

(** The value of a decimal digit character, if it is one. *)
Definition digit_val (c : ascii) : option Z :=
  let n := Z.of_nat (nat_of_ascii c) in
  if (48 <=? n) && (n <=? 57) then Some (n - 48) else None.

(** The digits of [u], most significant first, written in front of [acc];
    [fuel] bounds the number of digits. *)
Fixpoint formatBits (fuel : nat) (u : Z) (acc : string) : string :=
  match fuel with
  | O => acc
  | S fuel' =>
      let acc' := String (digit_char (u mod 10)) acc in
      if u <? 10 then acc' else formatBits fuel' (u / 10) acc'
  end.

(** [strconv.FormatUint(u, 10)] for [0 <= u < 2^64] (at most 20 digits). *)
Definition FormatUint (u : Z) : string := formatBits 20 u "".

(** [strconv.FormatInt(i, 10)]. *)
Definition FormatInt (i : Z) : string :=
  if i <? 0 then String "-" (FormatUint (- i)) else FormatUint i.

(** The digit loop of [strconv.ParseUint(s, 10, 64)]: [n] is the value read
    so far, kept as a [uint64]; the result is the value or the cause of the
    failure. *)
Fixpoint parseDigits (s : string) (n : Z) : Z + NumErrKind :=
  match s with
  | EmptyString => inl n
  | String c rest =>
      match digit_val c with
      | None => inr ErrSyntax
      | Some d =>
          if maxUint64 / 10 + 1 <=? n then inr ErrRange
          else
            let n10 := n * 10 in
            let n1 := (n10 + d) mod 2 ^ 64 in
            if (n1 <? n10) || (maxUint64 <? n1) then inr ErrRange
            else parseDigits rest n1
      end
  end.

(** [strconv.ParseUint(s, 10, 64)], up to the making of the [NumError]. *)
Definition ParseUint (s : string) : Z + NumErrKind :=
  match s with
  | EmptyString => inr ErrSyntax
  | _ => parseDigits s 0
  end.

(** [strconv.ParseInt(s, 10, 64)]. The [NumError] it returns names
    [ParseInt] and the whole input. *)
Definition ParseInt (s : string) : result Z :=
  match s with
  | EmptyString => Err (Lib (NumError "ParseInt" s ErrSyntax))
  | String c rest =>
      let neg := Ascii.eqb c "-" in
      let s1 := if Ascii.eqb c "+" || neg then rest else s in
      match ParseUint s1 with
      | inr kind => Err (Lib (NumError "ParseInt" s kind))
      | inl un =>
          if negb neg && (2 ^ 63 <=? un) then
            Err (Lib (NumError "ParseInt" s ErrRange))
          else if neg && (2 ^ 63 <? un) then
            Err (Lib (NumError "ParseInt" s ErrRange))
          else Ok (if neg then - un else un)
      end
  end.

End strconv.

(* ===================================================================== *)
(** ** encoding/json: documents, field resolution, value codecs *)
(* ===================================================================== *)

(** A JSON document. A number keeps its literal, as [json.Number] does; an
    object keeps its members in order, duplicates included. *)
Inductive json : Type :=
| JNull
| JBool (b : bool)
| JNumber (lit : string)
| JString (s : string)
| JArray (items : list json)
| JObject (members : list (string * json)).

Module gojson.

(** One field of a Go struct as [encoding/json] sees it: the path of Go
    names that reaches it, the key of its [json] tag, the [omitempty]
    option, whether the field is exported, and the number of embedded
    structs it is promoted through. Every field of the package's wire
    structs carries a tag with a key. *)
Record Field : Type := mkField {
  goName : string;
  key : string;
  omitempty : bool;
  exported : bool;
  depth : nat
}.

Definition is_digit (c : ascii) : bool :=
  match strconv.digit_val c with Some _ => true | None => false end.

Fixpoint skipDigits (s : string) : string :=
  match s with
  | String c rest => if is_digit c then skipDigits rest else s
  | EmptyString => s
  end.

(** [isValidNumber] of encoding/json: the JSON number grammar. *)
Definition isValidNumber (s : string) : bool :=
  match s with
  | EmptyString => false
  | String c0 r0 =>
      let s1 := if Ascii.eqb c0 "-" then r0 else s in
      match s1 with
      | EmptyString => false
      | String c1 r1 =>
          if negb (is_digit c1) then false
          else
            let s2 := if Ascii.eqb c1 "0" then r1 else skipDigits r1 in
            let s3 :=
              match s2 with
              | String "." (String d r) =>
                  if is_digit d then skipDigits r else s2
              | _ => s2
              end in
            match s3 with
            | String e (String c r) =>
                if Ascii.eqb e "e" || Ascii.eqb e "E" then
                  if Ascii.eqb c "+" || Ascii.eqb c "-" then
                    match r with
                    | EmptyString => false
                    | _ => String.eqb (skipDigits r) ""
                    end
                  else String.eqb (skipDigits (String c r)) ""
                else false
            | EmptyString => true
            | _ => false
            end
      end
  end.

(** [foldName]: the case folding under which an object key that matches no
    field exactly is looked up. ASCII letters fold to upper case; the two
    other runes whose fold orbit holds an ASCII letter are the long s
    (bytes C5 BF) and the Kelvin sign (bytes E2 84 AA). *)
Fixpoint foldName (s : string) : string :=
  match s with
  | EmptyString => EmptyString
  | String c rest =>
      let n := nat_of_ascii c in
      let folded_rest := foldName rest in
      if (Nat.leb 97 n && Nat.leb n 122)%bool then
        String (ascii_of_nat (n - 32)) folded_rest
      else
        match n, rest with
        | 197%nat, String c2 rest2 =>
            if Nat.eqb (nat_of_ascii c2) 191 then String "S" (foldName rest2)
            else String c folded_rest
        | 226%nat, String c2 (String c3 rest3) =>
            if (Nat.eqb (nat_of_ascii c2) 132
                && Nat.eqb (nat_of_ascii c3) 170)%bool
            then String "K" (foldName rest3)
            else String c folded_rest
        | _, _ => String c folded_rest
        end
  end.

(** The fields that compete for key [k]: exported, with that key. *)
Definition candidates (fields : list Field) (k : string) : list Field :=
  filter (fun f => exported f && String.eqb (key f) k = true) fields.

Definition min_depth (fs : list Field) : nat :=
  foldr (fun f m => Nat.min (depth f) m)
        (match fs with f :: _ => depth f | [] => O end) fs.

(** [dominantField]: among the fields with one key the least nested wins if
    it is alone at its depth; several tagged fields at the least depth hide
    each other and the key names no field at all. *)
Definition dominant (fields : list Field) (k : string) : option Field :=
  let cs := candidates fields k in
  match filter (fun f => Nat.eqb (depth f) (min_depth cs) = true) cs with
  | [f] => Some f
  | _ => None
  end.

(** [typeFields]: the fields [encoding/json] reads and writes, in
    declaration order. *)
Definition typeFields (fields : list Field) : list Field :=
  filter (fun f =>
            match dominant fields (key f) with
            | Some g => String.eqb (goName g) (goName f)
            | None => false
            end = true) fields.

(** The field an object key is stored into: an exact match of the key, or
    else the first field whose folded key is the folded object key. *)
Definition fieldFor (fields : list Field) (k : string) : option Field :=
  let live := typeFields fields in
  match List.find (fun f => String.eqb (key f) k) live with
  | Some f => Some f
  | None =>
      List.find (fun f => String.eqb (foldName (key f)) (foldName k)) live
  end.

(** *** Decoding *)

(** How a decoding step ends: without error, with a type error that is
    saved while decoding goes on, or with an error that stops it. *)
Inductive outcome : Type :=
| Fine
| Saved (e : error)
| Stopped (e : error).

(** The first saved error is the one that is kept. *)
Definition keep (earlier later : outcome) : outcome :=
  match earlier with
  | Fine => later
  | Saved e => match later with Stopped e' => Stopped e' | _ => Saved e end
  | Stopped e => Stopped e
  end.

Definition outcome_error (o : outcome) : option error :=
  match o with
  | Fine => None
  | Saved e | Stopped e => Some e
  end.

(** A decoder stores a document into a Go value that already exists and
    reports how that went. *)
Definition decoder (T : Type) : Type := json -> T -> T * outcome.

Definition kind_of (j : json) : string :=
  match j with
  | JNull => "null"
  | JBool _ => "bool"
  | JNumber _ => "number"
  | JString _ => "string"
  | JArray _ => "array"
  | JObject _ => "object"
  end.

Definition mismatch {T} (j : json) (field : string) (old : T) : T * outcome :=
  (old, Saved (Lib (UnmarshalTypeError (kind_of j) field))).

Definition dec_string (field : string) : decoder string :=
  fun j old =>
    match j with
    | JString s => (s, Fine)
    | JNull => (old, Fine)
    | _ => mismatch j field old
    end.

(** Into a [json.Number]: a number keeps its literal, a string must spell a
    number or decoding stops. *)
Definition dec_Number (field : string) : decoder string :=
  fun j old =>
    match j with
    | JNumber lit => (lit, Fine)
    | JString s =>
        if isValidNumber s then (s, Fine)
        else (old, Stopped (Lib (InvalidNumberLiteral s)))
    | JNull => (old, Fine)
    | _ => mismatch j field old
    end.

Definition dec_int64 (field : string) : decoder Z :=
  fun j old =>
    match j with
    | JNumber lit =>
        match strconv.ParseInt lit with
        | Ok z => (z, Fine)
        | Err _ => mismatch j field old
        end
    | JNull => (old, Fine)
    | _ => mismatch j field old
    end.

(** The elements of an array, each stored into the slot the slice already
    has at its index, or into a zero value past the old length. *)
Fixpoint dec_items {T} (dec : decoder T) (zero : T)
    (items : list json) (old : list T) : list T * outcome :=
  match items with
  | [] => ([], Fine)
  | j :: items' =>
      let slot := match old with t :: _ => t | [] => zero end in
      let '(t, o) := dec j slot in
      match o with
      | Stopped e => ([t], Stopped e)
      | _ =>
          let '(ts, o') := dec_items dec zero items' (tail old) in
          (t :: ts, keep o o')
      end
  end.

(** Into a slice: [null] makes it nil, an array replaces its elements. *)
Definition dec_slice {T} (field : string) (dec : decoder T) (zero : T)
    : decoder (list T) :=
  fun j old =>
    match j with
    | JArray items => dec_items dec zero items old
    | JNull => ([], Fine)
    | _ => mismatch j field old
    end.

(** The members of an object, in order, each stored by [set] into the field
    its key resolves to; a key that resolves to no field is skipped. *)
Fixpoint dec_members {T} (fields : list Field)
    (set : string -> decoder T) (members : list (string * json)) (t : T)
    : T * outcome :=
  match members with
  | [] => (t, Fine)
  | (k, v) :: members' =>
      match fieldFor fields k with
      | None => dec_members fields set members' t
      | Some f =>
          let '(t1, o) := set (goName f) v t in
          match o with
          | Stopped e => (t1, Stopped e)
          | _ =>
              let '(t2, o') := dec_members fields set members' t1 in
              (t2, keep o o')
          end
      end
  end.

(** Into a struct: [null] leaves it alone, an object fills its fields. *)
Definition dec_struct {T} (name : string) (fields : list Field)
    (set : string -> decoder T) : decoder T :=
  fun j old =>
    match j with
    | JObject members => dec_members fields set members old
    | JNull => (old, Fine)
    | _ => mismatch j name old
    end.

(** *** Encoding *)

(** What a field contributes to an encoding: whether its value is empty in
    the sense of [omitempty], and its document or the error of encoding
    it. *)
Record encoded : Type := mkEncoded {
  is_empty : bool;
  doc : result json
}.

Definition enc_string (s : string) : encoded :=
  mkEncoded (String.eqb s "") (Ok (JString s)).

(** A [json.Number]: the empty string is written as [0], any other value
    must spell a number. *)
Definition enc_Number (n : string) : encoded :=
  let numStr := if String.eqb n "" then "0" else n in
  mkEncoded (String.eqb n "")
    (if isValidNumber numStr then Ok (JNumber numStr)
     else Err (Lib (InvalidNumberLiteral numStr))).

Definition enc_int64 (z : Z) : encoded :=
  mkEncoded (z =? 0) (Ok (JNumber (strconv.FormatInt z))).

(** A [[]string]: nil is [null]. *)
Definition enc_strings (l : option (list string)) : encoded :=
  match l with
  | None => mkEncoded true (Ok JNull)
  | Some ss =>
      mkEncoded (match ss with [] => true | _ => false end)
                (Ok (JArray (map JString ss)))
  end.

(** The members of the object a struct is written as: its resolved fields
    in order, without the empty [omitempty] ones. *)
Fixpoint enc_members (live : list Field) (get : string -> encoded)
    : result (list (string * json)) :=
  match live with
  | [] => Ok []
  | f :: live' =>
      let e := get (goName f) in
      if omitempty f && is_empty e then enc_members live' get
      else
        match doc e with
        | Err err => Err err
        | Ok j =>
            match enc_members live' get with
            | Err err => Err err
            | Ok ms => Ok ((key f, j) :: ms)
            end
        end
  end.

Definition enc_struct (fields : list Field) (get : string -> encoded)
    : result json :=
  match enc_members (typeFields fields) get with
  | Ok ms => Ok (JObject ms)
  | Err e => Err e
  end.

End gojson.

(* ===================================================================== *)
(** ** Package porkbun: data model *)
(* ===================================================================== *)

(** [json.Number] and its two methods used by the package. *)
Definition Number : Type := string.
Definition Number_String (n : Number) : string := n.
Definition Number_Int64 (n : Number) : result Z := strconv.ParseInt n.

Record Status : Type := mkStatus {
  Status_Status : string;
  Status_Message : string
}.

Record Credentials : Type := mkCredentials {
  APIKey : string;
  SecretAPIKey : string
}.

Record Domain : Type := mkDomain {
  Domain_Domain : string;
  Domain_Status : string;
  Domain_TLD : string;
  Domain_CreateDate : string;
  Domain_ExpireDate : string;
  Domain_SecurityLock : bool;
  Domain_WhoisPrivacy : bool;
  Domain_AutoRenew : bool;
  Domain_NotLocal : bool
}.

Record domain : Type := mkdomain {
  domain_Domain : string;
  domain_Status : string;
  domain_TLD : string;
  domain_CreateDate : string;
  domain_ExpireDate : string;
  domain_SecurityLock : Number;
  domain_WhoisPrivacy : Number;
  domain_AutoRenew : Number;
  domain_NotLocal : Number
}.

Record URLForward : Type := mkURLForward {
  URLForward_ID : option Z;
  URLForward_Subdomain : string;
  URLForward_Location : string;
  URLForward_Type : string;
  URLForward_IncludePath : bool;
  URLForward_Wildcard : bool
}.

Record urlforward : Type := mkurlforward {
  urlforward_ID : Number;
  urlforward_Subdomain : string;
  urlforward_Location : string;
  urlforward_Type : string;
  urlforward_IncludePath : string;
  urlforward_Wildcard : string
}.

Record DNSRecord : Type := mkDNSRecord {
  DNSRecord_ID : option Z;
  DNSRecord_Subdomain : string;
  DNSRecord_Type : string;
  DNSRecord_Content : string;
  DNSRecord_TTL : Z;
  DNSRecord_Priority : option Z;
  DNSRecord_Notes : string
}.

Record dnsrecord : Type := mkdnsrecord {
  dnsrecord_ID : Number;
  dnsrecord_Subdomain : string;
  dnsrecord_Type : string;
  dnsrecord_Content : string;
  dnsrecord_TTL : Number;
  dnsrecord_Priority : Number;
  dnsrecord_Notes : string
}.

Record Pricing : Type := mkPricing {
  Pricing_Registration : string;
  Pricing_Renewal : string;
  Pricing_Transfer : string;
  Pricing_SpecialType : string
}.

(** The zero values a freshly declared Go variable holds. *)
Definition zero_Status : Status := mkStatus "" "".
Definition zero_Credentials : Credentials := mkCredentials "" "".
Definition zero_domain : domain := mkdomain "" "" "" "" "" "" "" "" "".
Definition zero_urlforward : urlforward := mkurlforward "" "" "" "" "" "".
Definition zero_dnsrecord : dnsrecord := mkdnsrecord "" "" "" "" "" "" "".
Definition zero_Pricing : Pricing := mkPricing "" "" "" "".

(* ===================================================================== *)
(** ** Loose-type converters *)
(* ===================================================================== *)

(** [(d *domain) convert]. The four switches are taken in the order of the
    source, each on the wire field the source names in its switch
    expression and with the operand the source gives to [fmt.Errorf]. *)
Definition domain_convert (d : domain) : result Domain :=
  securityLock <-
    (if String.eqb (Number_String (domain_SecurityLock d)) "1" then Ok true
     else if String.eqb (Number_String (domain_SecurityLock d)) "0"
     then Ok false
     else Err (Errorf "Expected security lock of '1' or '0', got '%s'."
                      (Number_String (domain_SecurityLock d)))) ;;
  whoisPrivacy <-
    (if String.eqb (Number_String (domain_NotLocal d)) "1" then Ok true
     else if String.eqb (Number_String (domain_NotLocal d)) "0"
     then Ok false
     else Err (Errorf "Expected whois privacy of '1' or '0', got '%s'."
                      (Number_String (domain_WhoisPrivacy d)))) ;;
  autoRenew <-
    (if String.eqb (Number_String (domain_NotLocal d)) "1" then Ok true
     else if String.eqb (Number_String (domain_NotLocal d)) "0"
     then Ok false
     else Err (Errorf "Expected auto renew of '1' or '0', got '%s'."
                      (Number_String (domain_AutoRenew d)))) ;;
  notLocal <-
    (if String.eqb (Number_String (domain_NotLocal d)) "1" then Ok true
     else if String.eqb (Number_String (domain_NotLocal d)) "0"
     then Ok false
     else Err (Errorf "Expected not local of '1' or '0', got '%s'."
                      (Number_String (domain_NotLocal d)))) ;;
  Ok {| Domain_Domain := domain_Domain d;
        Domain_Status := domain_Status d;
        Domain_TLD := domain_TLD d;
        Domain_CreateDate := domain_CreateDate d;
        Domain_ExpireDate := domain_ExpireDate d;
        Domain_SecurityLock := securityLock;
        Domain_WhoisPrivacy := whoisPrivacy;
        Domain_AutoRenew := autoRenew;
        Domain_NotLocal := notLocal |}.

(** [(f *URLForward) convert]: domain form to wire form. *)
Definition URLForward_convert (f : URLForward) : urlforward :=
  let id :=
    match URLForward_ID f with
    | Some i => strconv.FormatInt i
    | None => ""
    end in
  let includePath := if URLForward_IncludePath f then "yes" else "no" in
  let wildcard := if URLForward_Wildcard f then "yes" else "no" in
  {| urlforward_ID := id;
     urlforward_Subdomain := URLForward_Subdomain f;
     urlforward_Location := URLForward_Location f;
     urlforward_Type := URLForward_Type f;
     urlforward_IncludePath := includePath;
     urlforward_Wildcard := wildcard |}.

(** [(f *urlforward) convert]: wire form to domain form. The id is parsed
    first and unconditionally. *)
Definition urlforward_convert (f : urlforward) : result URLForward :=
  match Number_Int64 (urlforward_ID f) with
  | Err err =>
      Err (ErrorfErr
             "Failed to parse id as an integer with the following error: '%s'."
             err)
  | Ok id =>
      includePath <-
        (if String.eqb (urlforward_IncludePath f) "yes" then Ok true
         else if String.eqb (urlforward_IncludePath f) "no" then Ok false
         else Err (Errorf "Expected include path of 'yes' or 'no', got: '%s'."
                          (urlforward_IncludePath f))) ;;
      wildcard <-
        (if String.eqb (urlforward_Wildcard f) "yes" then Ok true
         else if String.eqb (urlforward_Wildcard f) "no" then Ok false
         else Err (Errorf "Expected wildcard of 'yes' or 'no', got: '%s'."
                          (urlforward_Wildcard f))) ;;
      Ok {| URLForward_ID := Some id;
            URLForward_Subdomain := urlforward_Subdomain f;
            URLForward_Location := urlforward_Location f;
            URLForward_Type := urlforward_Type f;
            URLForward_IncludePath := includePath;
            URLForward_Wildcard := wildcard |}
  end.

(** [(r *DNSRecord) convert]: domain form to wire form. *)
Definition DNSRecord_convert (r : DNSRecord) : dnsrecord :=
  let id :=
    match DNSRecord_ID r with
    | Some i => strconv.FormatInt i
    | None => ""
    end in
  let priority :=
    match DNSRecord_Priority r with
    | Some p => strconv.FormatInt p
    | None => ""
    end in
  {| dnsrecord_ID := id;
     dnsrecord_Subdomain := DNSRecord_Subdomain r;
     dnsrecord_Type := DNSRecord_Type r;
     dnsrecord_Content := DNSRecord_Content r;
     dnsrecord_TTL := strconv.FormatInt (DNSRecord_TTL r);
     dnsrecord_Priority := priority;
     dnsrecord_Notes := DNSRecord_Notes r |}.

(** [(r *dnsrecord) convert]: wire form to domain form. The id is looked at
    when [r.ID.String() == ""], as the source has it; the store through the
    nil [record.ID] that follows a successful parse is a panic. The id of
    the result is therefore always nil. *)
Definition dnsrecord_convert (r : dnsrecord) : result DNSRecord :=
  _ <-
    (if String.eqb (Number_String (dnsrecord_ID r)) "" then
       match Number_Int64 (dnsrecord_ID r) with
       | Err err =>
           Err (ErrorfErr
             "Failed to parse id as an integer with the following error: '%s'."
             err)
       | Ok id => Err (Panic "invalid memory address or nil pointer dereference")
       end
     else Ok tt) ;;
  match Number_Int64 (dnsrecord_TTL r) with
  | Err err =>
      Err (ErrorfErr
             "Failed to parse ttl as an integer with the following error: '%s'."
             err)
  | Ok ttl =>
      priority <-
        (if negb (String.eqb (Number_String (dnsrecord_Priority r)) "") then
           match Number_Int64 (dnsrecord_Priority r) with
           | Err err =>
               Err (ErrorfErr
  "Failed to parse priority as an integer with the following error: '%s'."
                      err)
           | Ok priority => Ok (Some priority)
           end
         else Ok None) ;;
      Ok {| DNSRecord_ID := None;
            DNSRecord_Subdomain := dnsrecord_Subdomain r;
            DNSRecord_Type := dnsrecord_Type r;
            DNSRecord_Content := dnsrecord_Content r;
            DNSRecord_TTL := ttl;
            DNSRecord_Priority := priority;
            DNSRecord_Notes := dnsrecord_Notes r |}
  end.

(* ===================================================================== *)
(** ** The JSON shape of the package's structs *)
(* ===================================================================== *)

Import gojson.

(** A field with a [json:"key"] tag, declared in the struct itself. *)
Definition tagged (goName key : string) : Field :=
  mkField goName key false true 0.

(** The fields an embedded struct promotes into its host. *)
Definition embedded (name : string) (fields : list Field) : list Field :=
  map (fun f => mkField (name +:+ "." +:+ goName f) (key f) (omitempty f)
                        (exported f) (S (depth f))) fields.

Definition Status_fields : list Field :=
  [ tagged "Status" "status"; tagged "Message" "message" ].

Definition Credentials_fields : list Field :=
  [ tagged "APIKey" "apikey"; tagged "SecretAPIKey" "secretapikey" ].

Definition domain_fields : list Field :=
  [ tagged "Domain" "domain"; tagged "Status" "status"; tagged "TLD" "TLD";
    tagged "CreateDate" "createDate"; tagged "ExpireDate" "expireDate";
    tagged "SecurityLock" "securityLock";
    tagged "WhoisPrivacy" "whoisPrivacy";
    tagged "AutoRenew" "autoRenew"; tagged "NotLocal" "notLocal" ].

(** [Type] and [IncludePath] both carry the tag [json:"type"]. *)
Definition urlforward_fields : list Field :=
  [ mkField "ID" "id" true true 0;
    tagged "Subdomain" "subdomain"; tagged "Location" "location";
    tagged "Type" "type"; tagged "IncludePath" "type";
    tagged "Wildcard" "wildcard" ].

Definition dnsrecord_fields : list Field :=
  [ mkField "ID" "id" true true 0;
    tagged "Subdomain" "name"; tagged "Type" "type";
    tagged "Content" "content"; tagged "TTL" "ttl";
    tagged "Priority" "prio"; tagged "Notes" "notes" ].

Definition Pricing_fields : list Field :=
  [ tagged "Registration" "registration"; tagged "Renewal" "renewal";
    tagged "Transfer" "transfer"; tagged "SpecialType" "specialType" ].

(** A key that resolves to a field the struct does not have cannot occur;
    the setters leave the value alone there. *)
Definition no_field {T} : decoder T := fun _ old => (old, Fine).

Definition set_Status (name : string) : decoder Status :=
  fun j s =>
    if String.eqb name "Status" then
      let '(v, o) := dec_string "Status.status" j (Status_Status s) in
      (mkStatus v (Status_Message s), o)
    else if String.eqb name "Message" then
      let '(v, o) := dec_string "Status.message" j (Status_Message s) in
      (mkStatus (Status_Status s) v, o)
    else no_field j s.

Definition set_domain (name : string) : decoder domain :=
  fun j d =>
    let 'mkdomain dm st tld cd ed sl wp ar nl := d in
    if String.eqb name "Domain" then
      let '(v, o) := dec_string "domain.domain" j dm in
      (mkdomain v st tld cd ed sl wp ar nl, o)
    else if String.eqb name "Status" then
      let '(v, o) := dec_string "domain.status" j st in
      (mkdomain dm v tld cd ed sl wp ar nl, o)
    else if String.eqb name "TLD" then
      let '(v, o) := dec_string "domain.TLD" j tld in
      (mkdomain dm st v cd ed sl wp ar nl, o)
    else if String.eqb name "CreateDate" then
      let '(v, o) := dec_string "domain.createDate" j cd in
      (mkdomain dm st tld v ed sl wp ar nl, o)
    else if String.eqb name "ExpireDate" then
      let '(v, o) := dec_string "domain.expireDate" j ed in
      (mkdomain dm st tld cd v sl wp ar nl, o)
    else if String.eqb name "SecurityLock" then
      let '(v, o) := dec_Number "domain.securityLock" j sl in
      (mkdomain dm st tld cd ed v wp ar nl, o)
    else if String.eqb name "WhoisPrivacy" then
      let '(v, o) := dec_Number "domain.whoisPrivacy" j wp in
      (mkdomain dm st tld cd ed sl v ar nl, o)
    else if String.eqb name "AutoRenew" then
      let '(v, o) := dec_Number "domain.autoRenew" j ar in
      (mkdomain dm st tld cd ed sl wp v nl, o)
    else if String.eqb name "NotLocal" then
      let '(v, o) := dec_Number "domain.notLocal" j nl in
      (mkdomain dm st tld cd ed sl wp ar v, o)
    else no_field j d.

Definition set_urlforward (name : string) : decoder urlforward :=
  fun j f =>
    let 'mkurlforward id sub loc ty ip wc := f in
    if String.eqb name "ID" then
      let '(v, o) := dec_Number "urlforward.id" j id in
      (mkurlforward v sub loc ty ip wc, o)
    else if String.eqb name "Subdomain" then
      let '(v, o) := dec_string "urlforward.subdomain" j sub in
      (mkurlforward id v loc ty ip wc, o)
    else if String.eqb name "Location" then
      let '(v, o) := dec_string "urlforward.location" j loc in
      (mkurlforward id sub v ty ip wc, o)
    else if String.eqb name "Type" then
      let '(v, o) := dec_string "urlforward.type" j ty in
      (mkurlforward id sub loc v ip wc, o)
    else if String.eqb name "IncludePath" then
      let '(v, o) := dec_string "urlforward.type" j ip in
      (mkurlforward id sub loc ty v wc, o)
    else if String.eqb name "Wildcard" then
      let '(v, o) := dec_string "urlforward.wildcard" j wc in
      (mkurlforward id sub loc ty ip v, o)
    else no_field j f.

Definition set_dnsrecord (name : string) : decoder dnsrecord :=
  fun j r =>
    let 'mkdnsrecord id sub ty ct ttl prio notes := r in
    if String.eqb name "ID" then
      let '(v, o) := dec_Number "dnsrecord.id" j id in
      (mkdnsrecord v sub ty ct ttl prio notes, o)
    else if String.eqb name "Subdomain" then
      let '(v, o) := dec_string "dnsrecord.name" j sub in
      (mkdnsrecord id v ty ct ttl prio notes, o)
    else if String.eqb name "Type" then
      let '(v, o) := dec_string "dnsrecord.type" j ty in
      (mkdnsrecord id sub v ct ttl prio notes, o)
    else if String.eqb name "Content" then
      let '(v, o) := dec_string "dnsrecord.content" j ct in
      (mkdnsrecord id sub ty v ttl prio notes, o)
    else if String.eqb name "TTL" then
      let '(v, o) := dec_Number "dnsrecord.ttl" j ttl in
      (mkdnsrecord id sub ty ct v prio notes, o)
    else if String.eqb name "Priority" then
      let '(v, o) := dec_Number "dnsrecord.prio" j prio in
      (mkdnsrecord id sub ty ct ttl v notes, o)
    else if String.eqb name "Notes" then
      let '(v, o) := dec_string "dnsrecord.notes" j notes in
      (mkdnsrecord id sub ty ct ttl prio v, o)
    else no_field j r.

Definition set_Pricing (name : string) : decoder Pricing :=
  fun j p =>
    let 'mkPricing reg ren tr sp := p in
    if String.eqb name "Registration" then
      let '(v, o) := dec_string "Pricing.registration" j reg in
      (mkPricing v ren tr sp, o)
    else if String.eqb name "Renewal" then
      let '(v, o) := dec_string "Pricing.renewal" j ren in
      (mkPricing reg v tr sp, o)
    else if String.eqb name "Transfer" then
      let '(v, o) := dec_string "Pricing.transfer" j tr in
      (mkPricing reg ren v sp, o)
    else if String.eqb name "SpecialType" then
      let '(v, o) := dec_string "Pricing.specialType" j sp in
      (mkPricing reg ren tr v, o)
    else no_field j p.

Definition dec_domain : decoder domain :=
  dec_struct "domain" domain_fields set_domain.
Definition dec_urlforward : decoder urlforward :=
  dec_struct "urlforward" urlforward_fields set_urlforward.
Definition dec_dnsrecord : decoder dnsrecord :=
  dec_struct "dnsrecord" dnsrecord_fields set_dnsrecord.
Definition dec_Pricing : decoder Pricing :=
  dec_struct "Pricing" Pricing_fields set_Pricing.

(** The entries of an object stored into a [map[string]Pricing]: each value
    is decoded into a zero [Pricing] and put under its key, so a repeated
    key keeps its last value. *)
Fixpoint dec_entries (members : list (string * json))
    (m : gmap string Pricing) : gmap string Pricing * outcome :=
  match members with
  | [] => (m, Fine)
  | (k, v) :: members' =>
      let '(p, o) := dec_Pricing v zero_Pricing in
      match o with
      | Stopped e => (m, Stopped e)
      | _ =>
          let '(m', o') := dec_entries members' (<[k := p]> m) in
          (m', keep o o')
      end
  end.

(** Into a [map[string]Pricing]; a nil map and an empty one are both the
    empty [gmap]. *)
Definition dec_Pricing_map (field : string)
    : decoder (gmap string Pricing) :=
  fun j old =>
    match j with
    | JObject members => dec_entries members old
    | JNull => (∅, Fine)
    | _ => mismatch j field old
    end.

(** The field encoders of the two wire structs that are sent. *)
Definition get_Credentials (c : Credentials) (name : string) : encoded :=
  if String.eqb name "APIKey" then enc_string (APIKey c)
  else enc_string (SecretAPIKey c).

Definition get_urlforward (f : urlforward) (name : string) : encoded :=
  if String.eqb name "ID" then enc_Number (urlforward_ID f)
  else if String.eqb name "Subdomain" then
    enc_string (urlforward_Subdomain f)
  else if String.eqb name "Location" then enc_string (urlforward_Location f)
  else if String.eqb name "Type" then enc_string (urlforward_Type f)
  else if String.eqb name "IncludePath" then
    enc_string (urlforward_IncludePath f)
  else enc_string (urlforward_Wildcard f).

Definition get_dnsrecord (r : dnsrecord) (name : string) : encoded :=
  if String.eqb name "ID" then enc_Number (dnsrecord_ID r)
  else if String.eqb name "Subdomain" then enc_string (dnsrecord_Subdomain r)
  else if String.eqb name "Type" then enc_string (dnsrecord_Type r)
  else if String.eqb name "Content" then enc_string (dnsrecord_Content r)
  else if String.eqb name "TTL" then enc_Number (dnsrecord_TTL r)
  else if String.eqb name "Priority" then enc_Number (dnsrecord_Priority r)
  else enc_string (dnsrecord_Notes r).

(* ===================================================================== *)
(** ** Interfaces and request/response structs *)
(* ===================================================================== *)

(** The Go interface [status]. *)
Class status (R : Type) : Type := {
  getStatus : R -> string;
  getMessage : R -> string
}.

(** The Go interface [credentials]; the methods have pointer receivers, so
    they return the receiver as they leave it. *)
Class credentials (Q : Type) : Type := {
  setAPIKey : string -> Q -> Q;
  setSecretAPIKey : string -> Q -> Q
}.

(** What [json.Marshal] and [json.Unmarshal] do on a type. *)
Class Marshaler (Q : Type) : Type := {
  Marshal : Q -> result json
}.

Class Unmarshaler (R : Type) : Type := {
  Unmarshal : json -> R -> R * option error
}.

#[export] Instance Status_status : status Status := {
  getStatus s := Status_Status s;
  getMessage s := Status_Message s
}.

#[export] Instance Credentials_credentials : credentials Credentials := {
  setAPIKey apiKey c := mkCredentials apiKey (SecretAPIKey c);
  setSecretAPIKey secretAPIKey c := mkCredentials (APIKey c) secretAPIKey
}.

(** [Some rest] when [name] is [prefix.rest]: the path of a field promoted
    from the embedded struct [prefix]. *)
Fixpoint promoted (prefix name : string) : option string :=
  match prefix, name with
  | EmptyString, String "." rest => Some rest
  | String a prefix', String b name' =>
      if Ascii.eqb a b then promoted prefix' name' else None
  | _, _ => None
  end.

(** Requests. [DomainList] sends [struct { Credentials; Start int64 }],
    [AddURLForward] sends [struct { Credentials; urlforward }], the other
    calls modelled here send a bare [Credentials]. *)
Record DomainList_req : Type := mkDomainList_req {
  DomainList_req_Credentials : Credentials;
  Start : Z
}.

Record AddURLForward_req : Type := mkAddURLForward_req {
  AddURLForward_req_Credentials : Credentials;
  AddURLForward_req_urlforward : urlforward
}.

Definition DomainList_req_fields : list Field :=
  embedded "Credentials" Credentials_fields ++ [ tagged "Start" "start" ].

Definition AddURLForward_req_fields : list Field :=
  embedded "Credentials" Credentials_fields
    ++ embedded "urlforward" urlforward_fields.

#[export] Instance DomainList_req_credentials : credentials DomainList_req := {
  setAPIKey apiKey q :=
    mkDomainList_req (setAPIKey apiKey (DomainList_req_Credentials q))
                     (Start q);
  setSecretAPIKey secretAPIKey q :=
    mkDomainList_req
      (setSecretAPIKey secretAPIKey (DomainList_req_Credentials q)) (Start q)
}.

#[export] Instance AddURLForward_req_credentials
  : credentials AddURLForward_req := {
  setAPIKey apiKey q :=
    mkAddURLForward_req
      (setAPIKey apiKey (AddURLForward_req_Credentials q))
      (AddURLForward_req_urlforward q);
  setSecretAPIKey secretAPIKey q :=
    mkAddURLForward_req
      (setSecretAPIKey secretAPIKey (AddURLForward_req_Credentials q))
      (AddURLForward_req_urlforward q)
}.

#[export] Instance Credentials_Marshaler : Marshaler Credentials := {
  Marshal c := enc_struct Credentials_fields (get_Credentials c)
}.

#[export] Instance DomainList_req_Marshaler : Marshaler DomainList_req := {
  Marshal q :=
    enc_struct DomainList_req_fields
      (fun name =>
         match promoted "Credentials" name with
         | Some n => get_Credentials (DomainList_req_Credentials q) n
         | None => enc_int64 (Start q)
         end)
}.

#[export] Instance AddURLForward_req_Marshaler
  : Marshaler AddURLForward_req := {
  Marshal q :=
    enc_struct AddURLForward_req_fields
      (fun name =>
         match promoted "Credentials" name with
         | Some n => get_Credentials (AddURLForward_req_Credentials q) n
         | None =>
             match promoted "urlforward" name with
             | Some n => get_urlforward (AddURLForward_req_urlforward q) n
             | None => enc_string ""
             end
         end)
}.

(** [CreateDNSRecord] and [EditDNSRecord] send
    [struct { Credentials; dnsrecord }], [UpdateNameServers] sends
    [struct { Credentials; NS []string }]. *)
Record DNSRecord_req : Type := mkDNSRecord_req {
  DNSRecord_req_Credentials : Credentials;
  DNSRecord_req_dnsrecord : dnsrecord
}.

Record UpdateNameServers_req : Type := mkUpdateNameServers_req {
  UpdateNameServers_req_Credentials : Credentials;
  NS : option (list string)
}.

Definition DNSRecord_req_fields : list Field :=
  embedded "Credentials" Credentials_fields
    ++ embedded "dnsrecord" dnsrecord_fields.

Definition UpdateNameServers_req_fields : list Field :=
  embedded "Credentials" Credentials_fields ++ [ tagged "NS" "ns" ].

#[export] Instance DNSRecord_req_credentials : credentials DNSRecord_req := {
  setAPIKey apiKey q :=
    mkDNSRecord_req (setAPIKey apiKey (DNSRecord_req_Credentials q))
                    (DNSRecord_req_dnsrecord q);
  setSecretAPIKey secretAPIKey q :=
    mkDNSRecord_req
      (setSecretAPIKey secretAPIKey (DNSRecord_req_Credentials q))
      (DNSRecord_req_dnsrecord q)
}.

#[export] Instance UpdateNameServers_req_credentials
  : credentials UpdateNameServers_req := {
  setAPIKey apiKey q :=
    mkUpdateNameServers_req
      (setAPIKey apiKey (UpdateNameServers_req_Credentials q)) (NS q);
  setSecretAPIKey secretAPIKey q :=
    mkUpdateNameServers_req
      (setSecretAPIKey secretAPIKey (UpdateNameServers_req_Credentials q))
      (NS q)
}.

#[export] Instance DNSRecord_req_Marshaler : Marshaler DNSRecord_req := {
  Marshal q :=
    enc_struct DNSRecord_req_fields
      (fun name =>
         match promoted "Credentials" name with
         | Some n => get_Credentials (DNSRecord_req_Credentials q) n
         | None =>
             match promoted "dnsrecord" name with
             | Some n => get_dnsrecord (DNSRecord_req_dnsrecord q) n
             | None => enc_string ""
             end
         end)
}.

#[export] Instance UpdateNameServers_req_Marshaler
  : Marshaler UpdateNameServers_req := {
  Marshal q :=
    enc_struct UpdateNameServers_req_fields
      (fun name =>
         match promoted "Credentials" name with
         | Some n => get_Credentials (UpdateNameServers_req_Credentials q) n
         | None => enc_strings (NS q)
         end)
}.

(** Responses: [struct { Status; Domains []domain }] and its likes. The
    field of the pricing response is spelled [pricing] in the source, a
    name that is not exported. *)
Record DomainList_res : Type := mkDomainList_res {
  DomainList_res_Status : Status;
  Domains : list domain
}.

Record URLForwards_res : Type := mkURLForwards_res {
  URLForwards_res_Status : Status;
  Forwards : list urlforward
}.

Record DNSRecords_res : Type := mkDNSRecords_res {
  DNSRecords_res_Status : Status;
  Records : list dnsrecord
}.

Record Pricing_res : Type := mkPricing_res {
  Pricing_res_Status : Status;
  pricing : gmap string Pricing
}.

Definition DomainList_res_fields : list Field :=
  embedded "Status" Status_fields ++ [ tagged "Domains" "domains" ].
Definition URLForwards_res_fields : list Field :=
  embedded "Status" Status_fields ++ [ tagged "Forwards" "forwards" ].
Definition DNSRecords_res_fields : list Field :=
  embedded "Status" Status_fields ++ [ tagged "Records" "records" ].
Definition Pricing_res_fields : list Field :=
  embedded "Status" Status_fields
    ++ [ mkField "pricing" "pricing" false false 0 ].

Definition set_DomainList_res (name : string) : decoder DomainList_res :=
  fun j r =>
    match promoted "Status" name with
    | Some n =>
        let '(s, o) := set_Status n j (DomainList_res_Status r) in
        (mkDomainList_res s (Domains r), o)
    | None =>
        let '(v, o) :=
          dec_slice "domains" dec_domain zero_domain j (Domains r) in
        (mkDomainList_res (DomainList_res_Status r) v, o)
    end.

Definition set_URLForwards_res (name : string) : decoder URLForwards_res :=
  fun j r =>
    match promoted "Status" name with
    | Some n =>
        let '(s, o) := set_Status n j (URLForwards_res_Status r) in
        (mkURLForwards_res s (Forwards r), o)
    | None =>
        let '(v, o) :=
          dec_slice "forwards" dec_urlforward zero_urlforward j (Forwards r) in
        (mkURLForwards_res (URLForwards_res_Status r) v, o)
    end.

Definition set_DNSRecords_res (name : string) : decoder DNSRecords_res :=
  fun j r =>
    match promoted "Status" name with
    | Some n =>
        let '(s, o) := set_Status n j (DNSRecords_res_Status r) in
        (mkDNSRecords_res s (Records r), o)
    | None =>
        let '(v, o) :=
          dec_slice "records" dec_dnsrecord zero_dnsrecord j (Records r) in
        (mkDNSRecords_res (DNSRecords_res_Status r) v, o)
    end.

Definition set_Pricing_res (name : string) : decoder Pricing_res :=
  fun j r =>
    match promoted "Status" name with
    | Some n =>
        let '(s, o) := set_Status n j (Pricing_res_Status r) in
        (mkPricing_res s (pricing r), o)
    | None =>
        let '(v, o) := dec_Pricing_map "pricing" j (pricing r) in
        (mkPricing_res (Pricing_res_Status r) v, o)
    end.

(** [struct { Status; ID int64 }], the response of [CreateDNSRecord]. *)
Record CreateDNSRecord_res : Type := mkCreateDNSRecord_res {
  CreateDNSRecord_res_Status : Status;
  CreateDNSRecord_res_ID : Z
}.

Definition CreateDNSRecord_res_fields : list Field :=
  embedded "Status" Status_fields ++ [ tagged "ID" "id" ].

Definition set_CreateDNSRecord_res (name : string)
    : decoder CreateDNSRecord_res :=
  fun j r =>
    match promoted "Status" name with
    | Some n =>
        let '(s, o) := set_Status n j (CreateDNSRecord_res_Status r) in
        (mkCreateDNSRecord_res s (CreateDNSRecord_res_ID r), o)
    | None =>
        let '(v, o) := dec_int64 "id" j (CreateDNSRecord_res_ID r) in
        (mkCreateDNSRecord_res (CreateDNSRecord_res_Status r) v, o)
    end.

(** [json.Unmarshal] of a document into a struct with the given fields. *)
Definition unmarshal_struct {T} (name : string) (fields : list Field)
    (set : string -> decoder T) (j : json) (old : T) : T * option error :=
  let '(t, o) := dec_struct name fields set j old in (t, outcome_error o).

#[export] Instance Status_Unmarshaler : Unmarshaler Status := {
  Unmarshal := unmarshal_struct "Status" Status_fields set_Status
}.
#[export] Instance DomainList_res_Unmarshaler : Unmarshaler DomainList_res := {
  Unmarshal := unmarshal_struct "" DomainList_res_fields set_DomainList_res
}.
#[export] Instance URLForwards_res_Unmarshaler
  : Unmarshaler URLForwards_res := {
  Unmarshal := unmarshal_struct "" URLForwards_res_fields set_URLForwards_res
}.
#[export] Instance DNSRecords_res_Unmarshaler : Unmarshaler DNSRecords_res := {
  Unmarshal := unmarshal_struct "" DNSRecords_res_fields set_DNSRecords_res
}.
#[export] Instance Pricing_res_Unmarshaler : Unmarshaler Pricing_res := {
  Unmarshal := unmarshal_struct "" Pricing_res_fields set_Pricing_res
}.

#[export] Instance CreateDNSRecord_res_Unmarshaler
  : Unmarshaler CreateDNSRecord_res := {
  Unmarshal :=
    unmarshal_struct "" CreateDNSRecord_res_fields set_CreateDNSRecord_res
}.
#[export] Instance CreateDNSRecord_res_status : status CreateDNSRecord_res := {
  getStatus r := getStatus (CreateDNSRecord_res_Status r);
  getMessage r := getMessage (CreateDNSRecord_res_Status r)
}.
#[export] Instance DomainList_res_status : status DomainList_res := {
  getStatus r := getStatus (DomainList_res_Status r);
  getMessage r := getMessage (DomainList_res_Status r)
}.
#[export] Instance URLForwards_res_status : status URLForwards_res := {
  getStatus r := getStatus (URLForwards_res_Status r);
  getMessage r := getMessage (URLForwards_res_Status r)
}.
#[export] Instance DNSRecords_res_status : status DNSRecords_res := {
  getStatus r := getStatus (DNSRecords_res_Status r);
  getMessage r := getMessage (DNSRecords_res_Status r)
}.
#[export] Instance Pricing_res_status : status Pricing_res := {
  getStatus r := getStatus (Pricing_res_Status r);
  getMessage r := getMessage (Pricing_res_Status r)
}.

(* ===================================================================== *)
(** ** Transport core *)
(* ===================================================================== *)

Record URL : Type := mkURL {
  Scheme : string;
  Host : string;
  Path : string
}.

(** [Client]. Its [*http.Client] is the network the calls run against. *)
Record Client : Type := mkClient {
  Client_Credentials : Credentials;
  url : URL
}.

Definition NewClient (apiKey secretAPIKey : string) (forceIPv4 : bool)
    : Client :=
  let host := if forceIPv4 then "api-ipv4.porkbun.com" else "porkbun.com" in
  let scheme := "https" in
  let path := "api/json/v3" in
  {| Client_Credentials := mkCredentials apiKey secretAPIKey;
     url := mkURL scheme host path |}.

(** An HTTP request as [do] builds it: the method, the client's base URL
    and the endpoint path joined to it, the headers, and the document of
    the body, if any. *)
Record Request : Type := mkRequest {
  Method : string;
  Base : URL;
  Endpoint : string;
  Header : list (string * string);
  Body : option json
}.

(** What comes back for a request that was sent. *)
Inductive Exchange : Type :=
| SendFails (err : error)      (* c.client.Do returns an error *)
| ReadFails (err : error)      (* io.ReadAll of the body returns an error *)
| NotJSON (err : error)        (* the body read is not a JSON document *)
| Document (j : json).         (* the body read spells the document j *)

(** The HTTP stack and the server behind it: whether a request can be
    built at all, and the exchange of the [n]-th request sent. *)
Record Network : Type := mkNetwork {
  NewRequestWithContext : string -> URL -> string -> option error;
  RoundTrip : nat -> Request -> Exchange
}.

(** The state a call runs in: the client it is a method of, and the
    requests sent so far, oldest first. *)
Record World : Type := mkWorld {
  self : Client;
  sent : list Request
}.

Definition M (A : Type) : Type := World -> A * World.

Definition ret {A} (a : A) : M A := fun w => (a, w).

Definition bindM {A B} (m : M A) (k : A -> M B) : M B :=
  fun w => let '(a, w') := m w in k a w'.

Notation "'let*' x ':=' m 'in' k" := (bindM m (fun x => k))
  (at level 10, x pattern, m at level 100, k at level 200).

Definition getClient : M Client := fun w => (self w, w).

Section Transport.

Variable net : Network.

(** [c.client.Do(req)] followed by [io.ReadAll(res.Body)]: one request goes
    out and is recorded. *)
Definition roundTrip (req : Request) : M Exchange :=
  fun w =>
    (RoundTrip net (length (sent w)) req,
     mkWorld (self w) (sent w ++ [req])).

(** [(c *Client) do]. *)
Definition do {R} `{status R} `{Unmarshaler R}
    (method path : string) (body : option json) (response : R)
    : M (R * option error) :=
  let* c := getClient in
  match NewRequestWithContext net method (url c) path with
  | Some err =>
      ret (response,
           Some (ErrorfErr
             "Failed to create an HTPP request with the following error: %s"
             err))
  | None =>
      let req :=
        mkRequest method (url c) path
          [ ("Content-Type", "application/json");
            ("Accept", "application/json") ] body in
      let* x := roundTrip req in
      match x with
      | SendFails err =>
          ret (response,
               Some (ErrorfErr
             "Failed to process an HTTP request with the following error: %s"
                       err))
      | ReadFails err =>
          ret (response,
               Some (ErrorfErr
               "Failed to read response body with the following error: %s"
                       err))
      | NotJSON err =>
          ret (response,
               Some (ErrorfErr
  "Failed to unmarshal an API response as JSON with the following error: %s"
                       err))
      | Document j =>
          let '(response', uerr) := Unmarshal j response in
          match uerr with
          | Some err =>
              ret (response',
                   Some (ErrorfErr
  "Failed to unmarshal an API response as JSON with the following error: %s"
                           err))
          | None =>
              if String.eqb (getStatus response') "SUCCESS" then
                ret (response', None)
              else if String.eqb (getStatus response') "ERROR" then
                ret (response',
                     Some (Errorf
  "Received 'ERROR' response status with the following message: %s"
                             (getMessage response')))
              else
                ret (response',
                     Some (Errorf
  "Received unknown response status. Expected 'SUCCESS' or 'ERROR', got: '%s'."
                             (getStatus response')))
          end
      end
  end.

(** [(c *Client) get]. *)
Definition get {R} `{status R} `{Unmarshaler R}
    (path : string) (res : R) : M (R * option error) :=
  do "GET" path None res.

(** [(c *Client) post]. The request object is written to through its
    setters; it is returned next to the response as the call leaves it. *)
Definition post {Q R} `{credentials Q} `{Marshaler Q}
    `{status R} `{Unmarshaler R}
    (path : string) (req : Q) (res : R) : M (Q * R * option error) :=
  let* c := getClient in
  let req := setAPIKey (APIKey (Client_Credentials c)) req in
  let req := setSecretAPIKey (SecretAPIKey (Client_Credentials c)) req in
  match Marshal req with
  | Err err =>
      ret (req, res,
           Some (ErrorfErr
  "Failed to marshal an API request as JSON with the following error: %s"
                   err))
  | Ok body =>
      let* (res', err) := do "POST" path (Some body) res in
      ret (req, res', err)
  end.

(* ===================================================================== *)
(** ** Resource operation methods *)
(* ===================================================================== *)

(** The loop shared by the listing calls:
    [for _, w := range ws { d, err := w.convert(); if err != nil { errs =
    append(errs, err) }; out = append(out, d) }]. A record that fails to
    convert leaves a nil pointer in its place. (A panic inside [convert]
    would unwind the whole call instead of being collected; none of the
    three converters can panic, see [dnsrecord_convert_no_panic].) *)
Fixpoint convert_each {W D} (convert : W -> result D) (ws : list W)
    (out : list (option D)) (errs : list error)
    : list (option D) * list error :=
  match ws with
  | [] => (out, errs)
  | w :: ws' =>
      match convert w with
      | Ok d => convert_each convert ws' (out ++ [Some d]) errs
      | Err err => convert_each convert ws' (out ++ [None]) (errs ++ [err])
      end
  end.

(** [(c *Client) DomainList]. *)
Definition DomainList (start : Z) : M (list (option Domain) * list error) :=
  let path := "domain/listAll" in
  let req := mkDomainList_req zero_Credentials start in
  let res := mkDomainList_res zero_Status [] in
  let* (_, res, err) := post path req res in
  match err with
  | Some err => ret ([], [err])
  | None => ret (convert_each domain_convert (Domains res) [] [])
  end.

(** [(c *Client) URLForwards]. *)
Definition URLForwards (domain : string)
    : M (list (option URLForward) * list error) :=
  let path := "domain/getUrlForwarding/" +:+ domain in
  let req := zero_Credentials in
  let res := mkURLForwards_res zero_Status [] in
  let* (_, res, err) := post path req res in
  match err with
  | Some err => ret ([], [err])
  | None => ret (convert_each urlforward_convert (Forwards res) [] [])
  end.

(** [(c *Client) AddURLForward]. *)
Definition AddURLForward (domain : string) (forward : URLForward)
    : M (option error) :=
  let path := "domain/addUrlForward/" +:+ domain in
  let req := mkAddURLForward_req zero_Credentials (URLForward_convert forward) in
  let res := zero_Status in
  let* (_, _, err) := post path req res in
  ret err.

(** [(c *Client) DeleteURLForward]. *)
Definition DeleteURLForward (domain : string) (id : Z) : M (option error) :=
  let path :=
    "domain/deleteUrlForward/" +:+ domain +:+ "/" +:+ strconv.FormatInt id in
  let req := zero_Credentials in
  let res := zero_Status in
  let* (_, _, err) := post path req res in
  ret err.

(** [(c *Client) CreateDNSRecord]: the id of the response and the error,
    whatever the error is. *)
Definition CreateDNSRecord (domain : string) (record : DNSRecord)
    : M (Z * option error) :=
  let path := "dns/create/" +:+ domain in
  let req := mkDNSRecord_req zero_Credentials (DNSRecord_convert record) in
  let res := mkCreateDNSRecord_res zero_Status 0 in
  let* (_, res, err) := post path req res in
  ret (CreateDNSRecord_res_ID res, err).

(** [(c *Client) DNSRecords]. *)
Definition DNSRecords (domain : string) (id : option Z)
    : M (list (option DNSRecord) * list error) :=
  let path := "dns/retrieve/" +:+ domain in
  let path :=
    match id with
    | Some i => path +:+ "/" +:+ strconv.FormatInt i
    | None => path
    end in
  let req := zero_Credentials in
  let res := mkDNSRecords_res zero_Status [] in
  let* (_, res, err) := post path req res in
  match err with
  | Some err => ret ([], [err])
  | None => ret (convert_each dnsrecord_convert (Records res) [] [])
  end.

(** [(c *Client) DNSRecordsByTypeName]. *)
Definition DNSRecordsByTypeName (domain type_ subdomain : string)
    : M (list (option DNSRecord) * list error) :=
  let path := "dns/retrieveByNameType/" +:+ domain +:+ "/" +:+ type_ in
  let path :=
    if negb (String.eqb subdomain "") then path +:+ "/" +:+ subdomain
    else path in
  let req := zero_Credentials in
  let res := mkDNSRecords_res zero_Status [] in
  let* (_, res, err) := post path req res in
  match err with
  | Some err => ret ([], [err])
  | None => ret (convert_each dnsrecord_convert (Records res) [] [])
  end.

(** [(c *Client) Pricing]: the map of the response and the error, whatever
    the error is. *)
Definition Pricing_ : M (gmap string Pricing * option error) :=
  let path := "pricing/get" in
  let res := mkPricing_res zero_Status ∅ in
  let* (res, err) := get path res in
  ret (pricing res, err).

(* ===================================================================== *)
(** ** The domain-list data source *)
(* ===================================================================== *)

Record domainModel : Type := mkdomainModel {
  model_Domain : string;
  model_Status : string;
  model_TLD : string;
  model_CreateDate : string;
  model_ExpireDate : string;
  model_SecurityLock : bool;
  model_WhoisPrivacy : bool;
  model_AutoRenew : bool;
  model_NotLocal : bool
}.

Definition toModel (d : Domain) : domainModel :=
  mkdomainModel (Domain_Domain d) (Domain_Status d) (Domain_TLD d)
    (Domain_CreateDate d) (Domain_ExpireDate d) (Domain_SecurityLock d)
    (Domain_WhoisPrivacy d) (Domain_AutoRenew d) (Domain_NotLocal d).

(** The inner loop of [Read]: every [*Domain] is dereferenced, which is a
    panic on a nil one. *)
Fixpoint appendModels (models : list domainModel)
    (domains : list (option Domain)) : result (list domainModel) :=
  match domains with
  | [] => Ok models
  | Some d :: domains' => appendModels (models ++ [toModel d]) domains'
  | None :: _ => Err (Panic "invalid memory address or nil pointer dereference")
  end.

(** What [Read] leaves behind: the [domains] it sets in the state, and the
    diagnostics it adds, each a summary and the error that is its detail. *)
Record ReadResult : Type := mkReadResult {
  State_Domains : list domainModel;
  Diagnostics : list (string * error)
}.

(** The loop of [(d *DomainListDataSource) Read],
    [for start := int64(0); ; start += 1000 { ... }], from the iteration at
    offset [start] on. The loop has no bound of its own: [fuel] is the
    number of iterations allowed, and [None] means that they did not
    suffice. *)
Fixpoint Read_loop (fuel : nat) (start : Z) (models : list domainModel)
    : M (option (result ReadResult)) :=
  match fuel with
  | O => ret None
  | S fuel' =>
      let* (domains, errs) := DomainList start in
      match errs with
      | _ :: _ =>
          ret (Some (Ok (mkReadResult models
                           (map (fun err => ("Client Error", err)) errs))))
      | [] =>
          match appendModels models domains with
          | Err e => ret (Some (Err e))
          | Ok models' =>
              if Z.of_nat (length domains) <? 1000 then
                ret (Some (Ok (mkReadResult models' [])))
              else Read_loop fuel' (strconv.wrap64 (start + 1000)) models'
          end
      end
  end.

(** [(d *DomainListDataSource) Read], once the configuration is read. *)
Definition Read (fuel : nat) : M (option (result ReadResult)) :=
  Read_loop fuel 0 [].

End Transport.

(* ===================================================================== *)
(** ** The other operation methods of the client *)
(* ===================================================================== *)

(** [struct { Status; YourIP string }], the response of [Ping]. *)
Record Ping_res : Type := mkPing_res {
  Ping_res_Status : Status;
  YourIP : string
}.

(** [struct { Status; NS []string }], the response of [NameServers]. *)
Record NameServers_res : Type := mkNameServers_res {
  NameServers_res_Status : Status;
  NameServers_res_NS : list string
}.

Record SSLBundle : Type := mkSSLBundle {
  IntermediateCertificate : string;
  CertificateChain : string;
  PublicKey : string;
  PrivateKey : string
}.

(** [struct { Status; SSLBundle }], the response of [SSLBundle]. *)
Record SSLBundle_res : Type := mkSSLBundle_res {
  SSLBundle_res_Status : Status;
  SSLBundle_res_SSLBundle : SSLBundle
}.

Definition zero_SSLBundle : SSLBundle := mkSSLBundle "" "" "" "".

Definition SSLBundle_fields : list gojson.Field :=
  [ tagged "IntermediateCertificate" "intermediatecertificate";
    tagged "CertificateChain" "certificatechain";
    tagged "PublicKey" "publickey";
    tagged "PrivateKey" "privatekey" ].

Definition Ping_res_fields : list gojson.Field :=
  embedded "Status" Status_fields ++ [ tagged "YourIP" "yourIp" ].
Definition NameServers_res_fields : list gojson.Field :=
  embedded "Status" Status_fields ++ [ tagged "NS" "ns" ].
Definition SSLBundle_res_fields : list gojson.Field :=
  embedded "Status" Status_fields ++ embedded "SSLBundle" SSLBundle_fields.

Definition set_SSLBundle (name : string) : gojson.decoder SSLBundle :=
  fun j b =>
    let 'mkSSLBundle ic cc pub priv := b in
    if String.eqb name "IntermediateCertificate" then
      let '(v, o) :=
        gojson.dec_string "SSLBundle.intermediatecertificate" j ic in
      (mkSSLBundle v cc pub priv, o)
    else if String.eqb name "CertificateChain" then
      let '(v, o) := gojson.dec_string "SSLBundle.certificatechain" j cc in
      (mkSSLBundle ic v pub priv, o)
    else if String.eqb name "PublicKey" then
      let '(v, o) := gojson.dec_string "SSLBundle.publickey" j pub in
      (mkSSLBundle ic cc v priv, o)
    else if String.eqb name "PrivateKey" then
      let '(v, o) := gojson.dec_string "SSLBundle.privatekey" j priv in
      (mkSSLBundle ic cc pub v, o)
    else no_field j b.

Definition set_Ping_res (name : string) : gojson.decoder Ping_res :=
  fun j r =>
    match promoted "Status" name with
    | Some n =>
        let '(s, o) := set_Status n j (Ping_res_Status r) in
        (mkPing_res s (YourIP r), o)
    | None =>
        let '(v, o) := gojson.dec_string "yourIp" j (YourIP r) in
        (mkPing_res (Ping_res_Status r) v, o)
    end.

Definition set_NameServers_res (name : string)
    : gojson.decoder NameServers_res :=
  fun j r =>
    match promoted "Status" name with
    | Some n =>
        let '(s, o) := set_Status n j (NameServers_res_Status r) in
        (mkNameServers_res s (NameServers_res_NS r), o)
    | None =>
        let '(v, o) :=
          gojson.dec_slice "ns" (gojson.dec_string "ns") ""
            j (NameServers_res_NS r) in
        (mkNameServers_res (NameServers_res_Status r) v, o)
    end.

Definition set_SSLBundle_res (name : string) : gojson.decoder SSLBundle_res :=
  fun j r =>
    match promoted "Status" name with
    | Some n =>
        let '(s, o) := set_Status n j (SSLBundle_res_Status r) in
        (mkSSLBundle_res s (SSLBundle_res_SSLBundle r), o)
    | None =>
        match promoted "SSLBundle" name with
        | Some n =>
            let '(b, o) := set_SSLBundle n j (SSLBundle_res_SSLBundle r) in
            (mkSSLBundle_res (SSLBundle_res_Status r) b, o)
        | None => no_field j r
        end
    end.

#[export] Instance Ping_res_Unmarshaler : Unmarshaler Ping_res := {
  Unmarshal := unmarshal_struct "" Ping_res_fields set_Ping_res
}.
#[export] Instance NameServers_res_Unmarshaler
  : Unmarshaler NameServers_res := {
  Unmarshal := unmarshal_struct "" NameServers_res_fields set_NameServers_res
}.
#[export] Instance SSLBundle_res_Unmarshaler : Unmarshaler SSLBundle_res := {
  Unmarshal := unmarshal_struct "" SSLBundle_res_fields set_SSLBundle_res
}.

#[export] Instance Ping_res_status : status Ping_res := {
  getStatus r := getStatus (Ping_res_Status r);
  getMessage r := getMessage (Ping_res_Status r)
}.
#[export] Instance NameServers_res_status : status NameServers_res := {
  getStatus r := getStatus (NameServers_res_Status r);
  getMessage r := getMessage (NameServers_res_Status r)
}.
#[export] Instance SSLBundle_res_status : status SSLBundle_res := {
  getStatus r := getStatus (SSLBundle_res_Status r);
  getMessage r := getMessage (SSLBundle_res_Status r)
}.

Section MoreOperations.

Variable net : Network.

(** [(c *Client) Ping]: the address of the response and the error,
    whatever the error is. *)
Definition Ping : M (string * option error) :=
  let path := "ping" in
  let req := zero_Credentials in
  let res := mkPing_res zero_Status "" in
  let* (_, res, err) := post net path req res in
  ret (YourIP res, err).

(** [(c *Client) NameServers]. *)
Definition NameServers (domain : string) : M (list string * option error) :=
  let path := "domain/getNs/" +:+ domain in
  let req := zero_Credentials in
  let res := mkNameServers_res zero_Status [] in
  let* (_, res, err) := post net path req res in
  ret (NameServers_res_NS res, err).

(** [(c *Client) UpdateNameServers]; a nil [ns] is [None]. *)
Definition UpdateNameServers (domain : string) (ns : option (list string))
    : M (option error) :=
  let path := "domain/updateNs/" +:+ domain in
  let req := mkUpdateNameServers_req zero_Credentials ns in
  let res := zero_Status in
  let* (_, _, err) := post net path req res in
  ret err.

(** [(c *Client) SSLBundle]: a pointer to the bundle of the response, never
    nil, and the error. *)
Definition SSLBundle_ (domain : string) : M (SSLBundle * option error) :=
  let path := "ssl/retrieve/" +:+ domain in
  let req := zero_Credentials in
  let res := mkSSLBundle_res zero_Status zero_SSLBundle in
  let* (_, res, err) := post net path req res in
  ret (SSLBundle_res_SSLBundle res, err).

(** [(c *Client) EditDNSRecord]. The path is built from [*record.ID]
    before anything else, which is a panic on a record without id. *)
Definition EditDNSRecord (domain : string) (record : DNSRecord)
    : M (option error) :=
  match DNSRecord_ID record with
  | None =>
      ret (Some (Panic "invalid memory address or nil pointer dereference"))
  | Some id =>
      let path := "dns/edit/" +:+ domain +:+ "/" +:+ strconv.FormatInt id in
      let req := mkDNSRecord_req zero_Credentials (DNSRecord_convert record) in
      let res := zero_Status in
      let* (_, _, err) := post net path req res in
      ret err
  end.

(** [(c *Client) DeleteDNSRecord]. *)
Definition DeleteDNSRecord (domain : string) (id : Z) : M (option error) :=
  let path := "dns/delete/" +:+ domain +:+ "/" +:+ strconv.FormatInt id in
  let req := zero_Credentials in
  let res := zero_Status in
  let* (_, _, err) := post net path req res in
  ret err.

End MoreOperations.

(* ===================================================================== *)
(** ** The provider: framework values and diagnostics *)
(* ===================================================================== *)

(** A value of the plugin framework ([types.String], [types.Int64],
    [types.Bool]): null, unknown, or known. *)
Inductive tfvalue (A : Type) : Type :=
| Null
| Unknown
| Known (a : A).
Arguments Null {A}.
Arguments Unknown {A}.
Arguments Known {A} a.

(** [ValueString], [ValueInt64], [ValueBool]: the known value, or the zero
    value of the type. *)
Definition ValueString (v : tfvalue string) : string :=
  match v with Known s => s | _ => "" end.
Definition ValueInt64 (v : tfvalue Z) : Z :=
  match v with Known i => i | _ => 0 end.
Definition ValueBool (v : tfvalue bool) : bool :=
  match v with Known b => b | _ => false end.

Definition IsNull {A} (v : tfvalue A) : bool :=
  match v with Null => true | _ => false end.

(** [Equal]: the same state, and the same value when known. *)
Definition tfEqual {A} (eqb : A -> A -> bool) (v o : tfvalue A) : bool :=
  match v, o with
  | Null, Null => true
  | Unknown, Unknown => true
  | Known a, Known b => eqb a b
  | _, _ => false
  end.

Inductive Severity : Type :=
| SeverityError
| SeverityWarning.

(** A diagnostic: its severity, the attribute it is attached to, if any,
    its summary and its detail. *)
Record Diagnostic : Type := mkDiagnostic {
  Diagnostic_Severity : Severity;
  Diagnostic_Path : option string;
  Diagnostic_Summary : string;
  Diagnostic_Detail : string
}.

Definition Severity_eqb (a b : Severity) : bool :=
  match a, b with
  | SeverityError, SeverityError => true
  | SeverityWarning, SeverityWarning => true
  | _, _ => false
  end.

Definition Diagnostic_Equal (a b : Diagnostic) : bool :=
  Severity_eqb (Diagnostic_Severity a) (Diagnostic_Severity b)
  && match Diagnostic_Path a, Diagnostic_Path b with
     | None, None => true
     | Some p, Some q => String.eqb p q
     | _, _ => false
     end
  && String.eqb (Diagnostic_Summary a) (Diagnostic_Summary b)
  && String.eqb (Diagnostic_Detail a) (Diagnostic_Detail b).

Definition Contains (diags : list Diagnostic) (d : Diagnostic) : bool :=
  existsb (Diagnostic_Equal d) diags.

(** [Diagnostics.Append]: the diagnostics not yet in the collection are
    added at its end, one by one. *)
Fixpoint Append (diags : list Diagnostic) (new : list Diagnostic)
    : list Diagnostic :=
  match new with
  | [] => diags
  | d :: new' =>
      if Contains diags d then Append diags new'
      else Append (diags ++ [d]) new'
  end.

Definition AddError (summary detail : string) (diags : list Diagnostic)
    : list Diagnostic :=
  Append diags [mkDiagnostic SeverityError None summary detail].

Definition AddWarning (summary detail : string) (diags : list Diagnostic)
    : list Diagnostic :=
  Append diags [mkDiagnostic SeverityWarning None summary detail].

Definition AddAttributeError (path summary detail : string)
    (diags : list Diagnostic) : list Diagnostic :=
  Append diags [mkDiagnostic SeverityError (Some path) summary detail].

Definition HasError (diags : list Diagnostic) : bool :=
  existsb (fun d => Severity_eqb (Diagnostic_Severity d) SeverityError) diags.

(** What a method of a resource or data source leaves in its response:
    the diagnostics, and the state it has set, if it has set one. The
    diagnostics start empty: each method is taken once the framework has
    read its configuration, plan or state without error, and
    [resp.State.Set] is taken to succeed. *)
Record Resp (S : Type) : Type := mkResp {
  Resp_Diagnostics : list Diagnostic;
  Resp_State : option S
}.
Arguments mkResp {S} _ _.
Arguments Resp_Diagnostics {S} _.
Arguments Resp_State {S} _.

(** [fmt.Sprintf(format, v)] for a format with one [%d] verb: the verb is
    replaced by the text [fmt] gives the operand, which for an integer is
    [strconv.FormatInt]. *)
Fixpoint Sprintf_d (format operand : string) : string :=
  match format with
  | EmptyString => EmptyString
  | String "%" (String "d" rest) => operand +:+ rest
  | String c rest => String c (Sprintf_d rest operand)
  end.

(** [strings.ReplaceAll(s, ",", "")]. *)
Fixpoint removeCommas (s : string) : string :=
  match s with
  | EmptyString => EmptyString
  | String c rest =>
      if Ascii.eqb c "," then removeCommas rest
      else String c (removeCommas rest)
  end.

(** The models of the data sources and resources. *)
Record forwardModel : Type := mkforwardModel {
  forwardModel_ID : tfvalue Z;
  forwardModel_Subdomain : tfvalue string;
  forwardModel_Location : tfvalue string;
  forwardModel_Type : tfvalue string;
  forwardModel_IncludePath : tfvalue bool;
  forwardModel_Wildcard : tfvalue bool
}.

Record DomainURLForwardingDataSourceModel : Type :=
  mkDomainURLForwardingDataSourceModel {
  DomainURLForwardingDataSourceModel_Domain : tfvalue string;
  DomainURLForwardingDataSourceModel_Forwards : list forwardModel
}.

Record DomainURLForwardResourceModel : Type :=
  mkDomainURLForwardResourceModel {
  DomainURLForwardResourceModel_ID : tfvalue Z;
  DomainURLForwardResourceModel_Domain : tfvalue string;
  DomainURLForwardResourceModel_Subdomain : tfvalue string;
  DomainURLForwardResourceModel_Location : tfvalue string;
  DomainURLForwardResourceModel_Type : tfvalue string;
  DomainURLForwardResourceModel_IncludePath : tfvalue bool;
  DomainURLForwardResourceModel_Wildcard : tfvalue bool
}.

Record DNSRecordResourceModel : Type := mkDNSRecordResourceModel {
  DNSRecordResourceModel_ID : tfvalue Z;
  DNSRecordResourceModel_Domain : tfvalue string;
  DNSRecordResourceModel_Subdomain : tfvalue string;
  DNSRecordResourceModel_Type : tfvalue string;
  DNSRecordResourceModel_Content : tfvalue string;
  DNSRecordResourceModel_TTL : tfvalue Z;
  DNSRecordResourceModel_Priority : tfvalue Z;
  DNSRecordResourceModel_Notes : tfvalue string
}.

Record recordModel : Type := mkrecordModel {
  recordModel_ID : tfvalue Z;
  recordModel_Subdomain : tfvalue string;
  recordModel_Type : tfvalue string;
  recordModel_Content : tfvalue string;
  recordModel_TTL : tfvalue Z;
  recordModel_Priority : tfvalue Z;
  recordModel_Notes : tfvalue string
}.

Record DNSRecrodDataSourceModel : Type := mkDNSRecrodDataSourceModel {
  DNSRecrodDataSourceModel_Domain : tfvalue string;
  DNSRecrodDataSourceModel_Subdomain : tfvalue string;
  DNSRecrodDataSourceModel_Type : tfvalue string;
  DNSRecrodDataSourceModel_ID : tfvalue Z;
  DNSRecrodDataSourceModel_Records : list recordModel
}.

Record DomainNameServersResourceModel : Type :=
  mkDomainNameServersResourceModel {
  DomainNameServersResourceModel_Domain : tfvalue string;
  DomainNameServersResourceModel_NS : tfvalue (list (tfvalue string))
}.

Record PorkbunProviderModel : Type := mkPorkbunProviderModel {
  PorkbunProviderModel_APIKey : tfvalue string;
  PorkbunProviderModel_SecretAPIKey : tfvalue string;
  PorkbunProviderModel_ForceIPv4 : tfvalue bool;
  PorkbunProviderModel_DeleteNameServers : tfvalue bool
}.

Record PorkbunProviderData : Type := mkPorkbunProviderData {
  PorkbunProviderData_DeleteNameServers : bool;
  PorkbunProviderData_Client : Client
}.

(** [0-9a-f]. *)
Definition is_lower_hex (c : ascii) : bool :=
  let n := nat_of_ascii c in
  ((Nat.leb 48 n && Nat.leb n 57) || (Nat.leb 97 n && Nat.leb n 102))%bool.

Fixpoint all_lower_hex (s : string) : bool :=
  match s with
  | EmptyString => true
  | String c rest => is_lower_hex c && all_lower_hex rest
  end.

(** [Some rest] when [s] is [prefix] followed by [rest]. *)
Fixpoint afterPrefix (prefix s : string) : option string :=
  match prefix, s with
  | EmptyString, _ => Some s
  | String a prefix', String b s' =>
      if Ascii.eqb a b then afterPrefix prefix' s' else None
  | _, EmptyString => None
  end.

(** A match of a pattern [^<prefix>[0-9a-f]{64}$] against a whole text. *)
Definition matchKey (prefix s : string) : bool :=
  match afterPrefix prefix s with
  | Some rest => Nat.eqb (String.length rest) 64 && all_lower_hex rest
  | None => false
  end.

(** [apiKeyRE.Match] and [secretAPIKeyRE.Match], for the patterns
    [^pk1_[0-9a-f]{64}$] and [^sk1_[0-9a-f]{64}$]. *)
Definition apiKeyRE_Match (s : string) : bool := matchKey "pk1_" s.
Definition secretAPIKeyRE_Match (s : string) : bool := matchKey "sk1_" s.

(* ===================================================================== *)
(** ** The provider: data sources and resources *)
(* ===================================================================== *)

(** [forwardsToModels]. Each forward is dereferenced, and so is its id:
    a nil forward or a nil id is a panic. A type other than [temporary]
    and [permanent] is a warning, and the forward is kept. *)
Fixpoint forwardsToModels_from (forwards : list (option URLForward))
    (models : list forwardModel) (diags : list Diagnostic)
    : result (list forwardModel * list Diagnostic) :=
  match forwards with
  | [] => Ok (models, diags)
  | None :: _ => Err (Panic "invalid memory address or nil pointer dereference")
  | Some forward :: forwards' =>
      let diags :=
        if negb (String.eqb (URLForward_Type forward) "temporary")
           && negb (String.eqb (URLForward_Type forward) "permanent")
        then
          AddWarning "Client Warning"
            (Sprintf "Expected type of 'temporary' or 'permanent', got: '%s'"
                     (URLForward_Type forward))
            diags
        else diags in
      match URLForward_ID forward with
      | None =>
          Err (Panic "invalid memory address or nil pointer dereference")
      | Some id =>
          forwardsToModels_from forwards'
            (models ++
             [ mkforwardModel (Known id)
                 (Known (URLForward_Subdomain forward))
                 (Known (URLForward_Location forward))
                 (Known (URLForward_Type forward))
                 (Known (URLForward_IncludePath forward))
                 (Known (URLForward_Wildcard forward)) ])
            diags
      end
  end.

Definition forwardsToModels (forwards : list (option URLForward))
    : result (list forwardModel * list Diagnostic) :=
  forwardsToModels_from forwards [] [].

Section Provider.

Variable net : Network.

(** The text of the errors of the libraries, see [Error]. *)
Variable libText : LibErr -> string.

(** [fmt]'s rendering of a [types.Int64] under the verb [%d]. *)
Variable fmtInt64 : tfvalue Z -> string.

(** [for _, err := range errs { resp.Diagnostics.AddError("Client Error",
    err.Error()) }]. *)
Definition addClientErrors (errs : list error) (diags : list Diagnostic)
    : list Diagnostic :=
  fold_left (fun ds err => AddError "Client Error" (Error libText err) ds)
            errs diags.

(** [(d *DomainURLForwardingDataSource) Read]. *)
Definition DomainURLForwardingDataSource_Read
    (model : DomainURLForwardingDataSourceModel)
    : M (result (Resp DomainURLForwardingDataSourceModel)) :=
  let domain :=
    ValueString (DomainURLForwardingDataSourceModel_Domain model) in
  let* (forwards, errs) := URLForwards net domain in
  match errs with
  | _ :: _ => ret (Ok (mkResp (addClientErrors errs []) None))
  | [] =>
      match forwardsToModels forwards with
      | Err e => ret (Err e)
      | Ok (models, diags) =>
          let diags := Append [] diags in
          if HasError diags then ret (Ok (mkResp diags None))
          else
            ret (Ok (mkResp diags
                       (Some (mkDomainURLForwardingDataSourceModel
                                (DomainURLForwardingDataSourceModel_Domain
                                   model)
                                models))))
      end
  end.

(** The loop of [Create] and [Update] that looks for the forward just
    added: the id of the last model equal to the plan in its five
    attributes, or 0. *)
Definition createdID (model : DomainURLForwardResourceModel)
    (models : list forwardModel) : Z :=
  fold_left
    (fun id forward =>
       if tfEqual String.eqb (DomainURLForwardResourceModel_Subdomain model)
                  (forwardModel_Subdomain forward)
          && tfEqual String.eqb (DomainURLForwardResourceModel_Location model)
                     (forwardModel_Location forward)
          && tfEqual String.eqb (DomainURLForwardResourceModel_Type model)
                     (forwardModel_Type forward)
          && tfEqual Bool.eqb
                     (DomainURLForwardResourceModel_IncludePath model)
                     (forwardModel_IncludePath forward)
          && tfEqual Bool.eqb (DomainURLForwardResourceModel_Wildcard model)
                     (forwardModel_Wildcard forward)
       then ValueInt64 (forwardModel_ID forward)
       else id)
    models 0.

Definition withID (model : DomainURLForwardResourceModel) (id : tfvalue Z)
    : DomainURLForwardResourceModel :=
  mkDomainURLForwardResourceModel id
    (DomainURLForwardResourceModel_Domain model)
    (DomainURLForwardResourceModel_Subdomain model)
    (DomainURLForwardResourceModel_Location model)
    (DomainURLForwardResourceModel_Type model)
    (DomainURLForwardResourceModel_IncludePath model)
    (DomainURLForwardResourceModel_Wildcard model).

(** The statements [Create] and [Update] share, from the call of
    [AddURLForward] to the end: add the forward of the plan, list the
    forwards of the domain, find the id of the one just added. *)
Definition addAndLocate (model : DomainURLForwardResourceModel)
    : M (result (Resp DomainURLForwardResourceModel)) :=
  let domain := ValueString (DomainURLForwardResourceModel_Domain model) in
  let subdomain :=
    ValueString (DomainURLForwardResourceModel_Subdomain model) in
  let location :=
    ValueString (DomainURLForwardResourceModel_Location model) in
  let type_ := ValueString (DomainURLForwardResourceModel_Type model) in
  let includePath :=
    ValueBool (DomainURLForwardResourceModel_IncludePath model) in
  let wildcard := ValueBool (DomainURLForwardResourceModel_Wildcard model) in
  let* err :=
    AddURLForward net domain
      (mkURLForward None subdomain location type_ includePath wildcard) in
  match err with
  | Some err =>
      ret (Ok (mkResp (AddError "Client Error" (Error libText err) []) None))
  | None =>
      let* (forwards, errs) := URLForwards net domain in
      match errs with
      | _ :: _ => ret (Ok (mkResp (addClientErrors errs []) None))
      | [] =>
          match forwardsToModels forwards with
          | Err e => ret (Err e)
          | Ok (models, diags) =>
              let diags := Append [] diags in
              if HasError diags then ret (Ok (mkResp diags None))
              else
                let id := createdID model models in
                if id =? 0 then
                  ret (Ok (mkResp
                             (AddError "Client Error"
                                "Failed to obtain ID of newly created forward."
                                diags)
                             None))
                else ret (Ok (mkResp diags (Some (withID model (Known id)))))
          end
      end
  end.

(** [(r *DomainURLForwardResource) Create], on the model of the plan. *)
Definition DomainURLForwardResource_Create
    (model : DomainURLForwardResourceModel)
    : M (result (Resp DomainURLForwardResourceModel)) :=
  addAndLocate model.

(** [(r *DomainURLForwardResource) Update], on the model of the state and
    the model of the plan: the forward of the state is deleted first. *)
Definition DomainURLForwardResource_Update
    (state plan : DomainURLForwardResourceModel)
    : M (result (Resp DomainURLForwardResourceModel)) :=
  let domain := ValueString (DomainURLForwardResourceModel_Domain state) in
  let id := ValueInt64 (DomainURLForwardResourceModel_ID state) in
  let* err := DeleteURLForward net domain id in
  match err with
  | Some err =>
      ret (Ok (mkResp (AddError "Client Error" (Error libText err) []) None))
  | None => addAndLocate plan
  end.

(** The loop of [Read] that refreshes the model from the forward with its
    id: the model after the loop, and whether a forward was found. *)
Definition refreshed (model : DomainURLForwardResourceModel)
    (models : list forwardModel) : DomainURLForwardResourceModel * bool :=
  fold_left
    (fun '(m, found) forward =>
       if tfEqual Z.eqb (DomainURLForwardResourceModel_ID m)
                  (forwardModel_ID forward)
       then
         (mkDomainURLForwardResourceModel
            (DomainURLForwardResourceModel_ID m)
            (DomainURLForwardResourceModel_Domain m)
            (forwardModel_Subdomain forward)
            (forwardModel_Location forward)
            (forwardModel_Type forward)
            (forwardModel_IncludePath forward)
            (forwardModel_Wildcard forward), true)
       else (m, found))
    models (model, false).

(** [(r *DomainURLForwardResource) Read], on the model of the state. The
    state is set even when no forward was found. *)
Definition DomainURLForwardResource_Read
    (model : DomainURLForwardResourceModel)
    : M (result (Resp DomainURLForwardResourceModel)) :=
  let domain := ValueString (DomainURLForwardResourceModel_Domain model) in
  let* (forwards, errs) := URLForwards net domain in
  match errs with
  | _ :: _ => ret (Ok (mkResp (addClientErrors errs []) None))
  | [] =>
      match forwardsToModels forwards with
      | Err e => ret (Err e)
      | Ok (models, diags) =>
          let diags := Append [] diags in
          if HasError diags then ret (Ok (mkResp diags None))
          else
            let '(model', found) := refreshed model models in
            let diags :=
              if negb found then
                AddError "Client Error"
                  (Sprintf_d "Failed to find url forward with the id '%d'."
                     (fmtInt64 (DomainURLForwardResourceModel_ID model')))
                  diags
              else diags in
            ret (Ok (mkResp diags (Some model')))
      end
  end.

(** [(r *DomainURLForwardResource) Delete], on the model of the state. *)
Definition DomainURLForwardResource_Delete
    (model : DomainURLForwardResourceModel)
    : M (Resp DomainURLForwardResourceModel) :=
  let domain := ValueString (DomainURLForwardResourceModel_Domain model) in
  let id := ValueInt64 (DomainURLForwardResourceModel_ID model) in
  let* err := DeleteURLForward net domain id in
  match err with
  | Some err =>
      ret (mkResp (AddError "Client Error" (Error libText err) []) None)
  | None => ret (mkResp [] None)
  end.

(** The [*int64] that [Create] and [Update] make of the priority of the
    plan: nil when it is null. *)
Definition planPriority (priority : tfvalue Z) : option Z :=
  if negb (IsNull priority) then Some (ValueInt64 priority) else None.

(** [(r *DNSRecordResource) Create], on the model of the plan. *)
Definition DNSRecordResource_Create (model : DNSRecordResourceModel)
    : M (Resp DNSRecordResourceModel) :=
  let domain := ValueString (DNSRecordResourceModel_Domain model) in
  let subdomain := ValueString (DNSRecordResourceModel_Subdomain model) in
  let type_ := ValueString (DNSRecordResourceModel_Type model) in
  let content := ValueString (DNSRecordResourceModel_Content model) in
  let ttl := ValueInt64 (DNSRecordResourceModel_TTL model) in
  let priority := planPriority (DNSRecordResourceModel_Priority model) in
  let notes := ValueString (DNSRecordResourceModel_Notes model) in
  let* (id, err) :=
    CreateDNSRecord net domain
      (mkDNSRecord None subdomain type_ content ttl priority notes) in
  match err with
  | Some err =>
      ret (mkResp (AddError "Client Error" (Error libText err) []) None)
  | None =>
      ret (mkResp []
             (Some (mkDNSRecordResourceModel (Known id)
                      (DNSRecordResourceModel_Domain model)
                      (DNSRecordResourceModel_Subdomain model)
                      (DNSRecordResourceModel_Type model)
                      (DNSRecordResourceModel_Content model)
                      (DNSRecordResourceModel_TTL model)
                      (DNSRecordResourceModel_Priority model)
                      (DNSRecordResourceModel_Notes model))))
  end.

(** [(r *DNSRecordResource) Read], on the model of the state. A number of
    records other than one is an error that does not end the method:
    [records[0]] is taken all the same, which is a panic on no record. *)
Definition DNSRecordResource_Read (model : DNSRecordResourceModel)
    : M (result (Resp DNSRecordResourceModel)) :=
  let domain := ValueString (DNSRecordResourceModel_Domain model) in
  let id := ValueInt64 (DNSRecordResourceModel_ID model) in
  let* (records, errs) := DNSRecords net domain (Some id) in
  match errs with
  | _ :: _ => ret (Ok (mkResp (addClientErrors errs []) None))
  | [] =>
      let diags :=
        if negb (Nat.eqb (length records) 1) then
          AddError "Client Error"
            (Sprintf_d "Expected to receive 1 record, got: %d."
                       (strconv.FormatInt (Z.of_nat (length records))))
            []
        else [] in
      match records with
      | [] => ret (Err (Panic "index out of range [0] with length 0"))
      | None :: _ =>
          ret (Err (Panic "invalid memory address or nil pointer dereference"))
      | Some record :: _ =>
          let priority :=
            match DNSRecord_Priority record with
            | Some p => Known p
            | None => Null
            end in
          ret (Ok (mkResp diags
                     (Some (mkDNSRecordResourceModel
                              (DNSRecordResourceModel_ID model)
                              (DNSRecordResourceModel_Domain model)
                              (Known (DNSRecord_Subdomain record))
                              (Known (DNSRecord_Type record))
                              (Known (DNSRecord_Content record))
                              (Known (DNSRecord_TTL record))
                              priority
                              (Known (DNSRecord_Notes record))))))
      end
  end.

(** [(r *DNSRecordResource) Update], on the model of the state and the
    model of the plan. *)
Definition DNSRecordResource_Update (state plan : DNSRecordResourceModel)
    : M (Resp DNSRecordResourceModel) :=
  let domain := ValueString (DNSRecordResourceModel_Domain state) in
  let id := ValueInt64 (DNSRecordResourceModel_ID state) in
  let subdomain := ValueString (DNSRecordResourceModel_Subdomain plan) in
  let type_ := ValueString (DNSRecordResourceModel_Type plan) in
  let content := ValueString (DNSRecordResourceModel_Content plan) in
  let ttl := ValueInt64 (DNSRecordResourceModel_TTL plan) in
  let priority := planPriority (DNSRecordResourceModel_Priority plan) in
  let notes := ValueString (DNSRecordResourceModel_Notes plan) in
  let* err :=
    EditDNSRecord net domain
      (mkDNSRecord (Some id) subdomain type_ content ttl priority notes) in
  match err with
  | Some err =>
      ret (mkResp (AddError "Client Error" (Error libText err) []) None)
  | None =>
      ret (mkResp []
             (Some (mkDNSRecordResourceModel (Known id)
                      (DNSRecordResourceModel_Domain plan)
                      (DNSRecordResourceModel_Subdomain plan)
                      (DNSRecordResourceModel_Type plan)
                      (DNSRecordResourceModel_Content plan)
                      (DNSRecordResourceModel_TTL plan)
                      (DNSRecordResourceModel_Priority plan)
                      (DNSRecordResourceModel_Notes plan))))
  end.

(** [(r *DNSRecordResource) Delete], on the model of the state. *)
Definition DNSRecordResource_Delete (model : DNSRecordResourceModel)
    : M (Resp DNSRecordResourceModel) :=
  let domain := ValueString (DNSRecordResourceModel_Domain model) in
  let id := ValueInt64 (DNSRecordResourceModel_ID model) in
  let* err := DeleteDNSRecord net domain id in
  match err with
  | Some err =>
      ret (mkResp (AddError "Client Error" (Error libText err) []) None)
  | None => ret (mkResp [] None)
  end.

(** The loop of [(d *DNSRecrodDataSource) Read] over the records. *)
Fixpoint recordsToModels (records : list (option DNSRecord))
    (models : list recordModel) : result (list recordModel) :=
  match records with
  | [] => Ok models
  | None :: _ => Err (Panic "invalid memory address or nil pointer dereference")
  | Some record :: records' =>
      let id :=
        match DNSRecord_ID record with
        | Some i => Known i
        | None => Null
        end in
      let priority :=
        match DNSRecord_Priority record with
        | Some p => Known p
        | None => Null
        end in
      recordsToModels records'
        (models ++
         [ mkrecordModel id (Known (DNSRecord_Subdomain record))
             (Known (DNSRecord_Type record))
             (Known (DNSRecord_Content record))
             (Known (DNSRecord_TTL record)) priority
             (Known (DNSRecord_Notes record)) ])
  end.

(** [(d *DNSRecrodDataSource) Read], on the model of the configuration.
    Without a type the records are asked for by id, and the id asked for
    is that of the configuration or 0. *)
Definition DNSRecrodDataSource_Read (model : DNSRecrodDataSourceModel)
    : M (result (Resp DNSRecrodDataSourceModel)) :=
  let domain := ValueString (DNSRecrodDataSourceModel_Domain model) in
  let subdomain := ValueString (DNSRecrodDataSourceModel_Subdomain model) in
  let type_ := ValueString (DNSRecrodDataSourceModel_Type model) in
  let id := ValueInt64 (DNSRecrodDataSourceModel_ID model) in
  let* (records, errs) :=
    if negb (String.eqb type_ "") then
      DNSRecordsByTypeName net domain type_ subdomain
    else DNSRecords net domain (Some id) in
  match errs with
  | _ :: _ => ret (Ok (mkResp (addClientErrors errs []) None))
  | [] =>
      match recordsToModels records [] with
      | Err e => ret (Err e)
      | Ok models =>
          ret (Ok (mkResp []
                     (Some (mkDNSRecrodDataSourceModel
                              (DNSRecrodDataSourceModel_Domain model)
                              (DNSRecrodDataSourceModel_Subdomain model)
                              (DNSRecrodDataSourceModel_Type model)
                              (DNSRecrodDataSourceModel_ID model)
                              models))))
      end
  end.

(** [(r *DomainNameServersResource) Delete], for a resource configured
    with [deleteNameServers], on the model of the state. *)
Definition DomainNameServersResource_Delete (deleteNameServers : bool)
    (model : DomainNameServersResourceModel)
    : M (Resp DomainNameServersResourceModel) :=
  if negb deleteNameServers then ret (mkResp [] None)
  else
    let domain := ValueString (DomainNameServersResourceModel_Domain model) in
    let ns := Some [] in
    let* err := UpdateNameServers net domain ns in
    match err with
    | Some err =>
        ret (mkResp (AddError "Client Error" (Error libText err) []) None)
    | None => ret (mkResp [] None)
    end.

(** [(p *PorkbunProvider) Configure], on the model of the configuration
    and the values of the two environment variables; the client it makes
    is the one its [Ping] runs on. *)
Definition PorkbunProvider_Configure (model : PorkbunProviderModel)
    (PORKBUN_API_KEY PORKBUN_SECRET_API_KEY : string)
    (requests : list Request)
    : Resp PorkbunProviderData * list Request :=
  let apiKey := PORKBUN_API_KEY in
  let apiKey :=
    if negb (IsNull (PorkbunProviderModel_APIKey model)) then
      ValueString (PorkbunProviderModel_APIKey model)
    else apiKey in
  let diags :=
    if negb (apiKeyRE_Match apiKey) then
      AddAttributeError "api_key" "Invalid Porkbun API Key"
        ("API key must consist of 'pk1_' prefix followed by a 64 digit lowercase hexadecimal number, got: "
         +:+ apiKey) []
    else [] in
  let secretAPIKey := PORKBUN_SECRET_API_KEY in
  let secretAPIKey :=
    if negb (IsNull (PorkbunProviderModel_SecretAPIKey model)) then
      ValueString (PorkbunProviderModel_SecretAPIKey model)
    else secretAPIKey in
  let diags :=
    if negb (secretAPIKeyRE_Match secretAPIKey) then
      AddAttributeError "secret_api_key" "Invalid Porkbun Secret API Key"
        ("Secret API key must consist of 'sk1_' prefix followed by a 64 digit lowercase hexadecimal number, got: "
         +:+ secretAPIKey) diags
    else diags in
  if HasError diags then (mkResp diags None, requests)
  else
    let forceIPv4 := ValueBool (PorkbunProviderModel_ForceIPv4 model) in
    let deleteNameServers :=
      ValueBool (PorkbunProviderModel_DeleteNameServers model) in
    let client := NewClient apiKey secretAPIKey forceIPv4 in
    let '((_, err), w) := Ping net (mkWorld client requests) in
    match err with
    | Some err =>
        (mkResp (AddError "Client Error" (Error libText err) diags) None,
         sent w)
    | None =>
        (mkResp diags (Some (mkPorkbunProviderData deleteNameServers client)),
         sent w)
    end.

End Provider.

Section PricingDataSource.

Variable net : Network.
Variable libText : LibErr -> string.

(** [float64] and [strconv.ParseFloat(s, 64)]: floating point is left to
    the library. *)
Variable float64 : Type.
Variable ParseFloat : string -> result float64.

Record pricingModel : Type := mkpricingModel {
  pricingModel_Registration : tfvalue float64;
  pricingModel_Renewal : tfvalue float64;
  pricingModel_Transfer : tfvalue float64;
  pricingModel_SpecialType : tfvalue string
}.

(** The body of the loop of [(d *PricingDataSource) Read] for one entry
    of the map: a price that does not parse is an error diagnostic and
    the entry is skipped. *)
Definition addPricing (acc : gmap string pricingModel * list Diagnostic)
    (entry : string * Pricing) : gmap string pricingModel * list Diagnostic :=
  let '(models, diags) := acc in
  let '(k, v) := entry in
  match ParseFloat (removeCommas (Pricing_Registration v)) with
  | Err err =>
      (models,
       AddError "Client Error"
         (Sprintf
  "Failed to parse registration as an integer with the following error: '%s'."
            (Error libText err)) diags)
  | Ok registration =>
      match ParseFloat (removeCommas (Pricing_Renewal v)) with
      | Err err =>
          (models,
           AddError "Client Error"
             (Sprintf
  "Failed to parse renewal as an integer with the following error: '%s'."
                (Error libText err)) diags)
      | Ok renewal =>
          match ParseFloat (removeCommas (Pricing_Transfer v)) with
          | Err err =>
              (models,
               AddError "Client Error"
                 (Sprintf
  "Failed to parse transfer as an integer with the following error: '%s'."
                    (Error libText err)) diags)
          | Ok transfer =>
              let specialType :=
                if String.eqb (Pricing_SpecialType v) "" then Null
                else Known (Pricing_SpecialType v) in
              (<[k := mkpricingModel (Known registration) (Known renewal)
                        (Known transfer) specialType]> models,
               diags)
          end
      end
  end.

(** [(d *PricingDataSource) Read]. The entries of the map are visited in
    the order of [map_to_list]; Go leaves the order open. The state is
    set whatever the loop has reported. *)
Definition PricingDataSource_Read
    : M (Resp (gmap string pricingModel)) :=
  let* (pricing, err) := Pricing_ net in
  match err with
  | Some err =>
      ret (mkResp (AddError "Client Error" (Error libText err) []) None)
  | None =>
      let '(models, diags) :=
        fold_left addPricing (map_to_list pricing) (∅, []) in
      ret (mkResp diags (Some models))
  end.

End PricingDataSource.

(* ===================================================================== *)
(** ** Vocabulary of the statements *)
(* ===================================================================== *)

(** A string of decimal digits. *)
Fixpoint all_digits (s : string) : bool :=
  match s with
  | EmptyString => true
  | String c rest => is_digit c && all_digits rest
  end.

(** The boolean a ["1"]/["0"] wire literal stands for. *)
Definition bit_literal (s : string) : option bool :=
  if String.eqb s "1" then Some true
  else if String.eqb s "0" then Some false
  else None.

(** The boolean a ["yes"]/["no"] wire literal stands for. *)
Definition yes_no_literal (s : string) : option bool :=
  if String.eqb s "yes" then Some true
  else if String.eqb s "no" then Some false
  else None.

(** The value of the first member of an object with key [k]. *)
Definition member (k : string) (j : json) : option json :=
  match j with
  | JObject members =>
      match List.find (fun kv => String.eqb (fst kv) k) members with
      | Some kv => Some (snd kv)
      | None => None
      end
  | _ => None
  end.

(** The records of a batch that convert, and the errors of those that do
    not, both in the order of the batch. *)
Definition converted {W D} (convert : W -> result D) (ws : list W) : list D :=
  omap (fun w => match convert w with Ok d => Some d | Err _ => None end) ws.

Definition rejected {W D} (convert : W -> result D) (ws : list W)
    : list error :=
  omap (fun w => match convert w with Ok _ => None | Err e => Some e end) ws.

(** The slot a record leaves in the slice a listing call returns. *)
Definition slot {W D} (convert : W -> result D) (w : W) : option D :=
  match convert w with Ok d => Some d | Err _ => None end.

(** A wire URL forward no document has written its [Type] or
    [IncludePath] into. *)
Definition blank (f : urlforward) : Prop :=
  urlforward_IncludePath f = "" /\ urlforward_Type f = "".


(** A request type that carries a [Credentials]: every request struct of
    the package embeds one, and gets its two setters from it. [carried] is
    the embedded value; the laws say that the setters write it and that
    the encoding shows it under the keys [apikey] and [secretapikey]. *)
Class CredentialsCarrier (Q : Type) `{credentials Q} `{Marshaler Q}
    : Type := {
  carried : Q -> Credentials;
  carried_setAPIKey : forall (k : string) (q : Q),
    carried (setAPIKey k q) = mkCredentials k (SecretAPIKey (carried q));
  carried_setSecretAPIKey : forall (k : string) (q : Q),
    carried (setSecretAPIKey k q) = mkCredentials (APIKey (carried q)) k;
  carried_Marshal : forall (q : Q) (body : json),
    Marshal q = Ok body ->
    member "apikey" body = Some (JString (APIKey (carried q)))
    /\ member "secretapikey" body = Some (JString (SecretAPIKey (carried q)))
}.

(** The headers [do] sets. *)
Definition json_headers : list (string * string) :=
  [ ("Content-Type", "application/json"); ("Accept", "application/json") ].

(** The request [DomainList] sends for offset [start]. *)
Definition listAll_request (c : Client) (start : Z) : Request :=
  mkRequest "POST" (url c) "domain/listAll" json_headers
    (Some (JObject
             [ ("apikey", JString (APIKey (Client_Credentials c)));
               ("secretapikey",
                JString (SecretAPIKey (Client_Credentials c)));
               ("start", JNumber (strconv.FormatInt start)) ])).

(** A network serves a sequence of pages from its [k]-th request on: a
    request to the domain-list endpoint can always be built, and the
    request number [k + i] is answered with a document that decodes, into
    a fresh response, as a [SUCCESS] envelope with the [i]-th page. *)
Definition serves (net : Network) (k : nat) (pages : list (list domain))
    : Prop :=
  (forall u : URL, NewRequestWithContext net "POST" u "domain/listAll" = None)
  /\ forall (i : nat) (page : list domain),
       pages !! i = Some page ->
       forall req : Request,
         exists (j : json) (message : string),
           RoundTrip net (k + i)%nat req = Document j
           /\ Unmarshal j (mkDomainList_res zero_Status [])
              = (mkDomainList_res (mkStatus "SUCCESS" message) page, None).

(* ===================================================================== *)
(** ** Scenarios *)
(* ===================================================================== *)

(** A network on which every request can be built and the [n]-th request
    is answered with the [n]-th document of a script; past the script the
    connection fails. *)
Definition scripted (docs : list json) : Network :=
  mkNetwork (fun _ _ _ => None)
    (fun n _ =>
       match docs !! n with
       | Some j => Document j
       | None => SendFails (Lib (NetError "EOF"))
       end).

Definition client0 : Client := NewClient "pk1_key" "sk1_secret" false.
Definition world0 : World := mkWorld client0 [].

Definition not_found_doc : json :=
  JObject [ ("status", JString "ERROR"); ("message", JString "not found") ].

Definition pricing_doc : json :=
  JObject
    [ ("status", JString "SUCCESS");
      ("pricing",
       JObject
         [ ("com",
            JObject [ ("registration", JString "9.68");
                      ("renewal", JString "9.68");
                      ("transfer", JString "9.68") ]) ]) ].

Definition forwards_doc : json :=
  JObject
    [ ("status", JString "SUCCESS");
      ("forwards",
       JArray
         [ JObject [ ("id", JString "22049216");
                     ("subdomain", JString "www");
                     ("location", JString "https://example.org");
                     ("type", JString "temporary");
                     ("includePath", JString "no");
                     ("wildcard", JString "yes") ] ]) ].

Definition no_id_forwards_doc : json :=
  JObject
    [ ("status", JString "SUCCESS");
      ("forwards",
       JArray
         [ JObject [ ("subdomain", JString "www");
                     ("location", JString "https://example.org");
                     ("type", JString "temporary");
                     ("wildcard", JString "yes") ] ]) ].

(** The document of a domain-list page, as the API writes it. *)
Definition domain_doc (d : domain) : json :=
  JObject
    [ ("domain", JString (domain_Domain d));
      ("status", JString (domain_Status d));
      ("tld", JString (domain_TLD d));
      ("createDate", JString (domain_CreateDate d));
      ("expireDate", JString (domain_ExpireDate d));
      ("securityLock", JString (domain_SecurityLock d));
      ("whoisPrivacy", JString (domain_WhoisPrivacy d));
      ("autoRenew", JNumber (domain_AutoRenew d));
      ("notLocal", JNumber (domain_NotLocal d)) ].

Definition page_doc (page : list domain) : json :=
  JObject [ ("status", JString "SUCCESS");
            ("domains", JArray (map domain_doc page)) ].

Definition a_domain : domain :=
  mkdomain "example.com" "ACTIVE" "com" "2020-01-01 00:00:00"
    "2030-01-01 00:00:00" "1" "1" "0" "0".

(* ===================================================================== *)
(** ** Vocabulary of the further statements *)
(* ===================================================================== *)

(** The error [do] returns for the envelope it has decoded. *)
Definition envelope_error {R : Type} `{status R} (r : R) : option error :=
  if String.eqb (getStatus r) "SUCCESS" then None
  else if String.eqb (getStatus r) "ERROR" then
    Some (Errorf
  "Received 'ERROR' response status with the following message: %s"
            (getMessage r))
  else
    Some (Errorf
  "Received unknown response status. Expected 'SUCCESS' or 'ERROR', got: '%s'."
            (getStatus r)).

(** A request object after the two setters of [post]. *)
Definition stamped {Q : Type} `{credentials Q} (c : Client) (req : Q) : Q :=
  setSecretAPIKey (SecretAPIKey (Client_Credentials c))
    (setAPIKey (APIKey (Client_Credentials c)) req).

(** The POST request of a client to an endpoint, with a body. *)
Definition post_request (c : Client) (path : string) (body : json)
    : Request :=
  mkRequest "POST" (url c) path json_headers (Some body).

(** The two members every body starts with. *)
Definition credentials_members (c : Client) : list (string * json) :=
  [ ("apikey", JString (APIKey (Client_Credentials c)));
    ("secretapikey", JString (SecretAPIKey (Client_Credentials c))) ].

(** The model [forwardsToModels] makes of a forward. *)
Definition modelOfForward (f : URLForward) : forwardModel :=
  mkforwardModel
    (match URLForward_ID f with Some id => Known id | None => Null end)
    (Known (URLForward_Subdomain f)) (Known (URLForward_Location f))
    (Known (URLForward_Type f)) (Known (URLForward_IncludePath f))
    (Known (URLForward_Wildcard f)).

(** The model the DNS record data source makes of a record. *)
Definition modelOfRecord (r : DNSRecord) : recordModel :=
  mkrecordModel
    (match DNSRecord_ID r with Some i => Known i | None => Null end)
    (Known (DNSRecord_Subdomain r)) (Known (DNSRecord_Type r))
    (Known (DNSRecord_Content r)) (Known (DNSRecord_TTL r))
    (match DNSRecord_Priority r with Some p => Known p | None => Null end)
    (Known (DNSRecord_Notes r)).


(** A network that answers every request to the domain-list endpoint, for
    ever, with a page of 1000 records that convert. *)
Definition serves_forever (net : Network) : Prop :=
  (forall u : URL, NewRequestWithContext net "POST" u "domain/listAll" = None)
  /\ forall (n : nat) (req : Request),
       exists (j : json) (message : string) (page : list domain),
         RoundTrip net n req = Document j
         /\ Unmarshal j (mkDomainList_res zero_Status [])
            = (mkDomainList_res (mkStatus "SUCCESS" message) page, None)
         /\ length page = 1000%nat
         /\ Forall (fun d => is_ok (domain_convert d) = true) page.

(** A network on which every request can be built and is answered with
    the same document. *)
Definition answering (j : json) : Network :=
  mkNetwork (fun _ _ _ => None) (fun _ _ => Document j).

(** A network on which every request can be built and none gets through. *)
Definition unreachable : Network :=
  mkNetwork (fun _ _ _ => None)
    (fun _ _ => SendFails (Lib (NetError "connection refused"))).

Definition success_doc : json := JObject [ ("status", JString "SUCCESS") ].

Definition records_doc : json :=
  JObject
    [ ("status", JString "SUCCESS");
      ("records",
       JArray
         [ JObject [ ("id", JString "106926659");
                     ("name", JString "www.example.com");
                     ("type", JString "MX");
                     ("content", JString "mail.example.org");
                     ("ttl", JString "600");
                     ("prio", JString "10");
                     ("notes", JString "") ] ]) ].

Definition no_records_doc : json :=
  JObject [ ("status", JString "SUCCESS"); ("records", JArray []) ].

Definition a_key : string :=
  "pk1_0123456789abcdef0123456789abcdef0123456789abcdef0123456789abcdef".
Definition a_secret : string :=
  "sk1_0123456789abcdef0123456789abcdef0123456789abcdef0123456789abcdef".

(** The key [Configure] works with: the value of the configuration
    unless it is null, the environment variable otherwise. *)
Definition effective (configured : tfvalue string) (env : string) : string :=
  if IsNull configured then env else ValueString configured.

(** The two diagnostics of [Configure] about the keys. *)
Definition apiKeyDiagnostic (key : string) : Diagnostic :=
  mkDiagnostic SeverityError (Some "api_key") "Invalid Porkbun API Key"
    ("API key must consist of 'pk1_' prefix followed by a 64 digit lowercase hexadecimal number, got: "
     +:+ key).
Definition secretAPIKeyDiagnostic (secret : string) : Diagnostic :=
  mkDiagnostic SeverityError (Some "secret_api_key")
    "Invalid Porkbun Secret API Key"
    ("Secret API key must consist of 'sk1_' prefix followed by a 64 digit lowercase hexadecimal number, got: "
     +:+ secret).

(** The record [Create] and [Update] of the DNS record resource make
    of a plan, and the state they set from it. *)
Definition planRecord (id : option Z) (plan : DNSRecordResourceModel)
    : DNSRecord :=
  mkDNSRecord id
    (ValueString (DNSRecordResourceModel_Subdomain plan))
    (ValueString (DNSRecordResourceModel_Type plan))
    (ValueString (DNSRecordResourceModel_Content plan))
    (ValueInt64 (DNSRecordResourceModel_TTL plan))
    (planPriority (DNSRecordResourceModel_Priority plan))
    (ValueString (DNSRecordResourceModel_Notes plan)).

Definition withRecordID (id : Z) (plan : DNSRecordResourceModel)
    : DNSRecordResourceModel :=
  mkDNSRecordResourceModel (Known id)
    (DNSRecordResourceModel_Domain plan)
    (DNSRecordResourceModel_Subdomain plan)
    (DNSRecordResourceModel_Type plan)
    (DNSRecordResourceModel_Content plan)
    (DNSRecordResourceModel_TTL plan)
    (DNSRecordResourceModel_Priority plan)
    (DNSRecordResourceModel_Notes plan).

(** A DNS record that answers [SUCCESS] to a creation, with an id. *)
Definition created_doc : json :=
  JObject [ ("status", JString "SUCCESS"); ("id", JNumber "106926659") ].

(** The model [Read] sets from a record. *)
Definition refreshedRecord (model : DNSRecordResourceModel) (d : DNSRecord)
    : DNSRecordResourceModel :=
  mkDNSRecordResourceModel
    (DNSRecordResourceModel_ID model) (DNSRecordResourceModel_Domain model)
    (Known (DNSRecord_Subdomain d)) (Known (DNSRecord_Type d))
    (Known (DNSRecord_Content d)) (Known (DNSRecord_TTL d))
    (match DNSRecord_Priority d with Some p => Known p | None => Null end)
    (Known (DNSRecord_Notes d)).

(* ===================================================================== *)
(** * Properties *)
(* ===================================================================== *)

(** ** Decimal integers *)

Lemma digit_val_digit_char (d : Z) :
  0 <= d < 10 -> strconv.digit_val (strconv.digit_char d) = Some d.
Proof.
  intros Hd.
  assert (Hcases : d = 0 \/ d = 1 \/ d = 2 \/ d = 3 \/ d = 4 \/ d = 5
                   \/ d = 6 \/ d = 7 \/ d = 8 \/ d = 9) by lia.
  repeat (destruct Hcases as [-> | Hcases]; [reflexivity |]).
  subst d. reflexivity.
Qed.

Lemma parseDigits_step (d n : Z) (rest : string) :
  0 <= d < 10 -> 0 <= n -> n * 10 + d <= strconv.maxUint64 ->
  strconv.parseDigits (String (strconv.digit_char d) rest) n
  = strconv.parseDigits rest (n * 10 + d).
Proof.
  intros Hd Hn Hmax. cbn [strconv.parseDigits].
  rewrite (digit_val_digit_char d Hd).
  unfold strconv.maxUint64 in *.
  change (2 ^ 64) with 18446744073709551616 in *.
  change ((18446744073709551616 - 1) `div` 10 + 1) with 1844674407370955162.
  destruct (Z.leb_spec 1844674407370955162 n) as [Hc | Hc]; [lia |].
  rewrite Z.mod_small by lia.
  destruct (Z.ltb_spec (n * 10 + d) (n * 10)) as [Hlt | _]; [lia |].
  destruct (Z.ltb_spec (18446744073709551616 - 1) (n * 10 + d)) as [Hlt | _];
    [lia |].
  reflexivity.
Qed.

Lemma parseDigits_formatBits (fuel : nat) :
  forall (u : Z) (rest : string),
    0 <= u < 10 ^ Z.of_nat fuel -> u <= strconv.maxUint64 ->
    strconv.parseDigits (strconv.formatBits fuel u rest) 0
    = strconv.parseDigits rest u.
Proof.
  induction fuel as [| fuel IH]; intros u rest Hu Hmax.
  - cbn in Hu. assert (u = 0) as -> by lia. reflexivity.
  - cbn [strconv.formatBits].
    destruct (Z.ltb_spec u 10) as [Hlt | Hge].
    + rewrite Z.mod_small by lia.
      rewrite parseDigits_step by lia. reflexivity.
    + rewrite Nat2Z.inj_succ, Z.pow_succ_r in Hu by lia.
      assert (Hmax' : u <= 18446744073709551615) by exact Hmax.
      rewrite IH.
      * rewrite parseDigits_step.
        -- f_equal. pose proof (Z.div_mod u 10). lia.
        -- pose proof (Z.mod_pos_bound u 10). lia.
        -- pose proof (Z.div_pos u 10). lia.
        -- change strconv.maxUint64 with 18446744073709551615.
           pose proof (Z.div_mod u 10). lia.
      * pose proof (Z.div_pos u 10).
        pose proof (Z.div_lt_upper_bound u 10 (10 ^ Z.of_nat fuel)). lia.
      * change strconv.maxUint64 with 18446744073709551615.
        pose proof (Z.div_le_upper_bound u 10 18446744073709551615). lia.
Qed.

Lemma digit_char_not_sign (d : Z) :
  0 <= d < 10 ->
  Ascii.eqb (strconv.digit_char d) "-" = false
  /\ Ascii.eqb (strconv.digit_char d) "+" = false
  /\ is_digit (strconv.digit_char d) = true
  /\ Ascii.eqb (strconv.digit_char d) "0" = (d =? 0).
Proof.
  intros Hd.
  assert (Hcases : d = 0 \/ d = 1 \/ d = 2 \/ d = 3 \/ d = 4 \/ d = 5
                   \/ d = 6 \/ d = 7 \/ d = 8 \/ d = 9) by lia.
  repeat (destruct Hcases as [-> | Hcases]; [repeat split |]).
  subst d. repeat split.
Qed.

(** The text of a positive number starts with a digit that is not 0. *)
Lemma formatBits_head (fuel : nat) :
  forall (u : Z) (acc : string),
    0 <= u < 10 ^ Z.of_nat (S fuel) ->
    exists (d : Z) (s : string),
      0 <= d < 10 /\ (0 < u -> 0 < d)
      /\ strconv.formatBits (S fuel) u acc = String (strconv.digit_char d) s.
Proof.
  induction fuel as [| fuel IH]; intros u acc Hu.
  - exists u, acc. change (10 ^ Z.of_nat 1) with 10 in Hu.
    cbn [strconv.formatBits]. rewrite Z.mod_small by lia.
    repeat split; try lia. now destruct (u <? 10).
  - change (strconv.formatBits (S (S fuel)) u acc)
      with (if u <? 10 then String (strconv.digit_char (u mod 10)) acc
            else strconv.formatBits (S fuel) (u / 10)
                   (String (strconv.digit_char (u mod 10)) acc)).
    destruct (Z.ltb_spec u 10) as [Hlt | Hge].
    + exists u, acc. rewrite Z.mod_small by lia. repeat split; lia.
    + rewrite Nat2Z.inj_succ, Z.pow_succ_r in Hu by lia.
      destruct (IH (u / 10) (String (strconv.digit_char (u mod 10)) acc))
        as (d & s & Hd & Hpos & Heq).
      * pose proof (Z.div_pos u 10).
        pose proof (Z.div_lt_upper_bound u 10 (10 ^ Z.of_nat (S fuel))). lia.
      * exists d, s. repeat split; try lia; [| exact Heq].
        intros _. apply Hpos.
        pose proof (Z.div_le_lower_bound u 10 1). lia.
Qed.

Lemma ParseUint_FormatUint (u : Z) :
  0 <= u <= strconv.maxUint64 ->
  strconv.ParseUint (strconv.FormatUint u) = inl u.
Proof.
  intros Hu. unfold strconv.FormatUint.
  assert (Hpow : u < 10 ^ Z.of_nat 20).
  { change strconv.maxUint64 with 18446744073709551615 in Hu.
    change (10 ^ Z.of_nat 20) with 100000000000000000000. lia. }
  destruct (formatBits_head 19 u "" (conj (proj1 Hu) Hpow))
    as (d & s & _ & _ & Heq).
  unfold strconv.ParseUint. rewrite Heq, <- Heq.
  rewrite parseDigits_formatBits; [reflexivity | lia | lia].
Qed.

(** [ParseInt] reads back what [FormatInt] writes, for every [int64]. *)
Lemma ParseInt_FormatInt (i : Z) :
  strconv.is_int64 i -> strconv.ParseInt (strconv.FormatInt i) = Ok i.
Proof.
  unfold strconv.is_int64, strconv.minInt64, strconv.maxInt64.
  change (2 ^ 63) with 9223372036854775808. intros Hi.
  unfold strconv.FormatInt. destruct (Z.ltb_spec i 0) as [Hneg | Hpos].
  - unfold strconv.ParseInt.
    change (Ascii.eqb "-" "-") with true.
    change (Ascii.eqb "-" "+") with false. cbv beta iota zeta.
    cbn [orb andb negb].
    rewrite ParseUint_FormatUint
      by (change strconv.maxUint64 with 18446744073709551615; lia).
    change (2 ^ 63) with 9223372036854775808.
    destruct (Z.ltb_spec 9223372036854775808 (- i)); [lia |].
    f_equal. lia.
  - assert (Hpow : i < 10 ^ Z.of_nat 20).
    { change (10 ^ Z.of_nat 20) with 100000000000000000000. lia. }
    pose proof (ParseUint_FormatUint i) as HP.
    unfold strconv.FormatUint in *.
    destruct (formatBits_head 19 i "" (conj Hpos Hpow))
      as (d & s & Hd & _ & Heq).
    rewrite Heq in *. unfold strconv.ParseInt.
    destruct (digit_char_not_sign d Hd) as (-> & -> & _).
    cbn [orb andb negb]. rewrite HP
      by (change strconv.maxUint64 with 18446744073709551615; lia).
    change (2 ^ 63) with 9223372036854775808.
    destruct (Z.leb_spec 9223372036854775808 i); [lia | reflexivity].
Qed.

Lemma skipDigits_all (s : string) : all_digits s = true -> skipDigits s = "".
Proof.
  induction s as [| c s IH]; cbn; [reflexivity |].
  destruct (is_digit c); [exact IH | discriminate].
Qed.

Lemma formatBits_digits (fuel : nat) :
  forall (u : Z) (acc : string),
    0 <= u -> all_digits acc = true ->
    all_digits (strconv.formatBits fuel u acc) = true.
Proof.
  induction fuel as [| fuel IH]; intros u acc Hu Hacc; [exact Hacc |].
  cbn [strconv.formatBits].
  assert (Hd : all_digits (String (strconv.digit_char (u mod 10)) acc) = true).
  { cbn [all_digits].
    destruct (digit_char_not_sign (u mod 10)) as (_ & _ & -> & _);
      [apply Z.mod_pos_bound; lia | exact Hacc]. }
  destruct (u <? 10); [exact Hd |].
  apply IH; [apply Z.div_pos; lia | exact Hd].
Qed.

(** What [FormatInt] writes is a JSON number, for every [int64]. *)
Lemma isValidNumber_FormatInt (i : Z) :
  strconv.is_int64 i -> isValidNumber (strconv.FormatInt i) = true.
Proof.
  unfold strconv.is_int64, strconv.minInt64, strconv.maxInt64.
  change (2 ^ 63) with 9223372036854775808. intros Hi.
  assert (Hu : forall u, 0 < u < 10 ^ Z.of_nat 20 ->
             exists d s, 0 < d < 10 /\ all_digits s = true
               /\ strconv.FormatUint u = String (strconv.digit_char d) s).
  { intros u Hu. unfold strconv.FormatUint.
    destruct (formatBits_head 19 u "") as (d & s & Hd & Hpos & Heq); [lia |].
    exists d, s. split; [lia |]. split; [| exact Heq].
    pose proof (formatBits_digits 20 u "" ltac:(lia) eq_refl) as Hall.
    rewrite Heq in Hall. cbn [all_digits] in Hall.
    now apply andb_prop in Hall. }
  assert (Hvalid : forall d s, 0 < d < 10 -> all_digits s = true ->
             isValidNumber (String (strconv.digit_char d) s) = true
             /\ isValidNumber (String "-" (String (strconv.digit_char d) s))
                = true).
  { intros d s Hd Hs.
    destruct (digit_char_not_sign d ltac:(lia)) as (Hm & _ & Hdig & Hz).
    destruct (Z.eqb_spec d 0) as [-> | _]; [lia |].
    unfold isValidNumber. change (Ascii.eqb "-" "-") with true.
    cbv beta iota zeta. rewrite Hm, Hdig, Hz, (skipDigits_all s Hs).
    split; reflexivity. }
  change (10 ^ Z.of_nat 20) with 100000000000000000000 in Hu.
  unfold strconv.FormatInt. destruct (Z.ltb_spec i 0) as [Hneg | Hpos].
  - destruct (Hu (- i)) as (d & s & Hd & Hs & ->); [lia |].
    now apply Hvalid.
  - destruct (Z.eq_dec i 0) as [-> | Hnz]; [reflexivity |].
    destruct (Hu i) as (d & s & Hd & Hs & ->); [lia |].
    now apply Hvalid.
Qed.

(** ** The converters *)

Lemma bit_literal_Some (s : string) (b : bool) :
  bit_literal s = Some b <-> s = (if b then "1" else "0").
Proof.
  unfold bit_literal.
  destruct (String.eqb_spec s "1") as [-> | H1].
  - destruct b; split; intro H; try reflexivity; discriminate.
  - destruct (String.eqb_spec s "0") as [-> | H0].
    + destruct b; split; intro H; try reflexivity; discriminate.
    + split; [discriminate | intros ->; destruct b; contradiction].
Qed.

(** C5. In [(d *domain) convert] the securityLock output is read off the
    securityLock wire field, and the whoisPrivacy, autoRenew and notLocal
    outputs are all three read off the notLocal wire field: a conversion
    that succeeds gives the literal of securityLock as SecurityLock and
    the literal of notLocal as each of the other three, and it gives the
    same value whatever the whoisPrivacy and autoRenew wire fields hold; a
    conversion fails only on a securityLock or notLocal that is not a
    literal. *)
Theorem domain_convert_sources (d : domain) :
  match domain_convert d with
  | Ok D =>
      bit_literal (domain_SecurityLock d) = Some (Domain_SecurityLock D)
      /\ bit_literal (domain_NotLocal d) = Some (Domain_WhoisPrivacy D)
      /\ bit_literal (domain_NotLocal d) = Some (Domain_AutoRenew D)
      /\ bit_literal (domain_NotLocal d) = Some (Domain_NotLocal D)
      /\ forall whoisPrivacy autoRenew : Number,
           domain_convert
             (mkdomain (domain_Domain d) (domain_Status d) (domain_TLD d)
                (domain_CreateDate d) (domain_ExpireDate d)
                (domain_SecurityLock d) whoisPrivacy autoRenew
                (domain_NotLocal d)) = Ok D
  | Err _ =>
      bit_literal (domain_SecurityLock d) = None
      \/ bit_literal (domain_NotLocal d) = None
  end.
Proof.
  destruct d as [dm st tld cd ed sl wp ar nl].
  unfold domain_convert, bit_literal, Number_String; cbn [domain_Domain
    domain_Status domain_TLD domain_CreateDate domain_ExpireDate
    domain_SecurityLock domain_WhoisPrivacy domain_AutoRenew domain_NotLocal].
  destruct (String.eqb sl "1"), (String.eqb sl "0"),
    (String.eqb nl "1"), (String.eqb nl "0"); cbn; auto 10.
Qed.

(** C4, at the inputs where the code departs from it. A whoisPrivacy of
    [banana] and an autoRenew of [maybe] are accepted, and come out as the
    value of notLocal; and a notLocal that is no literal is reported as a
    whois privacy error that quotes the whoisPrivacy field. *)
Theorem domain_convert_accepts_other_literals :
  domain_convert
    (mkdomain "example.com" "ACTIVE" "com" "2020-01-01" "2030-01-01"
       "0" "banana" "maybe" "1")
  = Ok (mkDomain "example.com" "ACTIVE" "com" "2020-01-01" "2030-01-01"
          false true true true)
  /\ domain_convert
       (mkdomain "example.com" "ACTIVE" "com" "2020-01-01" "2030-01-01"
          "0" "1" "1" "2")
     = Err (Errorf "Expected whois privacy of '1' or '0', got '%s'." "1").
Proof. split; reflexivity. Qed.

(** X6. The part of C4 the code keeps: the two booleans of a URL forward
    accept ["yes"] and ["no"] only, and any other literal is an error that
    names the field and quotes the literal. *)
Lemma urlforward_convert_booleans (f : urlforward) (id : Z) :
  Number_Int64 (urlforward_ID f) = Ok id ->
  urlforward_convert f =
    match yes_no_literal (urlforward_IncludePath f) with
    | None =>
        Err (Errorf "Expected include path of 'yes' or 'no', got: '%s'."
                    (urlforward_IncludePath f))
    | Some includePath =>
        match yes_no_literal (urlforward_Wildcard f) with
        | None =>
            Err (Errorf "Expected wildcard of 'yes' or 'no', got: '%s'."
                        (urlforward_Wildcard f))
        | Some wildcard =>
            Ok (mkURLForward (Some id) (urlforward_Subdomain f)
                  (urlforward_Location f) (urlforward_Type f)
                  includePath wildcard)
        end
    end.
Proof.
  intros Hid. unfold urlforward_convert, yes_no_literal. rewrite Hid.
  destruct (String.eqb (urlforward_IncludePath f) "yes"),
    (String.eqb (urlforward_IncludePath f) "no"),
    (String.eqb (urlforward_Wildcard f) "yes"),
    (String.eqb (urlforward_Wildcard f) "no"); reflexivity.
Qed.

(** C2, at the inputs where the code departs from it. A record with id 5
    and priority 10 comes back without its id, and a record without id does
    not come back at all: its wire form is refused. *)
Theorem DNSRecord_round_trip_loses_id :
  dnsrecord_convert
    (DNSRecord_convert
       (mkDNSRecord (Some 5) "www" "A" "1.2.3.4" 600 (Some 10) ""))
  = Ok (mkDNSRecord None "www" "A" "1.2.3.4" 600 (Some 10) "")
  /\ dnsrecord_convert
       (DNSRecord_convert (mkDNSRecord None "www" "A" "1.2.3.4" 600 None ""))
     = Err (ErrorfErr
              "Failed to parse id as an integer with the following error: '%s'."
              (Lib (NumError "ParseInt" "" ErrSyntax))).
Proof. split; reflexivity. Qed.

(** The nil store in [(r *dnsrecord) convert] is never reached: the branch
    that holds it parses the empty string, which fails. *)
Lemma dnsrecord_convert_no_panic (r : dnsrecord) (text : string) :
  dnsrecord_convert r <> Err (Panic text).
Proof.
  unfold dnsrecord_convert, Number_String, Number_Int64.
  destruct (String.eqb_spec (dnsrecord_ID r) "") as [-> | Hid]; cbn.
  - discriminate.
  - destruct (strconv.ParseInt (dnsrecord_TTL r)); [| discriminate].
    destruct (String.eqb (dnsrecord_Priority r) ""); cbn; [discriminate |].
    destruct (strconv.ParseInt (dnsrecord_Priority r)); discriminate.
Qed.

(** The id of a converted DNS record is nil, whatever the wire id is. *)
Lemma dnsrecord_convert_id_nil (r : dnsrecord) (d : DNSRecord) :
  dnsrecord_convert r = Ok d -> DNSRecord_ID d = None.
Proof.
  unfold dnsrecord_convert, Number_String, Number_Int64.
  destruct (String.eqb (dnsrecord_ID r) ""); cbn.
  - destruct (strconv.ParseInt (dnsrecord_ID r)); discriminate.
  - destruct (strconv.ParseInt (dnsrecord_TTL r)); [| discriminate].
    destruct (String.eqb (dnsrecord_Priority r) ""); cbn.
    + intros [= <-]; reflexivity.
    + destruct (strconv.ParseInt (dnsrecord_Priority r)); cbn;
        [intros [= <-]; reflexivity | discriminate].
Qed.



(** ** The transport core *)

Lemma append_empty_r (s : string) : s +:+ "" = s.
Proof.
  induction s as [| c s IH]; [reflexivity |].
  change (String c (s +:+ "") = String c s). now rewrite IH.
Qed.

Section TransportFacts.

Context {R : Type} `{status R} `{Unmarshaler R}.
Variable net : Network.

(** [do] leaves the client alone and sends at most the one request it
    builds. *)
Lemma do_world (method path : string) (body : option json) (response : R)
    (w : World) :
  self (snd (do net method path body response w)) = self w
  /\ sent (snd (do net method path body response w)) =
       (sent w ++
        match NewRequestWithContext net method (url (self w)) path with
        | Some _ => []
        | None => [mkRequest method (url (self w)) path json_headers body]
        end)%list.
Proof.
  unfold do, bindM, getClient, roundTrip, ret. cbn.
  destruct (NewRequestWithContext net method (url (self w)) path); cbn.
  - now rewrite app_nil_r.
  - destruct (RoundTrip net _ _) as [e | e | e | j]; cbn; auto.
    destruct (Unmarshal j response) as [r' [e |]]; cbn; auto.
    destruct (String.eqb (getStatus r') "SUCCESS"); cbn; auto.
    destruct (String.eqb (getStatus r') "ERROR"); cbn; auto.
Qed.

(** What [do] returns once the body is decoded. *)
Lemma do_decoded (method path : string) (body : option json)
    (response r' : R) (w : World) (j : json) :
  NewRequestWithContext net method (url (self w)) path = None ->
  RoundTrip net (length (sent w))
    (mkRequest method (url (self w)) path json_headers body) = Document j ->
  Unmarshal j response = (r', None) ->
  fst (do net method path body response w) =
    (r',
     if String.eqb (getStatus r') "SUCCESS" then None
     else if String.eqb (getStatus r') "ERROR" then
       Some (Errorf
  "Received 'ERROR' response status with the following message: %s"
               (getMessage r'))
     else
       Some (Errorf
  "Received unknown response status. Expected 'SUCCESS' or 'ERROR', got: '%s'."
               (getStatus r'))).
Proof.
  intros Hnew Htrip Hdec.
  unfold do, bindM, getClient, roundTrip, ret. cbn.
  rewrite Hnew. cbn. unfold json_headers in Htrip. rewrite Htrip, Hdec.
  destruct (String.eqb (getStatus r') "SUCCESS"); [reflexivity |].
  destruct (String.eqb (getStatus r') "ERROR"); reflexivity.
Qed.

(** C1, amended. When the body of the response is decoded into an
    envelope, [do] returns no error for the status [SUCCESS]; for the
    status [ERROR] it returns an error whose text is the sentence
    [Received 'ERROR' response status with the following message: ]
    followed by the message of the envelope; and for any other status it
    returns an error whose text names the status it received between
    quotes. *)
Theorem do_discriminates_status (method path : string) (body : option json)
    (response r' : R) (w : World) (j : json) :
  NewRequestWithContext net method (url (self w)) path = None ->
  RoundTrip net (length (sent w))
    (mkRequest method (url (self w)) path json_headers body) = Document j ->
  Unmarshal j response = (r', None) ->
  (getStatus r' = "SUCCESS" ->
   fst (do net method path body response w) = (r', None))
  /\ (getStatus r' = "ERROR" ->
      exists e : error,
        fst (do net method path body response w) = (r', Some e)
        /\ forall libText,
             Error libText e =
               "Received 'ERROR' response status with the following message: "
               +:+ getMessage r')
  /\ (getStatus r' <> "SUCCESS" -> getStatus r' <> "ERROR" ->
      exists e : error,
        fst (do net method path body response w) = (r', Some e)
        /\ forall libText,
             Error libText e =
  "Received unknown response status. Expected 'SUCCESS' or 'ERROR', got: '"
               +:+ getStatus r' +:+ "'.").
Proof.
  intros Hnew Htrip Hdec.
  rewrite (do_decoded _ _ _ _ _ _ _ Hnew Htrip Hdec).
  repeat split.
  - intros ->. reflexivity.
  - intros ->. cbn. eexists; split; [reflexivity |].
    intros libText. cbn. now rewrite append_empty_r.
  - intros Hs He.
    destruct (String.eqb_spec (getStatus r') "SUCCESS"); [contradiction |].
    destruct (String.eqb_spec (getStatus r') "ERROR"); [contradiction |].
    eexists; split; [reflexivity |]. intros libText. reflexivity.
Qed.

End TransportFacts.

(** The call of the deletion scenario: the server answers [not found]. *)
Lemma do_discriminates_status_witness :
  exists e : error,
    fst (do (scripted [not_found_doc]) "POST"
           "domain/deleteUrlForward/example.com/7" None zero_Status world0)
    = (mkStatus "ERROR" "not found", Some e)
    /\ forall libText,
         Error libText e =
           "Received 'ERROR' response status with the following message: "
           +:+ "not found".
Proof.
  exact (proj1 (proj2
    (do_discriminates_status (scripted [not_found_doc]) "POST"
       "domain/deleteUrlForward/example.com/7" None zero_Status
       (mkStatus "ERROR" "not found") world0 not_found_doc
       eq_refl eq_refl eq_refl)) eq_refl).
Defined.

(** C1 as stated fails on the [ERROR] branch: the text of the error is not
    the message of the envelope, it is longer. *)
Lemma do_error_text_is_not_the_message :
  let r := fst (do (scripted [not_found_doc]) "POST"
                  "domain/deleteUrlForward/example.com/7" None zero_Status
                  world0) in
  getStatus (fst r) = "ERROR"
  /\ getMessage (fst r) = "not found"
  /\ exists e : error,
       snd r = Some e
       /\ forall libText, Error libText e <> getMessage (fst r).
Proof.
  cbn. repeat split. eexists; split; [reflexivity |].
  intros libText. cbn. discriminate.
Qed.

(** ** Credential injection *)

(** An encoding whose first two resolved fields are always written starts
    with their two members. *)
Lemma enc_members_two (f1 f2 : Field) (live : list Field)
    (get : string -> encoded) (j1 j2 : json) (ms : list (string * json)) :
  omitempty f1 = false -> omitempty f2 = false ->
  doc (get (goName f1)) = Ok j1 -> doc (get (goName f2)) = Ok j2 ->
  enc_members (f1 :: f2 :: live) get = Ok ms ->
  exists ms', ms = (key f1, j1) :: (key f2, j2) :: ms'.
Proof.
  intros O1 O2 D1 D2. cbn [enc_members]. rewrite O1, O2, D1, D2. cbn.
  destruct (enc_members live get) as [ms' | e]; [| discriminate].
  intros [= <-]. now exists ms'.
Qed.

(** The two members every request of the package starts with. *)
Lemma credentials_first (fields : list Field) (get : string -> encoded)
    (c : Credentials) (rest : list Field) (body : json) :
  typeFields fields =
    mkField "Credentials.APIKey" "apikey" false true 1
    :: mkField "Credentials.SecretAPIKey" "secretapikey" false true 1
    :: rest ->
  get "Credentials.APIKey" = enc_string (APIKey c) ->
  get "Credentials.SecretAPIKey" = enc_string (SecretAPIKey c) ->
  enc_struct fields get = Ok body ->
  member "apikey" body = Some (JString (APIKey c))
  /\ member "secretapikey" body = Some (JString (SecretAPIKey c)).
Proof.
  intros Hlive G1 G2. unfold enc_struct. rewrite Hlive.
  destruct (enc_members _ get) as [ms | e] eqn:E; [| discriminate].
  intros [= <-].
  eapply enc_members_two in E as [ms' ->]; cbn; try reflexivity.
  - split; reflexivity.
  - now rewrite G1.
  - now rewrite G2.
Qed.

#[export, refine] Instance Credentials_carrier
  : CredentialsCarrier Credentials := {
  carried c := c
}.
Proof.
  - reflexivity.
  - reflexivity.
  - intros c body. cbn. intros [= <-]. split; reflexivity.
Defined.

#[export, refine] Instance DomainList_req_carrier
  : CredentialsCarrier DomainList_req := {
  carried q := DomainList_req_Credentials q
}.
Proof.
  - reflexivity.
  - reflexivity.
  - intros q body. cbn. intros [= <-]. split; reflexivity.
Defined.

#[export, refine] Instance AddURLForward_req_carrier
  : CredentialsCarrier AddURLForward_req := {
  carried q := AddURLForward_req_Credentials q
}.
Proof.
  - reflexivity.
  - reflexivity.
  - intros q body.
    apply (credentials_first _ _ (AddURLForward_req_Credentials q)
             (skipn 2 (typeFields AddURLForward_req_fields)));
      reflexivity.
Defined.

#[export, refine] Instance DNSRecord_req_carrier
  : CredentialsCarrier DNSRecord_req := {
  carried q := DNSRecord_req_Credentials q
}.
Proof.
  - reflexivity.
  - reflexivity.
  - intros q body.
    apply (credentials_first _ _ (DNSRecord_req_Credentials q)
             (skipn 2 (typeFields DNSRecord_req_fields)));
      reflexivity.
Defined.

#[export, refine] Instance UpdateNameServers_req_carrier
  : CredentialsCarrier UpdateNameServers_req := {
  carried q := UpdateNameServers_req_Credentials q
}.
Proof.
  - reflexivity.
  - reflexivity.
  - intros q body.
    apply (credentials_first _ _ (UpdateNameServers_req_Credentials q)
             (skipn 2 (typeFields UpdateNameServers_req_fields)));
      reflexivity.
Defined.

Section PostFacts.

Context {Q : Type} `{CredentialsCarrier Q}.
Context {R : Type} `{status R} `{Unmarshaler R}.
Variable net : Network.

(** [post] as one equation: the setters, the encoding, then [do]. *)
Lemma post_unfold (path : string) (req : Q) (res : R) (w : World) :
  let c := Client_Credentials (self w) in
  let req' := setSecretAPIKey (SecretAPIKey c) (setAPIKey (APIKey c) req) in
  post net path req res w =
    match Marshal req' with
    | Err err =>
        ((req', res,
          Some (ErrorfErr
  "Failed to marshal an API request as JSON with the following error: %s"
                  err)), w)
    | Ok body =>
        let '((res', err), w') := do net "POST" path (Some body) res w in
        ((req', res', err), w')
    end.
Proof.
  intros c req'. subst c req'.
  cbv beta iota zeta delta [post bindM getClient ret].
  destruct (Marshal _) as [body | e]; [| reflexivity].
  destruct (do net "POST" path (Some body) res w) as [[res' err] w'].
  reflexivity.
Qed.

(** C9. In every [post] call the request object leaves the two setters
    with the credentials of the client in it; the request that goes out
    has the encoding of that object as its body, with the client's key
    under [apikey] and the client's secret under [secretapikey]; and the
    client is after the call what it was before it. *)
Theorem post_stamps_credentials (path : string) (req : Q) (res : R)
    (w : World) :
  let c := Client_Credentials (self w) in
  let out := post net path req res w in
  let req' := fst (fst (fst out)) in
  req' = setSecretAPIKey (SecretAPIKey c) (setAPIKey (APIKey c) req)
  /\ carried req' = c
  /\ self (snd out) = self w
  /\ forall rq : Request,
       In rq (sent (snd out)) ->
       In rq (sent w)
       \/ exists body : json,
            Marshal req' = Ok body
            /\ rq = mkRequest "POST" (url (self w)) path json_headers
                      (Some body)
            /\ member "apikey" body = Some (JString (APIKey c))
            /\ member "secretapikey" body
               = Some (JString (SecretAPIKey c)).
Proof.
  cbn zeta. rewrite post_unfold. cbn zeta.
  set (c := Client_Credentials (self w)).
  set (req' := setSecretAPIKey (SecretAPIKey c) (setAPIKey (APIKey c) req)).
  assert (Hc : carried req' = c).
  { unfold req'. rewrite carried_setSecretAPIKey, carried_setAPIKey. cbn.
    now destruct c. }
  destruct (Marshal req') as [body | e] eqn:HM.
  - pose proof (do_world net "POST" path (Some body) res w) as [Hself Hsent].
    destruct (do net "POST" path (Some body) res w) as [[res' err] w'].
    cbn in *. repeat split; auto.
    intros rq Hin. rewrite Hsent in Hin. apply in_app_or in Hin as [Hin | Hin];
      [now left | right].
    destruct (NewRequestWithContext net "POST" (url (self w)) path);
      [destruct Hin |].
    destruct Hin as [<- | []]. exists body. split; [exact HM |].
    split; [reflexivity |].
    rewrite <- Hc. now apply carried_Marshal.
  - cbn. repeat split; auto.
Qed.

End PostFacts.

(** ** Listing calls *)

(** The conversion loop fills one slot per record and keeps the errors in
    order. *)
Lemma convert_each_acc {W D} (convert : W -> result D) (ws : list W)
    (out : list (option D)) (errs : list error) :
  convert_each convert ws out errs =
    ((out ++ map (slot convert) ws)%list,
     (errs ++ rejected convert ws)%list).
Proof.
  revert out errs. induction ws as [| w ws IH]; intros out errs.
  - cbn. now rewrite !app_nil_r.
  - cbn [convert_each]. unfold rejected, slot in *. cbn [map omap list_omap].
    destruct (convert w) as [d | e]; rewrite IH, <- !app_assoc; reflexivity.
Qed.




(** ** Decoding: what a document can and cannot reach *)

Lemma fieldFor_live (fields : list Field) (k : string) (f : Field) :
  fieldFor fields k = Some f -> In f (typeFields fields).
Proof.
  unfold fieldFor.
  destruct (List.find _ (typeFields fields)) as [g |] eqn:E.
  - intros [= <-]. now apply find_some in E.
  - intros E'. now apply find_some in E'.
Qed.

(** A property of a struct that no resolved field's setter breaks survives
    the decoding of any object. *)
Lemma dec_members_preserves {T} (P : T -> Prop) (fields : list Field)
    (set : string -> decoder T) :
  (forall f j t, In f (typeFields fields) -> P t ->
                 P (fst (set (goName f) j t))) ->
  forall members t, P t -> P (fst (dec_members fields set members t)).
Proof.
  intros Hset. induction members as [| [k v] members IH]; intros t Ht.
  - exact Ht.
  - cbn [dec_members].
    destruct (fieldFor fields k) as [f |] eqn:Ef; [| now apply IH].
    pose proof (Hset f v t (fieldFor_live _ _ _ Ef) Ht) as H1.
    destruct (set (goName f) v t) as [t1 o]. cbn in H1.
    pose proof (IH t1 H1) as H2.
    destruct (dec_members fields set members t1) as [t2 o'].
    destruct o; exact H1 || exact H2.
Qed.

Lemma dec_struct_preserves {T} (P : T -> Prop) (name : string)
    (fields : list Field) (set : string -> decoder T) :
  (forall f j t, In f (typeFields fields) -> P t ->
                 P (fst (set (goName f) j t))) ->
  forall j t, P t -> P (fst (dec_struct name fields set j t)).
Proof.
  intros Hset j t Ht. destruct j; cbn; try exact Ht.
  now apply dec_members_preserves.
Qed.

(** A property of the elements that the element decoder keeps, and that
    the zero value has, holds of every element of a decoded slice. *)
Lemma dec_items_preserves {T} (P : T -> Prop) (dec : decoder T) (zero : T) :
  (forall j t, P t -> P (fst (dec j t))) -> P zero ->
  forall items old, Forall P old ->
                    Forall P (fst (dec_items dec zero items old)).
Proof.
  intros Hdec Hzero. induction items as [| j items IH]; intros old Hold.
  - constructor.
  - cbn [dec_items].
    assert (Hslot : P (match old with t :: _ => t | [] => zero end)).
    { destruct Hold; assumption. }
    pose proof (Hdec j _ Hslot) as H1.
    destruct (dec j _) as [t o]. cbn in H1.
    assert (Htail : Forall P (tail old)) by (destruct Hold; cbn; auto).
    pose proof (IH _ Htail) as H2.
    destruct (dec_items dec zero items (tail old)) as [ts o'].
    destruct o; cbn; repeat constructor; assumption.
Qed.

Lemma dec_slice_preserves {T} (P : T -> Prop) (field : string)
    (dec : decoder T) (zero : T) :
  (forall j t, P t -> P (fst (dec j t))) -> P zero ->
  forall j old, Forall P old ->
                Forall P (fst (dec_slice field dec zero j old)).
Proof.
  intros Hdec Hzero j old Hold. destruct j; cbn; try exact Hold.
  - constructor.
  - now apply dec_items_preserves.
Qed.

Section DoFacts.

Context {R : Type} `{status R} `{Unmarshaler R}.
Variable net : Network.

(** A property of the response that decoding keeps holds of the response
    [do] hands back. *)
Lemma do_preserves (P : R -> Prop) (method path : string)
    (body : option json) (response : R) (w : World) :
  (forall j r, P r -> P (fst (Unmarshal j r))) ->
  P response ->
  P (fst (fst (do net method path body response w))).
Proof.
  intros Hdec Hres. unfold do, bindM, getClient, roundTrip, ret. cbn.
  destruct (NewRequestWithContext net method (url (self w)) path);
    [exact Hres |]. cbn.
  destruct (RoundTrip net _ _) as [e | e | e | j]; cbn; try exact Hres.
  pose proof (Hdec j response Hres) as H1.
  destruct (Unmarshal j response) as [r' [e |]]; cbn in *; [exact H1 |].
  destruct (String.eqb (getStatus r') "SUCCESS"); [exact H1 |].
  destruct (String.eqb (getStatus r') "ERROR"); exact H1.
Qed.

End DoFacts.

(** ** Pricing *)

Lemma Pricing_res_live :
  typeFields Pricing_res_fields =
    [ mkField "Status.Status" "status" false true 1;
      mkField "Status.Message" "message" false true 1 ].
Proof. reflexivity. Qed.

Lemma set_Pricing_res_map (f : Field) (v : json) (t : Pricing_res) :
  In f (typeFields Pricing_res_fields) ->
  pricing (fst (set_Pricing_res (goName f) v t)) = pricing t.
Proof.
  rewrite Pricing_res_live. unfold set_Pricing_res.
  intros [<- | [<- | []]]; cbv beta iota delta [goName].
  - change (promoted "Status" "Status.Status") with (Some "Status").
    cbv beta iota. now destruct (set_Status "Status" v _).
  - change (promoted "Status" "Status.Message") with (Some "Message").
    cbv beta iota. now destruct (set_Status "Message" v _).
Qed.

(** No key of any document reaches the [pricing] field. *)
Lemma Unmarshal_Pricing_res_map (j : json) (r : Pricing_res) :
  pricing (fst (Unmarshal j r)) = pricing r.
Proof.
  cbn [Unmarshal Pricing_res_Unmarshaler]. unfold unmarshal_struct.
  pose proof (dec_struct_preserves (fun r' => pricing r' = pricing r) ""
                Pricing_res_fields set_Pricing_res) as Hp.
  cbv beta in Hp.
  assert (Hstep : forall f v t, In f (typeFields Pricing_res_fields) ->
            pricing t = pricing r ->
            pricing (fst (set_Pricing_res (goName f) v t)) = pricing r).
  { intros f v t Hin Ht. now rewrite set_Pricing_res_map. }
  specialize (Hp Hstep j r eq_refl).
  now destruct (dec_struct "" Pricing_res_fields set_Pricing_res j r).
Qed.

(** C6, where the code departs from it. [Pricing] returns an empty map
    whatever the server answers, because the field the map is decoded
    into is not exported; so it does for a [SUCCESS] response that prices
    the TLD [com], without reporting an error. *)
Theorem Pricing_returns_no_mapping :
  (forall (net : Network) (w : World), fst (fst (Pricing_ net w)) = ∅)
  /\ fst (Pricing_ (scripted [pricing_doc]) world0) = (∅, None).
Proof.
  split; [| reflexivity].
  intros net w. unfold Pricing_, get.
  cbv beta iota zeta delta [bindM ret].
  pose proof (do_preserves net (fun r => pricing r = ∅) "GET" "pricing/get"
                None (mkPricing_res zero_Status ∅) w) as Hp.
  destruct (do net "GET" "pricing/get" None (mkPricing_res zero_Status ∅) w)
    as [[res err] w'].
  cbn [fst snd] in *. apply Hp; [| reflexivity].
  intros j r Hr.
  exact (eq_trans (Unmarshal_Pricing_res_map j r) Hr).
Qed.

(** ** URL forwards: the two fields tagged [type] *)

Lemma urlforward_live :
  map goName (typeFields urlforward_fields)
  = [ "ID"; "Subdomain"; "Location"; "Wildcard" ].
Proof. reflexivity. Qed.

Lemma URLForwards_res_live :
  map goName (typeFields URLForwards_res_fields)
  = [ "Status.Status"; "Status.Message"; "Forwards" ].
Proof. reflexivity. Qed.

Lemma set_urlforward_blank (f : Field) (v : json) (t : urlforward) :
  In f (typeFields urlforward_fields) -> blank t ->
  blank (fst (set_urlforward (goName f) v t)).
Proof.
  intros Hin. apply (in_map goName) in Hin. rewrite urlforward_live in Hin.
  destruct t as [id sub loc ty ip wc]. unfold blank. cbn.
  intros [-> ->].
  destruct Hin as [<- | [<- | [<- | [<- | []]]]]; cbn;
    destruct v; cbn; auto; destruct (isValidNumber _); cbn; auto.
Qed.

Lemma dec_urlforward_blank (j : json) (t : urlforward) :
  blank t -> blank (fst (dec_urlforward j t)).
Proof.
  apply (dec_struct_preserves blank). intros f v t0. apply set_urlforward_blank.
Qed.

Lemma set_URLForwards_res_blank (f : Field) (v : json) (r : URLForwards_res) :
  In f (typeFields URLForwards_res_fields) ->
  Forall blank (Forwards r) ->
  Forall blank (Forwards (fst (set_URLForwards_res (goName f) v r))).
Proof.
  intros Hin Hr. apply (in_map goName) in Hin.
  rewrite URLForwards_res_live in Hin. unfold set_URLForwards_res.
  destruct Hin as [<- | [<- | [<- | []]]].
  - change (promoted "Status" "Status.Status") with (Some "Status").
    cbv beta iota. now destruct (set_Status "Status" v _).
  - change (promoted "Status" "Status.Message") with (Some "Message").
    cbv beta iota. now destruct (set_Status "Message" v _).
  - change (promoted "Status" "Forwards") with (@None string).
    cbv beta iota.
    pose proof (dec_slice_preserves blank "forwards" dec_urlforward
                  zero_urlforward dec_urlforward_blank
                  (conj eq_refl eq_refl) v (Forwards r) Hr) as Hs.
    now destruct (dec_slice "forwards" dec_urlforward zero_urlforward v _).
Qed.

(** Whatever the document, every URL forward decoded from it is blank. *)
Lemma Unmarshal_URLForwards_res_blank (j : json) (r : URLForwards_res) :
  Forall blank (Forwards r) -> Forall blank (Forwards (fst (Unmarshal j r))).
Proof.
  intros Hr. cbn [Unmarshal URLForwards_res_Unmarshaler].
  unfold unmarshal_struct.
  pose proof (dec_struct_preserves (fun r' => Forall blank (Forwards r')) ""
                URLForwards_res_fields set_URLForwards_res
                set_URLForwards_res_blank j r Hr) as Hp.
  now destruct (dec_struct "" URLForwards_res_fields set_URLForwards_res j r).
Qed.

(** A blank URL forward does not convert: its id is refused, or else its
    include path is. *)
Lemma urlforward_convert_blank (id sub loc ty wc : string) :
  urlforward_convert (mkurlforward id sub loc ty "" wc) =
    match Number_Int64 id with
    | Ok _ =>
        Err (Errorf "Expected include path of 'yes' or 'no', got: '%s'." "")
    | Err err =>
        Err (ErrorfErr
               "Failed to parse id as an integer with the following error: '%s'."
               err)
    end.
Proof.
  unfold urlforward_convert. cbn.
  destruct (Number_Int64 id); reflexivity.
Qed.

Lemma slot_blank (f : urlforward) :
  blank f -> slot urlforward_convert f = None.
Proof.
  destruct f as [id sub loc ty ip wc]. intros [Hip _]. cbn in Hip. subst ip.
  unfold slot. rewrite urlforward_convert_blank.
  destruct (Number_Int64 id); reflexivity.
Qed.

Lemma formatBits_nonempty (fuel : nat) (u : Z) (c : ascii) (acc : string) :
  strconv.formatBits fuel u (String c acc) <> "".
Proof.
  revert u c acc. induction fuel as [| fuel IH]; intros u c acc.
  - discriminate.
  - cbn [strconv.formatBits]. destruct (u <? 10); [discriminate | apply IH].
Qed.

Lemma formatBits_S_nonempty (fuel : nat) (u : Z) (acc : string) :
  strconv.formatBits (S fuel) u acc <> "".
Proof.
  cbn [strconv.formatBits]. destruct (u <? 10); [discriminate |].
  apply formatBits_nonempty.
Qed.

Lemma FormatInt_nonempty (i : Z) : String.eqb (strconv.FormatInt i) "" = false.
Proof.
  apply String.eqb_neq. unfold strconv.FormatInt, strconv.FormatUint.
  destruct (i <? 0); [discriminate |]. apply (formatBits_S_nonempty 19).
Qed.

Lemma enc_Number_nonempty (s : string) :
  String.eqb s "" = false ->
  enc_Number s =
    mkEncoded false
      (if isValidNumber s then Ok (JNumber s)
       else Err (Lib (InvalidNumberLiteral s))).
Proof. intros Hne. unfold enc_Number. now rewrite Hne. Qed.

(** What [AddURLForward] sends for a forward: the members of the six
    resolved fields, the id only when there is one. *)
Lemma Marshal_AddURLForward_req (c : Credentials) (f : URLForward) :
  Marshal (mkAddURLForward_req c (URLForward_convert f)) =
    let tail :=
      [ ("subdomain", JString (URLForward_Subdomain f));
        ("location", JString (URLForward_Location f));
        ("wildcard", JString (if URLForward_Wildcard f then "yes" else "no")) ]
    in
    match URLForward_ID f with
    | None =>
        Ok (JObject (("apikey", JString (APIKey c))
                     :: ("secretapikey", JString (SecretAPIKey c)) :: tail))
    | Some i =>
        if isValidNumber (strconv.FormatInt i) then
          Ok (JObject (("apikey", JString (APIKey c))
                       :: ("secretapikey", JString (SecretAPIKey c))
                       :: ("id", JNumber (strconv.FormatInt i)) :: tail))
        else Err (Lib (InvalidNumberLiteral (strconv.FormatInt i)))
    end.
Proof.
  destruct f as [[i |] sub loc ty ip wc]; [| reflexivity].
  unfold URLForward_convert. cbn [URLForward_ID URLForward_Subdomain
    URLForward_Location URLForward_Type URLForward_IncludePath
    URLForward_Wildcard].
  pose proof (FormatInt_nonempty i) as Hne.
  remember (strconv.FormatInt i) as s eqn:Es. clear Es.
  unfold Marshal, AddURLForward_req_Marshaler, enc_struct.
  change (typeFields AddURLForward_req_fields)
    with [ mkField "Credentials.APIKey" "apikey" false true 1;
           mkField "Credentials.SecretAPIKey" "secretapikey" false true 1;
           mkField "urlforward.ID" "id" true true 1;
           mkField "urlforward.Subdomain" "subdomain" false true 1;
           mkField "urlforward.Location" "location" false true 1;
           mkField "urlforward.Wildcard" "wildcard" false true 1 ].
  cbn -[enc_Number]. rewrite (enc_Number_nonempty s Hne).
  cbn -[isValidNumber]. destruct (isValidNumber s); reflexivity.
Qed.

Section PostResponse.

Context {Q : Type} `{CredentialsCarrier Q}.
Context {R : Type} `{status R} `{Unmarshaler R}.
Variable net : Network.

(** A property of the response that decoding keeps holds of the response
    [post] hands back. *)
Lemma post_preserves (P : R -> Prop) (path : string) (req : Q) (res : R)
    (w : World) :
  (forall j r, P r -> P (fst (Unmarshal j r))) ->
  P res ->
  P (snd (fst (fst (post net path req res w)))).
Proof.
  intros Hdec Hres. rewrite post_unfold. cbv zeta.
  destruct (Marshal _) as [body | e]; [| exact Hres].
  pose proof (do_preserves net P "POST" path (Some body) res w Hdec Hres)
    as Hd.
  now destruct (do net "POST" path (Some body) res w) as [[res' err] w'].
Qed.

End PostResponse.

(** [URLForwards] never returns a converted forward: every slot of its
    slice is nil. *)
Lemma URLForwards_all_nil (net : Network) (name : string) (w : World) :
  Forall (fun s : option URLForward => s = None)
         (fst (fst (URLForwards net name w))).
Proof.
  unfold URLForwards. cbv beta iota zeta delta [bindM ret].
  pose proof (post_preserves net (fun r => Forall blank (Forwards r))
                ("domain/getUrlForwarding/" +:+ name) zero_Credentials
                (mkURLForwards_res zero_Status []) w
                Unmarshal_URLForwards_res_blank (List.Forall_nil blank))
    as Hb.
  destruct (post net _ zero_Credentials _ w) as [[[q r] [e |]] w'];
    cbn [fst snd] in *.
  - constructor.
  - rewrite convert_each_acc. cbn [fst app].
    induction Hb as [| f fs Hf _ IH]; cbn; constructor; auto.
    now apply slot_blank.
Qed.

(** C10, amended. In the wire struct of a URL forward the fields [Type]
    and [IncludePath] both carry the key [type], and neither is among the
    fields the JSON codec resolves. So the body [AddURLForward] sends for
    any forward has no [type] and no [includePath] member; every URL
    forward decoded from any response has an empty [IncludePath] (and an
    empty [Type]); the conversion of such a forward fails, at the include
    path check when its id parses as an integer and at the id check
    otherwise; and [URLForwards] returns no converted forward at all. *)
Theorem urlforward_type_tag_clash :
  map (fun f => (goName f, key f))
      (List.filter (fun f => String.eqb (key f) "type") urlforward_fields)
  = [ ("Type", "type"); ("IncludePath", "type") ]
  /\ map goName (typeFields urlforward_fields)
     = [ "ID"; "Subdomain"; "Location"; "Wildcard" ]
  /\ (forall (c : Credentials) (f : URLForward),
        match Marshal (mkAddURLForward_req c (URLForward_convert f)) with
        | Ok body =>
            member "type" body = None
            /\ member "includePath" body = None
            /\ member "wildcard" body
               = Some (JString (if URLForward_Wildcard f then "yes"
                                else "no"))
        | Err _ =>
            exists i : Z,
              URLForward_ID f = Some i
              /\ isValidNumber (strconv.FormatInt i) = false
        end)
  /\ (forall j : json,
        Forall (fun f => urlforward_IncludePath f = ""
                         /\ urlforward_Type f = "")
          (Forwards (fst (Unmarshal j (mkURLForwards_res zero_Status [])))))
  /\ (forall id sub loc ty wc : string,
        urlforward_convert (mkurlforward id sub loc ty "" wc) =
          match Number_Int64 id with
          | Ok _ =>
              Err (Errorf
                     "Expected include path of 'yes' or 'no', got: '%s'." "")
          | Err err =>
              Err (ErrorfErr
             "Failed to parse id as an integer with the following error: '%s'."
                     err)
          end)
  /\ (forall (net : Network) (name : string) (w : World),
        Forall (fun s : option URLForward => s = None)
               (fst (fst (URLForwards net name w)))).
Proof.
  split; [reflexivity |]. split; [reflexivity |].
  split; [| split; [| split]].
  - intros c f. rewrite Marshal_AddURLForward_req. cbv zeta.
    destruct (URLForward_ID f) as [i |].
    + destruct (isValidNumber (strconv.FormatInt i)) eqn:Ev.
      * repeat split.
      * now exists i.
    + repeat split.
  - intros j. apply (Unmarshal_URLForwards_res_blank j). constructor.
  - apply urlforward_convert_blank.
  - apply URLForwards_all_nil.
Qed.

(** C10 as stated fails on its last clause: a decoded URL forward without
    an id does not reach the include path check, its conversion fails at
    the id. *)
Lemma decoded_forward_fails_at_id :
  let res := fst (Unmarshal no_id_forwards_doc
                    (mkURLForwards_res zero_Status [])) in
  exists f : urlforward,
    Forwards res = [f]
    /\ urlforward_IncludePath f = ""
    /\ urlforward_convert f
       = Err (ErrorfErr
             "Failed to parse id as an integer with the following error: '%s'."
                (Lib (NumError "ParseInt" "" ErrSyntax)))
    /\ urlforward_convert f
       <> Err (Errorf "Expected include path of 'yes' or 'no', got: '%s'."
                      (urlforward_IncludePath f)).
Proof.
  eexists. split; [reflexivity |]. split; [reflexivity |].
  split; [reflexivity | discriminate].
Qed.

(** ** Pagination of the domain list *)

Lemma wrap64_id (z : Z) : strconv.is_int64 z -> strconv.wrap64 z = z.
Proof.
  unfold strconv.is_int64, strconv.wrap64, strconv.minInt64,
    strconv.maxInt64.
  change (2 ^ 63) with 9223372036854775808.
  change (2 ^ 64) with 18446744073709551616.
  intros Hz. rewrite Z.mod_small by lia. lia.
Qed.

Lemma Marshal_DomainList_req (c : Credentials) (start : Z) :
  Marshal (mkDomainList_req c start) =
    Ok (JObject [ ("apikey", JString (APIKey c));
                  ("secretapikey", JString (SecretAPIKey c));
                  ("start", JNumber (strconv.FormatInt start)) ]).
Proof. reflexivity. Qed.

(** One call of [DomainList] against a server that answers with a page. *)
Lemma DomainList_page (net : Network) (start : Z) (w : World) (j : json)
    (message : string) (page : list domain) :
  NewRequestWithContext net "POST" (url (self w)) "domain/listAll" = None ->
  RoundTrip net (length (sent w)) (listAll_request (self w) start)
    = Document j ->
  Unmarshal j (mkDomainList_res zero_Status [])
    = (mkDomainList_res (mkStatus "SUCCESS" message) page, None) ->
  DomainList net start w =
    (convert_each domain_convert page [] [],
     mkWorld (self w) (sent w ++ [listAll_request (self w) start])).
Proof.
  intros Hnew Htrip Hdec. unfold DomainList.
  cbv beta iota zeta delta [bindM ret]. rewrite post_unfold. cbv zeta.
  change (setSecretAPIKey ?s (setAPIKey ?k
            (mkDomainList_req zero_Credentials start)))
    with (mkDomainList_req (mkCredentials k s) start).
  rewrite Marshal_DomainList_req. cbn [APIKey SecretAPIKey].
  match goal with
  | |- context [do net "POST" ?p ?b ?r w] =>
      pose proof (do_decoded net "POST" p b r _ w j Hnew Htrip Hdec) as Hfst;
      pose proof (do_world net "POST" p b r w) as [Hself Hsent];
      destruct (do net "POST" p b r w) as [[res' err] w']
  end.
  cbn [fst snd] in *. rewrite Hnew in Hsent.
  injection Hfst as -> ->. cbn.
  destruct w' as [c' s']. cbn in Hself, Hsent. subst c' s'. reflexivity.
Qed.

Lemma convert_each_all_ok {W D} (convert : W -> result D) (ws : list W) :
  Forall (fun w => is_ok (convert w) = true) ws ->
  convert_each convert ws [] [] = (map Some (converted convert ws), [])
  /\ length (converted convert ws) = length ws.
Proof.
  intros Hok. rewrite convert_each_acc. cbn [app].
  unfold converted, rejected, slot.
  induction Hok as [| w ws Hw _ [IH1 IH2]]; [split; reflexivity |].
  cbn. destruct (convert w); [| discriminate]. cbn.
  injection IH1 as -> ->. rewrite IH2. split; reflexivity.
Qed.

Lemma appendModels_all (models : list domainModel) (ds : list Domain) :
  appendModels models (map Some ds) = Ok (models ++ map toModel ds)%list.
Proof.
  revert models. induction ds as [| d ds IH]; intros models; cbn.
  - now rewrite app_nil_r.
  - rewrite IH, <- app_assoc. reflexivity.
Qed.

Lemma converted_app {W D} (convert : W -> result D) (l1 l2 : list W) :
  converted convert (l1 ++ l2)
  = (converted convert l1 ++ converted convert l2)%list.
Proof. unfold converted. apply omap_app. Qed.

Lemma serves_next (net : Network) (k : nat) (page : list domain)
    (pages : list (list domain)) :
  serves net k (page :: pages) -> serves net (S k) pages.
Proof.
  intros [Hnew Hserve]. split; [exact Hnew |].
  intros i p Hp req. specialize (Hserve (S i) p Hp req).
  now replace (S k + i)%nat with (k + S i)%nat by lia.
Qed.

Lemma offsets_shift (c : Client) (start : Z) (n : nat) :
  listAll_request c start
  :: map (fun i => listAll_request c (start + 1000 + 1000 * Z.of_nat i))
         (seq 0 n)
  = map (fun i => listAll_request c (start + 1000 * Z.of_nat i))
        (seq 0 (S n)).
Proof.
  cbn [seq map]. replace (start + 1000 * Z.of_nat 0) with start by lia.
  f_equal. rewrite <- seq_shift, map_map.
  apply map_ext. intros i. f_equal. lia.
Qed.




(** The scenario of the specification: pages of 1000, 1000 and 400 records
    make three calls, with the offsets 0, 1000 and 2000, and 2400 domains
    are set. *)
Example Read_three_pages :
  let out :=
    Read (scripted [ page_doc (repeat a_domain 1000);
                     page_doc (repeat a_domain 1000);
                     page_doc (repeat a_domain 400) ]) 3 world0 in
  sent (snd out)
  = [ listAll_request client0 0; listAll_request client0 1000;
      listAll_request client0 2000 ]
  /\ fst out
     = Some (Ok (mkReadResult
                   (repeat (toModel
                              (mkDomain "example.com" "ACTIVE" "com"
                                 "2020-01-01 00:00:00" "2030-01-01 00:00:00"
                                 true false false false)) 2400) [])).
Proof. vm_compute. split; reflexivity. Qed.

(** ** Round trips and scenarios *)

(** X7. The round trip of a DNS record whose numbers are [int64]s: every
    field comes back but the id, which is dropped when there is one and
    whose absence makes the wire form unconvertible. *)
Lemma DNSRecord_round_trip (r : DNSRecord) :
  strconv.is_int64 (DNSRecord_TTL r) ->
  (forall p, DNSRecord_Priority r = Some p -> strconv.is_int64 p) ->
  dnsrecord_convert (DNSRecord_convert r) =
    match DNSRecord_ID r with
    | Some _ =>
        Ok (mkDNSRecord None (DNSRecord_Subdomain r) (DNSRecord_Type r)
              (DNSRecord_Content r) (DNSRecord_TTL r) (DNSRecord_Priority r)
              (DNSRecord_Notes r))
    | None =>
        Err (ErrorfErr
               "Failed to parse id as an integer with the following error: '%s'."
               (Lib (NumError "ParseInt" "" ErrSyntax)))
    end.
Proof.
  destruct r as [id sub ty ct ttl prio notes].
  cbn [DNSRecord_ID DNSRecord_Subdomain DNSRecord_Type DNSRecord_Content
       DNSRecord_TTL DNSRecord_Priority DNSRecord_Notes].
  intros Httl Hprio.
  unfold dnsrecord_convert, DNSRecord_convert, Number_String, Number_Int64.
  cbn [dnsrecord_ID dnsrecord_TTL dnsrecord_Priority dnsrecord_Subdomain
       dnsrecord_Type dnsrecord_Content dnsrecord_Notes
       DNSRecord_ID DNSRecord_Subdomain DNSRecord_Type DNSRecord_Content
       DNSRecord_TTL DNSRecord_Priority DNSRecord_Notes].
  destruct id as [i |]; [| reflexivity].
  rewrite FormatInt_nonempty. cbn [bind].
  rewrite (ParseInt_FormatInt ttl Httl).
  destruct prio as [p |]; [| reflexivity].
  rewrite FormatInt_nonempty. cbn [negb].
  rewrite (ParseInt_FormatInt p (Hprio p eq_refl)). reflexivity.
Qed.

(** X5. The round trip of a URL forward with an [int64] id is the
    identity. *)
Lemma URLForward_round_trip (f : URLForward) (i : Z) :
  URLForward_ID f = Some i -> strconv.is_int64 i ->
  urlforward_convert (URLForward_convert f) = Ok f.
Proof.
  destruct f as [id sub loc ty ip wc]. cbn [URLForward_ID]. intros -> Hi.
  unfold urlforward_convert, URLForward_convert, Number_Int64.
  cbn [urlforward_ID urlforward_IncludePath urlforward_Wildcard
       urlforward_Subdomain urlforward_Location urlforward_Type
       URLForward_ID URLForward_Subdomain URLForward_Location
       URLForward_Type URLForward_IncludePath URLForward_Wildcard].
  rewrite (ParseInt_FormatInt i Hi). destruct ip, wc; reflexivity.
Qed.

(** The body of [AddURLForward] is always encoded when the id, if any, is
    an [int64]. *)
Lemma AddURLForward_req_encodes (c : Credentials) (f : URLForward) :
  (forall i, URLForward_ID f = Some i -> strconv.is_int64 i) ->
  is_ok (Marshal (mkAddURLForward_req c (URLForward_convert f))) = true.
Proof.
  intros Hi. rewrite Marshal_AddURLForward_req. cbv zeta.
  destruct (URLForward_ID f) as [i |]; [| reflexivity].
  now rewrite (isValidNumber_FormatInt i (Hi i eq_refl)).
Qed.

(** Creating the record [www A 1.2.3.4] with ttl 600 posts to
    [dns/create/example.com] with the credentials in the body and the ttl
    written as 600; the answer [SUCCESS] with id 12345 gives the id 12345
    and no error. *)
Example CreateDNSRecord_scenario :
  CreateDNSRecord
    (scripted [ JObject [ ("status", JString "SUCCESS");
                          ("id", JNumber "12345") ] ])
    "example.com" (mkDNSRecord None "www" "A" "1.2.3.4" 600 None "") world0
  = ((12345, None),
     mkWorld client0
       [ mkRequest "POST" (url client0) "dns/create/example.com" json_headers
           (Some (JObject [ ("apikey", JString "pk1_key");
                            ("secretapikey", JString "sk1_secret");
                            ("name", JString "www");
                            ("type", JString "A");
                            ("content", JString "1.2.3.4");
                            ("ttl", JNumber "600");
                            ("prio", JNumber "0");
                            ("notes", JString "") ])) ]).
Proof. reflexivity. Qed.

(** Deleting the forward 7 of [example.com] posts to the path with the id
    in it; the answer [ERROR], [not found] gives an error that ends in
    the message. *)
Example DeleteURLForward_scenario :
  DeleteURLForward (scripted [not_found_doc]) "example.com" 7 world0
  = (Some (Errorf
  "Received 'ERROR' response status with the following message: %s"
             "not found"),
     mkWorld client0
       [ mkRequest "POST" (url client0) "domain/deleteUrlForward/example.com/7"
           json_headers
           (Some (JObject [ ("apikey", JString "pk1_key");
                            ("secretapikey", JString "sk1_secret") ])) ]).
Proof. reflexivity. Qed.

(** Listing the forwards of a domain that has one returns a nil slot and
    the include path error, whatever the forward says. *)
Example URLForwards_scenario :
  fst (URLForwards (scripted [forwards_doc]) "example.com" world0)
  = ([None],
     [Errorf "Expected include path of 'yes' or 'no', got: '%s'." ""]).
Proof. reflexivity. Qed.

(** ** Failures that abort a listing call *)

(** A connection failure, and an [ERROR] envelope, each end [DomainList]
    with no domains and one error; the one request has gone out. *)
Lemma DomainList_aborts (net : Network) (start : Z) (w : World) :
  NewRequestWithContext net "POST" (url (self w)) "domain/listAll" = None ->
  (forall e : error,
     RoundTrip net (length (sent w)) (listAll_request (self w) start)
       = SendFails e ->
     DomainList net start w =
       (([],
         [ErrorfErr
            "Failed to process an HTTP request with the following error: %s"
            e]),
        mkWorld (self w) (sent w ++ [listAll_request (self w) start])))
  /\ (forall (j : json) (message : string) (page : list domain),
        RoundTrip net (length (sent w)) (listAll_request (self w) start)
          = Document j ->
        Unmarshal j (mkDomainList_res zero_Status [])
          = (mkDomainList_res (mkStatus "ERROR" message) page, None) ->
        DomainList net start w =
          (([],
            [Errorf
  "Received 'ERROR' response status with the following message: %s"
               message]),
           mkWorld (self w) (sent w ++ [listAll_request (self w) start]))).
Proof.
  intros Hnew. split.
  - intros e Htrip. unfold DomainList.
    cbv beta iota zeta delta [bindM ret]. rewrite post_unfold. cbv zeta.
    change (setSecretAPIKey ?s (setAPIKey ?k
              (mkDomainList_req zero_Credentials start)))
      with (mkDomainList_req (mkCredentials k s) start).
    rewrite Marshal_DomainList_req. cbn [APIKey SecretAPIKey].
    unfold do, bindM, getClient, roundTrip, ret. cbn [self sent].
    rewrite Hnew. unfold listAll_request, json_headers in Htrip.
    rewrite Htrip. reflexivity.
  - intros j message page Htrip Hdec. unfold DomainList.
    cbv beta iota zeta delta [bindM ret]. rewrite post_unfold. cbv zeta.
    change (setSecretAPIKey ?s (setAPIKey ?k
              (mkDomainList_req zero_Credentials start)))
      with (mkDomainList_req (mkCredentials k s) start).
    rewrite Marshal_DomainList_req. cbn [APIKey SecretAPIKey].
    match goal with
    | |- context [do net "POST" ?p ?b ?r w] =>
        pose proof (do_decoded net "POST" p b r _ w j Hnew Htrip Hdec)
          as Hfst;
        pose proof (do_world net "POST" p b r w) as [Hself Hsent];
        destruct (do net "POST" p b r w) as [[res' err] w']
    end.
    cbn [fst snd] in *. rewrite Hnew in Hsent.
    injection Hfst as -> ->. cbn.
    destruct w' as [c' s']. cbn in Hself, Hsent. subst c' s'. reflexivity.
Qed.

(** When no record of a batch is rejected, no slot is nil, and the loop
    of [Read] over the slots does not panic. *)
Lemma appendModels_no_panic (ws : list domain) (models : list domainModel) :
  rejected domain_convert ws = [] ->
  appendModels models (map (slot domain_convert) ws)
  = Ok (models ++ map toModel (converted domain_convert ws))%list.
Proof.
  unfold rejected, converted, slot. revert models.
  induction ws as [| w ws IH]; intros models; cbn.
  - intros _. now rewrite app_nil_r.
  - destruct (domain_convert w) as [d | e]; [| discriminate].
    intros Hrest. cbn. rewrite (IH _ Hrest), <- app_assoc. reflexivity.
Qed.

(* ===================================================================== *)
(** * Further properties *)
(* ===================================================================== *)

(** ** The transport core, beyond the status of the envelope *)

Section TransportMore.

Context {R : Type} `{status R} `{Unmarshaler R}.
Variable net : Network.

(** X1. [do] returns a nil error in one case only: the request could be
    built, its answer was a JSON document that decoded into the response
    without error, and the status decoded is [SUCCESS]; the response it
    hands back is then the decoded one. *)
Theorem do_no_error_iff_success (method path : string) (body : option json)
    (response : R) (w : World) :
  snd (fst (do net method path body response w)) = None
  <-> NewRequestWithContext net method (url (self w)) path = None
      /\ exists (j : json) (r' : R),
           RoundTrip net (length (sent w))
             (mkRequest method (url (self w)) path json_headers body)
           = Document j
           /\ Unmarshal j response = (r', None)
           /\ getStatus r' = "SUCCESS"
           /\ fst (fst (do net method path body response w)) = r'.
Proof.
  unfold do, bindM, getClient, roundTrip, ret, json_headers.
  cbn [self sent fst snd].
  destruct (NewRequestWithContext net method (url (self w)) path) as [e |].
  { cbn. split; [discriminate | intros [Hn _]; discriminate]. }
  cbn [fst snd].
  destruct (RoundTrip net _ _) as [e | e | e | j] eqn:Htrip; cbn.
  1-3: split; [discriminate | intros [_ (j & r' & Hj & _)]; discriminate].
  destruct (Unmarshal j response) as [r' [e |]] eqn:Hdec; cbn.
  { split; [discriminate |].
    intros [_ (j' & r'' & [= <-] & Hd & _)]. rewrite Hdec in Hd.
    discriminate. }
  destruct (String.eqb_spec (getStatus r') "SUCCESS") as [Hs | Hs]; cbn.
  - split; [| reflexivity]. intros _. split; [reflexivity |].
    exists j, r'. auto.
  - destruct (String.eqb (getStatus r') "ERROR"); cbn;
      (split; [discriminate |]);
      intros [_ (j' & r'' & [= <-] & Hd & Hst & _)];
      rewrite Hdec in Hd; injection Hd as <-; contradiction.
Qed.

(** X2. A failure before the body is decoded leaves the response object as
    the caller passed it and returns an error that names the step and
    wraps the cause: a request that cannot be built is not sent; a request
    whose sending fails, whose answer cannot be read, or whose answer is
    no JSON document, has been sent once. *)
Theorem do_failure_keeps_response (method path : string)
    (body : option json) (response : R) (w : World) :
  let req := mkRequest method (url (self w)) path json_headers body in
  let after := mkWorld (self w) (sent w ++ [req]) in
  match NewRequestWithContext net method (url (self w)) path with
  | Some err =>
      do net method path body response w =
        ((response,
          Some (ErrorfErr
            "Failed to create an HTPP request with the following error: %s"
            err)), w)
  | None =>
      match RoundTrip net (length (sent w)) req with
      | SendFails err =>
          do net method path body response w =
            ((response,
              Some (ErrorfErr
            "Failed to process an HTTP request with the following error: %s"
                err)), after)
      | ReadFails err =>
          do net method path body response w =
            ((response,
              Some (ErrorfErr
                "Failed to read response body with the following error: %s"
                err)), after)
      | NotJSON err =>
          do net method path body response w =
            ((response,
              Some (ErrorfErr
  "Failed to unmarshal an API response as JSON with the following error: %s"
                err)), after)
      | Document _ => snd (do net method path body response w) = after
      end
  end.
Proof.
  cbv zeta. unfold do, bindM, getClient, roundTrip, ret, json_headers.
  cbn [self sent fst snd].
  destruct (NewRequestWithContext net method (url (self w)) path) as [e |];
    [reflexivity |]. cbn [fst snd].
  destruct (RoundTrip net _ _) as [e | e | e | j]; try reflexivity.
  destruct (Unmarshal j response) as [r' [e |]]; [reflexivity |].
  destruct (String.eqb (getStatus r') "SUCCESS"); [reflexivity |].
  destruct (String.eqb (getStatus r') "ERROR"); reflexivity.
Qed.

End TransportMore.

Section PostMore.

Context {Q : Type} `{CredentialsCarrier Q}.
Context {R : Type} `{status R} `{Unmarshaler R}.
Variable net : Network.

(** X3. [post] sends at most one request and never retries: when the
    request object cannot be encoded nothing is sent, the response is
    left alone and the error says that marshaling failed; otherwise the
    requests sent are those sent before and, if it could be built, the one
    POST with the encoding as its body. *)
Theorem post_sends_at_most_once (path : string) (req : Q) (res : R)
    (w : World) :
  let c := Client_Credentials (self w) in
  let req' := setSecretAPIKey (SecretAPIKey c) (setAPIKey (APIKey c) req) in
  match Marshal req' with
  | Err err =>
      post net path req res w =
        ((req', res,
          Some (ErrorfErr
  "Failed to marshal an API request as JSON with the following error: %s"
                  err)), w)
  | Ok body =>
      sent (snd (post net path req res w)) =
        (sent w ++
         match NewRequestWithContext net "POST" (url (self w)) path with
         | Some _ => []
         | None =>
             [mkRequest "POST" (url (self w)) path json_headers (Some body)]
         end)%list
  end.
Proof.
  cbv zeta. rewrite post_unfold. cbv zeta.
  destruct (Marshal _) as [body | e]; [| reflexivity].
  pose proof (do_world net "POST" path (Some body) res w) as [_ Hsent].
  now destruct (do net "POST" path (Some body) res w) as [[res' err] w'].
Qed.

End PostMore.

(** X4. [Pricing] is the call without credentials: the one request it
    sends is a GET of [pricing/get] with no body. *)
Theorem Pricing_sends_bare_GET (net : Network) (w : World) :
  sent (snd (Pricing_ net w)) =
    (sent w ++
     match NewRequestWithContext net "GET" (url (self w)) "pricing/get" with
     | Some _ => []
     | None =>
         [mkRequest "GET" (url (self w)) "pricing/get" json_headers None]
     end)%list.
Proof.
  unfold Pricing_, get. cbv beta iota zeta delta [bindM ret].
  pose proof (do_world net "GET" "pricing/get" None
                (mkPricing_res zero_Status ∅) w) as [_ Hsent].
  now destruct (do net "GET" "pricing/get" None
                  (mkPricing_res zero_Status ∅) w) as [[res err] w'].
Qed.

(** ** The converters and the bodies they make *)

Ltac int64_range :=
  unfold strconv.is_int64, strconv.minInt64, strconv.maxInt64; cbn; lia.

(** X5, at the forward 7 of [www]. *)
Lemma URLForward_round_trip_witness :
  urlforward_convert
    (URLForward_convert
       (mkURLForward (Some 7) "www" "https://example.org" "permanent"
          true false))
  = Ok (mkURLForward (Some 7) "www" "https://example.org" "permanent"
          true false).
Proof.
  apply (URLForward_round_trip
           (mkURLForward (Some 7) "www" "https://example.org" "permanent"
              true false) 7); [reflexivity | int64_range].
Defined.

(** X6, at an include path of [maybe]. *)
Lemma urlforward_convert_booleans_witness :
  urlforward_convert
    (mkurlforward "7" "www" "https://example.org" "permanent" "maybe" "no")
  = Err (Errorf "Expected include path of 'yes' or 'no', got: '%s'." "maybe").
Proof.
  exact (urlforward_convert_booleans
           (mkurlforward "7" "www" "https://example.org" "permanent"
              "maybe" "no") 7 eq_refl).
Defined.

(** X7, at the record 5 of [www] with priority 10. *)
Lemma DNSRecord_round_trip_witness :
  dnsrecord_convert
    (DNSRecord_convert
       (mkDNSRecord (Some 5) "www" "MX" "mail.example.org" 600 (Some 10) ""))
  = Ok (mkDNSRecord None "www" "MX" "mail.example.org" 600 (Some 10) "").
Proof.
  apply (DNSRecord_round_trip
           (mkDNSRecord (Some 5) "www" "MX" "mail.example.org" 600
              (Some 10) "")).
  - int64_range.
  - intros p [= <-]. int64_range.
Defined.

Lemma enc_Number_valid (s : string) :
  String.eqb s "" = false -> isValidNumber s = true ->
  enc_Number s = mkEncoded false (Ok (JNumber s)).
Proof.
  intros Hne Hv. rewrite (enc_Number_nonempty s Hne). now rewrite Hv.
Qed.

Lemma DNSRecord_req_live :
  typeFields DNSRecord_req_fields =
    [ mkField "Credentials.APIKey" "apikey" false true 1;
      mkField "Credentials.SecretAPIKey" "secretapikey" false true 1;
      mkField "dnsrecord.ID" "id" true true 1;
      mkField "dnsrecord.Subdomain" "name" false true 1;
      mkField "dnsrecord.Type" "type" false true 1;
      mkField "dnsrecord.Content" "content" false true 1;
      mkField "dnsrecord.TTL" "ttl" false true 1;
      mkField "dnsrecord.Priority" "prio" false true 1;
      mkField "dnsrecord.Notes" "notes" false true 1 ].
Proof. reflexivity. Qed.

(** X8. The body [CreateDNSRecord] and [EditDNSRecord] send for a record
    whose numbers are [int64]s is always encoded, and it is: the two
    credentials, the id as a number only when the record has one, the
    subdomain under [name], the type, the content, the ttl as a number,
    the priority under [prio] as a number, which is 0 for a record
    without priority, and the notes. *)
Theorem DNSRecord_req_body (c : Credentials) (r : DNSRecord) :
  strconv.is_int64 (DNSRecord_TTL r) ->
  (forall i, DNSRecord_ID r = Some i -> strconv.is_int64 i) ->
  (forall p, DNSRecord_Priority r = Some p -> strconv.is_int64 p) ->
  Marshal (mkDNSRecord_req c (DNSRecord_convert r)) =
    Ok (JObject
          (("apikey", JString (APIKey c))
           :: ("secretapikey", JString (SecretAPIKey c))
           :: match DNSRecord_ID r with
              | Some i => [("id", JNumber (strconv.FormatInt i))]
              | None => []
              end
           ++ [ ("name", JString (DNSRecord_Subdomain r));
                ("type", JString (DNSRecord_Type r));
                ("content", JString (DNSRecord_Content r));
                ("ttl", JNumber (strconv.FormatInt (DNSRecord_TTL r)));
                ("prio",
                 JNumber match DNSRecord_Priority r with
                         | Some p => strconv.FormatInt p
                         | None => "0"
                         end);
                ("notes", JString (DNSRecord_Notes r)) ])).
Proof.
  destruct r as [id sub ty ct ttl prio notes].
  cbn [DNSRecord_ID DNSRecord_Subdomain DNSRecord_Type DNSRecord_Content
       DNSRecord_TTL DNSRecord_Priority DNSRecord_Notes].
  intros Httl Hid Hprio. unfold DNSRecord_convert.
  cbn [DNSRecord_ID DNSRecord_Subdomain DNSRecord_Type DNSRecord_Content
       DNSRecord_TTL DNSRecord_Priority DNSRecord_Notes].
  pose proof (enc_Number_valid _ (FormatInt_nonempty ttl)
                (isValidNumber_FormatInt ttl Httl)) as Ettl.
  assert (Eid : forall i, id = Some i ->
            enc_Number (strconv.FormatInt i)
            = mkEncoded false (Ok (JNumber (strconv.FormatInt i)))).
  { intros i Hi. apply enc_Number_valid; [apply FormatInt_nonempty |].
    apply isValidNumber_FormatInt, Hid, Hi. }
  assert (Eprio : forall p, prio = Some p ->
            enc_Number (strconv.FormatInt p)
            = mkEncoded false (Ok (JNumber (strconv.FormatInt p)))).
  { intros p Hp. apply enc_Number_valid; [apply FormatInt_nonempty |].
    apply isValidNumber_FormatInt, Hprio, Hp. }
  assert (Eempty : enc_Number "" = mkEncoded true (Ok (JNumber "0")))
    by reflexivity.
  unfold Marshal, DNSRecord_req_Marshaler, enc_struct.
  rewrite DNSRecord_req_live.
  destruct id as [i |], prio as [p |];
    cbn -[enc_Number strconv.FormatInt];
    rewrite ?Ettl, ?(Eid _ eq_refl), ?(Eprio _ eq_refl), ?Eempty;
    reflexivity.
Qed.

(** A record without id and without priority, with the default ttl. *)
Lemma DNSRecord_req_body_witness :
  Marshal (mkDNSRecord_req (mkCredentials "pk1_key" "sk1_secret")
             (DNSRecord_convert
                (mkDNSRecord None "www" "A" "1.2.3.4" 600 None "")))
  = Ok (JObject [ ("apikey", JString "pk1_key");
                  ("secretapikey", JString "sk1_secret");
                  ("name", JString "www");
                  ("type", JString "A");
                  ("content", JString "1.2.3.4");
                  ("ttl", JNumber "600");
                  ("prio", JNumber "0");
                  ("notes", JString "") ]).
Proof.
  apply (DNSRecord_req_body (mkCredentials "pk1_key" "sk1_secret")
           (mkDNSRecord None "www" "A" "1.2.3.4" 600 None "")).
  - int64_range.
  - intros i Hi. discriminate Hi.
  - intros p Hp. discriminate Hp.
Defined.

(** ** Operations against an answering server *)

Section PostAnswers.

Context {Q : Type} `{CredentialsCarrier Q}.
Context {R : Type} `{status R} `{Unmarshaler R}.
Variable net : Network.

(** The world after [post]. *)
Lemma post_world (path : string) (req : Q) (res : R) (w : World) :
  snd (post net path req res w) =
    mkWorld (self w)
      (sent w ++
       match Marshal (stamped (self w) req) with
       | Err _ => []
       | Ok body =>
           match NewRequestWithContext net "POST" (url (self w)) path with
           | Some _ => []
           | None => [post_request (self w) path body]
           end
       end).
Proof.
  rewrite post_unfold. cbv zeta. unfold stamped, post_request.
  destruct (Marshal _) as [body | e].
  - pose proof (do_world net "POST" path (Some body) res w) as [Hself Hsent].
    destruct (do net "POST" path (Some body) res w) as [[res' err] [c s]].
    cbn in *. now subst.
  - cbn. rewrite app_nil_r. now destruct w.
Qed.

(** What [post] returns when the server answers with a document that
    decodes. *)
Lemma post_decoded (path : string) (req : Q) (res r' : R) (w : World)
    (body j : json) :
  Marshal (stamped (self w) req) = Ok body ->
  NewRequestWithContext net "POST" (url (self w)) path = None ->
  RoundTrip net (length (sent w)) (post_request (self w) path body)
    = Document j ->
  Unmarshal j res = (r', None) ->
  post net path req res w =
    ((stamped (self w) req, r', envelope_error r'),
     mkWorld (self w) (sent w ++ [post_request (self w) path body])).
Proof.
  intros HM Hnew Htrip Hdec.
  pose proof (post_world path req res w) as Hw. rewrite HM, Hnew in Hw.
  rewrite post_unfold in *. cbv zeta in *. unfold stamped in *.
  rewrite HM in *.
  pose proof (do_decoded net "POST" path (Some body) res r' w j Hnew Htrip
                Hdec) as Hfst.
  destruct (do net "POST" path (Some body) res w) as [[res' err] w'].
  cbn [fst snd] in *. injection Hfst as -> ->. subst w'. reflexivity.
Qed.

(** What [post] returns when the request does not get through. *)
Lemma post_send_fails (path : string) (req : Q) (res : R) (w : World)
    (body : json) (e : error) :
  Marshal (stamped (self w) req) = Ok body ->
  NewRequestWithContext net "POST" (url (self w)) path = None ->
  RoundTrip net (length (sent w)) (post_request (self w) path body)
    = SendFails e ->
  post net path req res w =
    ((stamped (self w) req, res,
      Some (ErrorfErr
            "Failed to process an HTTP request with the following error: %s"
              e)),
     mkWorld (self w) (sent w ++ [post_request (self w) path body])).
Proof.
  intros HM Hnew Htrip. rewrite post_unfold. cbv zeta.
  unfold stamped in HM. rewrite HM.
  unfold do, bindM, getClient, roundTrip, ret. cbn [self sent fst snd].
  rewrite Hnew. unfold post_request, json_headers in Htrip.
  cbn [fst snd]. rewrite Htrip. reflexivity.
Qed.

(** A request that cannot be built makes [post] return an error. *)
Lemma post_unbuildable (path : string) (req : Q) (res : R) (w : World)
    (e : error) :
  NewRequestWithContext net "POST" (url (self w)) path = Some e ->
  snd (fst (post net path req res w)) <> None.
Proof.
  intros Hnew. rewrite post_unfold. cbv zeta.
  destruct (Marshal _) as [body | e']; [| discriminate].
  unfold do, bindM, getClient, ret. cbn [self fst snd]. rewrite Hnew.
  discriminate.
Qed.

End PostAnswers.

Lemma stamped_Credentials (c : Client) :
  stamped c zero_Credentials = Client_Credentials c.
Proof. unfold stamped. cbn. now destruct (Client_Credentials c). Qed.

Lemma Marshal_Credentials (c : Client) :
  Marshal (Client_Credentials c) = Ok (JObject (credentials_members c)).
Proof. reflexivity. Qed.

(** Strings decode back from the array they are written as. *)
Lemma dec_items_strings (field : string) (ns : list string)
    (old : list string) :
  dec_items (dec_string field) "" (map JString ns) old = (ns, Fine).
Proof.
  revert old. induction ns as [| n ns IH]; intros old; [reflexivity |].
  cbn [map dec_items]. cbn [dec_string]. rewrite IH. reflexivity.
Qed.

(** X9. What the client writes as name servers it reads back: the body
    of [UpdateNameServers] for a list of servers has the list under [ns],
    as an array of strings, and a [SUCCESS] answer that carries that same
    array makes [NameServers] return the list, without error. *)
Theorem NameServers_reads_what_UpdateNameServers_writes
    (c : Credentials) (ns : list string) :
  exists nsdoc : json,
    Marshal (mkUpdateNameServers_req c (Some ns))
    = Ok (JObject [ ("apikey", JString (APIKey c));
                    ("secretapikey", JString (SecretAPIKey c));
                    ("ns", nsdoc) ])
    /\ forall (net : Network) (name : string) (w : World),
         NewRequestWithContext net "POST" (url (self w))
           ("domain/getNs/" +:+ name) = None ->
         RoundTrip net (length (sent w))
           (post_request (self w) ("domain/getNs/" +:+ name)
              (JObject (credentials_members (self w))))
         = Document (JObject [ ("status", JString "SUCCESS");
                               ("ns", nsdoc) ]) ->
         fst (NameServers net name w) = (ns, None).
Proof.
  exists (JArray (map JString ns)). split; [reflexivity |].
  intros net name w Hnew Htrip. unfold NameServers.
  cbv beta iota zeta delta [bindM ret].
  assert (Hdec : Unmarshal (JObject [ ("status", JString "SUCCESS");
                                      ("ns", JArray (map JString ns)) ])
                   (mkNameServers_res zero_Status [])
                 = (mkNameServers_res (mkStatus "SUCCESS" "") ns, None)).
  { cbn [Unmarshal NameServers_res_Unmarshaler]. unfold unmarshal_struct.
    cbn [dec_struct dec_members].
    change (fieldFor NameServers_res_fields "status")
      with (Some (mkField "Status.Status" "status" false true 1)).
    change (fieldFor NameServers_res_fields "ns")
      with (Some (mkField "NS" "ns" false true 0)).
    cbn -[dec_items]. rewrite dec_items_strings. reflexivity. }
  rewrite (post_decoded (R := NameServers_res) net _ zero_Credentials _ _ w
             (JObject (credentials_members (self w))) _
             ltac:(rewrite stamped_Credentials; apply Marshal_Credentials)
             Hnew Htrip Hdec).
  reflexivity.
Qed.

(** X9, for two servers and the client of the scenarios. *)
Lemma NameServers_round_trip_witness :
  fst (NameServers
         (answering (JObject [ ("status", JString "SUCCESS");
                               ("ns", JArray [ JString "ns1.example.org";
                                               JString "ns2.example.org" ]) ]))
         "example.com" world0)
  = ([ "ns1.example.org"; "ns2.example.org" ], None).
Proof.
  destruct (NameServers_reads_what_UpdateNameServers_writes
              (mkCredentials "" "") [ "ns1.example.org"; "ns2.example.org" ])
    as (nsdoc & Hbody & Hread).
  injection Hbody as <-.
  exact (Hread (answering _) "example.com" world0 eq_refl eq_refl).
Defined.

(** ** Diagnostics *)

Lemma Append_extends (new diags : list Diagnostic) :
  exists more, Append diags new = (diags ++ more)%list.
Proof.
  revert diags. induction new as [| d new IH]; intros diags; cbn.
  - exists []. now rewrite app_nil_r.
  - destruct (Contains diags d).
    + apply IH.
    + destruct (IH (diags ++ [d])%list) as [more ->].
      exists (d :: more). now rewrite <- app_assoc.
Qed.

Lemma HasError_Append (diags new : list Diagnostic) :
  HasError diags = true -> HasError (Append diags new) = true.
Proof.
  intros Hd. destruct (Append_extends new diags) as [more ->].
  unfold HasError in *. rewrite existsb_app, Hd. reflexivity.
Qed.

Lemma Diagnostic_Equal_severity (a b : Diagnostic) :
  Diagnostic_Equal a b = true ->
  Severity_eqb (Diagnostic_Severity b) SeverityError
  = Severity_eqb (Diagnostic_Severity a) SeverityError.
Proof.
  unfold Diagnostic_Equal. intros Heq.
  repeat (apply andb_prop in Heq as [Heq _]).
  now destruct (Diagnostic_Severity a), (Diagnostic_Severity b).
Qed.

(** An error that is added is in the collection, even when it was there
    already. *)
Lemma HasError_AddError (summary detail : string) (diags : list Diagnostic) :
  HasError (AddError summary detail diags) = true.
Proof.
  unfold AddError. cbn [Append].
  destruct (Contains diags _) eqn:Hc.
  - unfold Contains in Hc. apply existsb_exists in Hc as (x & Hin & Heq).
    unfold HasError. apply existsb_exists. exists x. split; [exact Hin |].
    now rewrite (Diagnostic_Equal_severity _ _ Heq).
  - unfold HasError. rewrite existsb_app. cbn. apply orb_true_r.
Qed.

Lemma addClientErrors_keeps (libText : LibErr -> string) (errs : list error)
    (diags : list Diagnostic) :
  HasError diags = true -> HasError (addClientErrors libText errs diags) = true.
Proof.
  unfold addClientErrors. revert diags.
  induction errs as [| e errs IH]; intros diags Hd; [exact Hd |].
  cbn [fold_left]. apply IH. apply HasError_AddError.
Qed.

Lemma HasError_addClientErrors (libText : LibErr -> string) (e : error)
    (errs : list error) :
  HasError (addClientErrors libText (e :: errs) []) = true.
Proof.
  unfold addClientErrors. cbn [fold_left].
  apply (addClientErrors_keeps libText errs). apply HasError_AddError.
Qed.

(** ** URL forwards in the provider *)

Lemma rejected_blank (ws : list urlforward) :
  Forall blank ws -> length (rejected urlforward_convert ws) = length ws.
Proof.
  unfold rejected. induction 1 as [| f fs Hf _ IH]; [reflexivity |].
  cbn. destruct f as [id sub loc ty ip wc]. destruct Hf as [Hip _].
  cbn in Hip. subst ip. rewrite urlforward_convert_blank.
  destruct (Number_Int64 id); cbn; now rewrite IH.
Qed.

(** [URLForwards] returns errors, or nothing at all. *)
Lemma URLForwards_errors_or_nothing (net : Network) (name : string)
    (w : World) :
  snd (fst (URLForwards net name w)) = [] ->
  fst (fst (URLForwards net name w)) = [].
Proof.
  unfold URLForwards. cbv beta iota zeta delta [bindM ret].
  pose proof (post_preserves net (fun r => Forall blank (Forwards r))
                ("domain/getUrlForwarding/" +:+ name) zero_Credentials
                (mkURLForwards_res zero_Status []) w
                Unmarshal_URLForwards_res_blank (List.Forall_nil blank))
    as Hb.
  destruct (post net _ zero_Credentials _ w) as [[[q r] [e |]] w'];
    cbn [fst snd] in *; [discriminate |].
  rewrite convert_each_acc. cbn [fst snd app]. intros Hrej.
  pose proof (rejected_blank _ Hb) as Hlen. rewrite Hrej in Hlen.
  destruct (Forwards r); [reflexivity | discriminate].
Qed.

Section ProviderForwards.

Variable net : Network.
Variable libText : LibErr -> string.
Variable fmtInt64 : tfvalue Z -> string.

(** X10. The URL forwarding data source never lists a forward: whatever
    the server answers, its [Read] ends with an error diagnostic and no
    state, or with no diagnostic and a state whose list of forwards is
    empty. It does not panic. *)
Theorem DomainURLForwardingDataSource_Read_lists_nothing
    (model : DomainURLForwardingDataSourceModel) (w : World) :
  match fst (DomainURLForwardingDataSource_Read net libText model w) with
  | Ok resp =>
      (HasError (Resp_Diagnostics resp) = true /\ Resp_State resp = None)
      \/ (Resp_Diagnostics resp = []
          /\ Resp_State resp
             = Some (mkDomainURLForwardingDataSourceModel
                       (DomainURLForwardingDataSourceModel_Domain model) []))
  | Err _ => False
  end.
Proof.
  unfold DomainURLForwardingDataSource_Read.
  cbv beta iota zeta delta [bindM ret].
  pose proof (URLForwards_errors_or_nothing net
                (ValueString (DomainURLForwardingDataSourceModel_Domain model))
                w) as Hshape.
  destruct (URLForwards net _ w) as [[forwards [| e errs]] w'];
    cbn [fst snd] in *.
  - rewrite (Hshape eq_refl). cbn. right. split; reflexivity.
  - left. split; [apply HasError_addClientErrors | reflexivity].
Qed.

Lemma addAndLocate_fails (model : DomainURLForwardResourceModel)
    (w : World) :
  match fst (addAndLocate net libText model w) with
  | Ok resp => HasError (Resp_Diagnostics resp) = true
               /\ Resp_State resp = None
  | Err _ => False
  end.
Proof.
  unfold addAndLocate. cbv beta iota zeta delta [bindM ret].
  destruct (AddURLForward net _ _ w) as [[e |] w1]; cbn [fst snd].
  - split; [apply HasError_AddError | reflexivity].
  - pose proof (URLForwards_errors_or_nothing net
                  (ValueString (DomainURLForwardResourceModel_Domain model))
                  w1) as Hshape.
    destruct (URLForwards net _ w1) as [[forwards [| e errs]] w2];
      cbn [fst snd] in *.
    + rewrite (Hshape eq_refl).
      change (forwardsToModels []) with (Ok ([] : list forwardModel,
                                             [] : list Diagnostic)).
      cbv beta iota zeta. change (Append [] []) with ([] : list Diagnostic).
      change (HasError []) with false. cbv iota.
      change (createdID model []) with 0. cbv iota. cbn [fst].
      split; [apply HasError_AddError | reflexivity].
    + split; [apply HasError_addClientErrors | reflexivity].
Qed.

(** X11. [Create] of the URL forward resource never succeeds: whatever
    the server answers, also when it has accepted the new forward, the
    method ends with an error diagnostic and sets no state, because the
    forward it looks for is never among those [URLForwards] returns. It
    does not panic. *)
Theorem DomainURLForwardResource_Create_fails
    (model : DomainURLForwardResourceModel) (w : World) :
  match fst (DomainURLForwardResource_Create net libText model w) with
  | Ok resp => HasError (Resp_Diagnostics resp) = true
               /\ Resp_State resp = None
  | Err _ => False
  end.
Proof. apply addAndLocate_fails. Qed.

(** X12. [Update] of the URL forward resource deletes first and then never
    succeeds: its first request, when it can be built, is the deletion
    of the forward of the state, and whatever the server answers the
    method ends with an error diagnostic and sets no state. *)
Theorem DomainURLForwardResource_Update_deletes_and_fails
    (state plan : DomainURLForwardResourceModel) (w : World) :
  let out := DomainURLForwardResource_Update net libText state plan w in
  let path :=
    "domain/deleteUrlForward/"
    +:+ ValueString (DomainURLForwardResourceModel_Domain state)
    +:+ "/"
    +:+ strconv.FormatInt
          (ValueInt64 (DomainURLForwardResourceModel_ID state)) in
  match fst out with
  | Ok resp => HasError (Resp_Diagnostics resp) = true
               /\ Resp_State resp = None
  | Err _ => False
  end
  /\ match NewRequestWithContext net "POST" (url (self w)) path with
     | Some _ => sent (snd out) = sent w
     | None =>
         exists later : list Request,
           sent (snd out) =
             (sent w
              ++ post_request (self w) path
                   (JObject (credentials_members (self w)))
              :: later)%list
     end.
Proof.
  cbv zeta. unfold DomainURLForwardResource_Update, DeleteURLForward.
  cbv beta iota zeta delta [bindM ret].
  set (path := "domain/deleteUrlForward/" +:+ _ +:+ "/" +:+ _).
  pose proof (post_world net path zero_Credentials zero_Status w) as Hw.
  rewrite stamped_Credentials, Marshal_Credentials in Hw.
  pose proof (fun e => post_unbuildable net path zero_Credentials
                          zero_Status w e) as Hunb.
  destruct (post net path zero_Credentials zero_Status w)
    as [[[q r] [e |]] w1]; cbn [fst snd] in *.
  - split; [split; [apply HasError_AddError | reflexivity] |].
    subst w1. cbn [sent].
    destruct (NewRequestWithContext net "POST" (url (self w)) path).
    + now rewrite app_nil_r.
    + now exists [].
  - split; [apply addAndLocate_fails |].
    assert (Hgrow : exists later,
              sent (snd (addAndLocate net libText plan w1))
              = (sent w1 ++ later)%list).
    { unfold addAndLocate, AddURLForward, URLForwards.
      cbv beta iota zeta delta [bindM ret].
      match goal with
      | |- context [post net ?p ?q0 ?r0 w1] =>
          pose proof (post_world net p q0 r0 w1) as H1;
          destruct (post net p q0 r0 w1) as [[[q1 r1] [e1 |]] w2]
      end; cbn [fst snd] in *.
      - subst w2. cbn [sent]. eauto.
      - match goal with
        | |- context [post net ?p ?q0 ?r0 w2] =>
            pose proof (post_world net p q0 r0 w2) as H2;
            destruct (post net p q0 r0 w2) as [[[q2 r2] [e2 |]] w3]
        end; cbn [fst snd] in *.
        + subst w3 w2. cbn [sent self]. rewrite <- app_assoc. eauto.
        + assert (Hs3 : exists l, sent w3 = (sent w1 ++ l)%list).
          { subst w3 w2. cbn [sent self]. rewrite <- app_assoc. eauto. }
          destruct (convert_each urlforward_convert (Forwards r2) [] [])
            as [forwards [| e errs]]; cbn [fst snd]; [| exact Hs3].
          destruct (forwardsToModels forwards) as [[models diags] | e];
            cbn [fst snd]; [| exact Hs3].
          destruct (HasError (Append [] diags)); cbn [fst snd];
            [exact Hs3 |].
          destruct (createdID plan models =? 0); exact Hs3. }
    destruct Hgrow as [later Hlater]. rewrite Hlater. subst w1.
    cbn [sent].
    destruct (NewRequestWithContext net "POST" (url (self w)) path) as [e0 |].
    + now destruct (Hunb e0 eq_refl).
    + exists later. now rewrite <- app_assoc.
Qed.

End ProviderForwards.

Section ProviderForwardsRead.

Variable net : Network.
Variable libText : LibErr -> string.
Variable fmtInt64 : tfvalue Z -> string.

(** X13. [Read] of the URL forward resource never refreshes anything:
    whatever the server answers it ends with an error diagnostic, and the
    state is either not set or set to the model it started from. It does
    not panic. *)
Theorem DomainURLForwardResource_Read_finds_nothing
    (model : DomainURLForwardResourceModel) (w : World) :
  match fst (DomainURLForwardResource_Read net libText fmtInt64 model w) with
  | Ok resp =>
      HasError (Resp_Diagnostics resp) = true
      /\ (Resp_State resp = None \/ Resp_State resp = Some model)
  | Err _ => False
  end.
Proof.
  unfold DomainURLForwardResource_Read.
  cbv beta iota zeta delta [bindM ret].
  pose proof (URLForwards_errors_or_nothing net
                (ValueString (DomainURLForwardResourceModel_Domain model))
                w) as Hshape.
  destruct (URLForwards net _ w) as [[forwards [| e errs]] w'];
    cbn [fst snd] in *.
  - rewrite (Hshape eq_refl).
    change (forwardsToModels []) with (Ok ([] : list forwardModel,
                                           [] : list Diagnostic)).
    cbv beta iota zeta. change (Append [] []) with ([] : list Diagnostic).
    change (HasError []) with false. cbv iota.
    change (refreshed model []) with (model, false). cbv beta iota zeta.
    cbn [negb fst]. split; [apply HasError_AddError | now right].
  - split; [apply HasError_addClientErrors | now left].
Qed.

End ProviderForwardsRead.

Lemma HasError_AddWarning (summary detail : string)
    (diags : list Diagnostic) :
  HasError (AddWarning summary detail diags) = HasError diags.
Proof.
  unfold AddWarning. cbn [Append]. destruct (Contains diags _);
    [reflexivity |].
  unfold HasError. rewrite existsb_app. cbn. now rewrite orb_false_r.
Qed.

Lemma forwardsToModels_from_all (fs : list URLForward) :
  Forall (fun f => URLForward_ID f <> None) fs ->
  forall (models : list forwardModel) (diags : list Diagnostic),
    exists diags' : list Diagnostic,
      forwardsToModels_from (map Some fs) models diags
      = Ok ((models ++ map modelOfForward fs)%list, diags')
      /\ HasError diags' = HasError diags
      /\ (Forall (fun f => URLForward_Type f = "temporary"
                           \/ URLForward_Type f = "permanent") fs ->
          diags' = diags).
Proof.
  induction 1 as [| f fs Hf _ IH]; intros models diags.
  - exists diags. cbn. rewrite app_nil_r. auto.
  - cbn [map forwardsToModels_from].
    destruct (URLForward_ID f) as [id |] eqn:Hid; [| contradiction].
    match goal with
    | |- context [forwardsToModels_from _ ?ms ?ds] =>
        destruct (IH ms ds) as (diags' & Heq & Herr & Hsame)
    end.
    exists diags'. split; [| split].
    + rewrite Heq. unfold modelOfForward at 2. rewrite Hid.
      now rewrite <- app_assoc.
    + rewrite Herr. destruct (negb _ && negb _);
        [apply HasError_AddWarning | reflexivity].
    + intros Hall. pose proof (Forall_inv Hall) as Hty.
      rewrite (Hsame (Forall_inv_tail Hall)).
      destruct Hty as [-> | ->]; reflexivity.
Qed.

(** X14. [forwardsToModels] keeps every forward: for forwards that all
    have an id the models are those of the forwards, one each and in
    order; a type other than [temporary] and [permanent] is never an
    error, and when every type is one of the two there is no diagnostic
    at all. *)
Theorem forwardsToModels_keeps_all (fs : list URLForward) :
  Forall (fun f => URLForward_ID f <> None) fs ->
  exists diags : list Diagnostic,
    forwardsToModels (map Some fs) = Ok (map modelOfForward fs, diags)
    /\ HasError diags = false
    /\ (Forall (fun f => URLForward_Type f = "temporary"
                         \/ URLForward_Type f = "permanent") fs ->
        diags = []).
Proof.
  intros Hids. unfold forwardsToModels.
  destruct (forwardsToModels_from_all fs Hids [] [])
    as (diags & Heq & Herr & Hsame).
  exists diags. auto.
Qed.

(** X14, for a temporary forward and one of an unexpected type. *)
Lemma forwardsToModels_keeps_all_witness :
  exists diags : list Diagnostic,
    forwardsToModels
      (map Some
         [ mkURLForward (Some 1) "www" "https://example.org" "temporary"
             true false;
           mkURLForward (Some 2) "blog" "https://example.net" "302"
             false true ])
    = Ok (map modelOfForward
            [ mkURLForward (Some 1) "www" "https://example.org" "temporary"
                true false;
              mkURLForward (Some 2) "blog" "https://example.net" "302"
                false true ],
          diags)
    /\ HasError diags = false
    /\ (Forall (fun f => URLForward_Type f = "temporary"
                         \/ URLForward_Type f = "permanent")
          [ mkURLForward (Some 1) "www" "https://example.org" "temporary"
              true false;
            mkURLForward (Some 2) "blog" "https://example.net" "302"
              false true ] ->
        diags = []).
Proof.
  apply (forwardsToModels_keeps_all
           [ mkURLForward (Some 1) "www" "https://example.org" "temporary"
               true false;
             mkURLForward (Some 2) "blog" "https://example.net" "302"
               false true ]).
  repeat constructor; discriminate.
Defined.

(** ** DNS records in the provider *)

Lemma slots_without_error {W D} (convert : W -> result D) (ws : list W) :
  rejected convert ws = [] ->
  map (slot convert) ws = map Some (converted convert ws).
Proof.
  unfold rejected, converted, slot.
  induction ws as [| w ws IH]; [reflexivity |]. cbn.
  destruct (convert w) as [d | e]; [| discriminate].
  intros Hrest. cbn. now rewrite (IH Hrest).
Qed.

Lemma converted_ids_nil (ws : list dnsrecord) :
  Forall (fun d => DNSRecord_ID d = None) (converted dnsrecord_convert ws).
Proof.
  unfold converted. induction ws as [| w ws IH]; [constructor |]. cbn.
  destruct (dnsrecord_convert w) as [d | e] eqn:E; [| exact IH].
  constructor; [exact (dnsrecord_convert_id_nil w d E) | exact IH].
Qed.

Lemma recordsToModels_all (ds : list DNSRecord) (models : list recordModel) :
  recordsToModels (map Some ds) models
  = Ok (models ++ map modelOfRecord ds)%list.
Proof.
  revert models. induction ds as [| d ds IH]; intros models; cbn.
  - now rewrite app_nil_r.
  - rewrite IH, <- app_assoc. reflexivity.
Qed.

Lemma modelOfRecord_ids (ds : list DNSRecord) :
  Forall (fun d => DNSRecord_ID d = None) ds ->
  Forall (fun r => recordModel_ID r = Null) (map modelOfRecord ds).
Proof.
  induction 1 as [| d ds Hd _ IH]; cbn; constructor; [| exact IH].
  unfold modelOfRecord. now rewrite Hd.
Qed.

(** What a DNS listing call returns: an error, or one record per wire
    record, none of them with an id. *)
Lemma dns_listing_shape (posted : (Credentials * DNSRecords_res * option error)
                                  * World) :
  let out :=
    match snd (fst posted) with
    | Some err => ([], [err])
    | None =>
        convert_each dnsrecord_convert (Records (snd (fst (fst posted))))
          [] []
    end in
  snd out = [] ->
  exists ds : list DNSRecord,
    fst out = map Some ds /\ Forall (fun d => DNSRecord_ID d = None) ds.
Proof.
  destruct posted as [[[q r] [e |]] w]; cbn [fst snd]; [discriminate |].
  rewrite convert_each_acc. cbn [fst snd app]. intros Hrej.
  exists (converted dnsrecord_convert (Records r)).
  split; [now apply slots_without_error | apply converted_ids_nil].
Qed.

Section ProviderRecords.

Variable net : Network.
Variable libText : LibErr -> string.


(** X16. The records the DNS record data source lists have no id: its
    [Read] ends with an error diagnostic and no state, or with a state
    in which the id of every record is null. It does not panic. *)
Theorem DNSRecrodDataSource_Read_ids_null (model : DNSRecrodDataSourceModel)
    (w : World) :
  match fst (DNSRecrodDataSource_Read net libText model w) with
  | Ok resp =>
      match Resp_State resp with
      | None => HasError (Resp_Diagnostics resp) = true
      | Some m =>
          Resp_Diagnostics resp = []
          /\ Forall (fun r => recordModel_ID r = Null)
                    (DNSRecrodDataSourceModel_Records m)
      end
  | Err _ => False
  end.
Proof.
  assert (Hfinish : forall (out : list (option DNSRecord) * list error)
                           (w1 : World),
            (snd out = [] ->
             exists ds, fst out = map Some ds
                        /\ Forall (fun d => DNSRecord_ID d = None) ds) ->
            match
              fst (match snd out with
                   | _ :: _ =>
                       ret (Ok (mkResp (addClientErrors libText (snd out) [])
                                  None))
                   | [] =>
                       match recordsToModels (fst out) [] with
                       | Err e => ret (Err e)
                       | Ok models =>
                           ret (Ok (mkResp []
                                      (Some (mkDNSRecrodDataSourceModel
                                 (DNSRecrodDataSourceModel_Domain model)
                                 (DNSRecrodDataSourceModel_Subdomain model)
                                 (DNSRecrodDataSourceModel_Type model)
                                 (DNSRecrodDataSourceModel_ID model)
                                 models))))
                       end
                   end w1)
            with
            | Ok resp =>
                match Resp_State resp with
                | None => HasError (Resp_Diagnostics resp) = true
                | Some m =>
                    Resp_Diagnostics resp = []
                    /\ Forall (fun r => recordModel_ID r = Null)
                              (DNSRecrodDataSourceModel_Records m)
                end
            | Err _ => False
            end).
  { intros [records [| e errs]] w1 Hshape; cbn [fst snd] in *.
    - destruct (Hshape eq_refl) as (ds & -> & Hids).
      rewrite recordsToModels_all. cbn. split; [reflexivity |].
      now apply modelOfRecord_ids.
    - cbn. apply HasError_addClientErrors. }
  unfold DNSRecrodDataSource_Read, DNSRecordsByTypeName, DNSRecords.
  cbv beta iota zeta delta [bindM].
  destruct (negb (String.eqb _ ""));
    match goal with
    | |- context [post net ?p ?q0 ?r0 w] =>
        pose proof (dns_listing_shape (post net p q0 r0 w)) as Hshape;
        destruct (post net p q0 r0 w) as [[[q r] oe] w1]
    end; cbv zeta in Hshape; cbn [fst snd] in Hshape;
    (destruct oe as [e |];
     [ exact (Hfinish ([], [e]) w1 Hshape)
     | specialize (Hfinish (convert_each dnsrecord_convert (Records r) [] [])
                     w1 Hshape);
       destruct (convert_each dnsrecord_convert (Records r) [] [])
         as [records errs]; exact Hfinish ]).
Qed.

End ProviderRecords.

Section ResourceRecords.

Variable net : Network.
Variable libText : LibErr -> string.

(** One call of [DNSRecords] against a server that answers with
    records. *)
Lemma DNSRecords_decoded (name : string) (id : Z) (w : World) (j : json)
    (message : string) (ws : list dnsrecord) :
  let path := ("dns/retrieve/" +:+ name) +:+ "/" +:+ strconv.FormatInt id in
  let request :=
    post_request (self w) path (JObject (credentials_members (self w))) in
  NewRequestWithContext net "POST" (url (self w)) path = None ->
  RoundTrip net (length (sent w)) request = Document j ->
  Unmarshal j (mkDNSRecords_res zero_Status [])
    = (mkDNSRecords_res (mkStatus "SUCCESS" message) ws, None) ->
  DNSRecords net name (Some id) w =
    (convert_each dnsrecord_convert ws [] [],
     mkWorld (self w) (sent w ++ [request])).
Proof.
  cbv zeta. intros Hnew Htrip Hdec. unfold DNSRecords.
  cbv beta iota zeta delta [bindM ret].
  rewrite (post_decoded (R := DNSRecords_res) net _ zero_Credentials _ _ w
             (JObject (credentials_members (self w))) j
             ltac:(rewrite stamped_Credentials; apply Marshal_Credentials)
             Hnew Htrip Hdec).
  reflexivity.
Qed.

(** X17. When the server lists no record under the id of the state, [Read]
    of the DNS record resource does not end: after the error that one
    record was expected it takes the first record of an empty list,
    which is a panic. *)
Theorem DNSRecordResource_Read_no_record (model : DNSRecordResourceModel)
    (w : World) (j : json) (message : string) :
  let path :=
    ("dns/retrieve/" +:+ ValueString (DNSRecordResourceModel_Domain model))
    +:+ "/"
    +:+ strconv.FormatInt (ValueInt64 (DNSRecordResourceModel_ID model)) in
  NewRequestWithContext net "POST" (url (self w)) path = None ->
  RoundTrip net (length (sent w))
    (post_request (self w) path (JObject (credentials_members (self w))))
    = Document j ->
  Unmarshal j (mkDNSRecords_res zero_Status [])
    = (mkDNSRecords_res (mkStatus "SUCCESS" message) [], None) ->
  fst (DNSRecordResource_Read net libText model w)
  = Err (Panic "index out of range [0] with length 0").
Proof.
  cbv zeta. intros Hnew Htrip Hdec. unfold DNSRecordResource_Read.
  cbv beta iota zeta delta [bindM].
  rewrite (DNSRecords_decoded _ _ w j message [] Hnew Htrip Hdec).
  reflexivity.
Qed.

(** X18. When the server lists records that all convert, [Read] of the
    DNS record resource sets the state from the first of them: the id and
    the domain stay those of the state, the other attributes are those
    of the record, a priority the record lacks being null. With exactly
    one record there is no diagnostic; with more there is the error that
    one record was expected, and the state is set all the same. *)
Theorem DNSRecordResource_Read_first_record (model : DNSRecordResourceModel)
    (w : World) (j : json) (message : string) (r : dnsrecord)
    (rest : list dnsrecord) (d : DNSRecord) :
  let path :=
    ("dns/retrieve/" +:+ ValueString (DNSRecordResourceModel_Domain model))
    +:+ "/"
    +:+ strconv.FormatInt (ValueInt64 (DNSRecordResourceModel_ID model)) in
  NewRequestWithContext net "POST" (url (self w)) path = None ->
  RoundTrip net (length (sent w))
    (post_request (self w) path (JObject (credentials_members (self w))))
    = Document j ->
  Unmarshal j (mkDNSRecords_res zero_Status [])
    = (mkDNSRecords_res (mkStatus "SUCCESS" message) (r :: rest), None) ->
  dnsrecord_convert r = Ok d ->
  rejected dnsrecord_convert rest = [] ->
  fst (DNSRecordResource_Read net libText model w)
  = Ok (mkResp
          match rest with
          | [] => []
          | _ :: _ =>
              [ mkDiagnostic SeverityError None "Client Error"
                  (Sprintf_d "Expected to receive 1 record, got: %d."
                     (strconv.FormatInt (Z.of_nat (S (length rest))))) ]
          end
          (Some (refreshedRecord model d))).
Proof.
  cbv zeta. intros Hnew Htrip Hdec Hr Hrest. unfold DNSRecordResource_Read.
  cbv beta iota zeta delta [bindM].
  rewrite (DNSRecords_decoded _ _ w j message (r :: rest) Hnew Htrip Hdec).
  rewrite convert_each_acc. cbn [app map].
  unfold rejected at 1. cbn [omap list_omap]. unfold slot at 1.
  rewrite Hr. fold (rejected dnsrecord_convert rest). rewrite Hrest.
  cbv beta iota zeta delta [ret]. cbn [fst length].
  rewrite length_map. destruct rest as [| r2 rest]; reflexivity.
Qed.

End ResourceRecords.

(** X17, for a server that answers [SUCCESS] with an empty list. *)
Lemma DNSRecordResource_Read_no_record_witness :
  fst (DNSRecordResource_Read (answering no_records_doc) (fun _ => "")
         (mkDNSRecordResourceModel (Known 106926659) (Known "example.com")
            Null (Known "MX") (Known "mail.example.org") (Known 600)
            (Known 10) Null)
         world0)
  = Err (Panic "index out of range [0] with length 0").
Proof.
  exact (DNSRecordResource_Read_no_record (answering no_records_doc)
           (fun _ => "")
           (mkDNSRecordResourceModel (Known 106926659) (Known "example.com")
              Null (Known "MX") (Known "mail.example.org") (Known 600)
              (Known 10) Null)
           world0 no_records_doc "" eq_refl eq_refl eq_refl).
Defined.

(** X18, for a server that answers with the one record of the state. *)
Lemma DNSRecordResource_Read_first_record_witness :
  fst (DNSRecordResource_Read (answering records_doc) (fun _ => "")
         (mkDNSRecordResourceModel (Known 106926659) (Known "example.com")
            Null (Known "A") (Known "1.2.3.4") (Known 300) Null Null)
         world0)
  = Ok (mkResp []
          (Some (mkDNSRecordResourceModel (Known 106926659)
                   (Known "example.com") (Known "www.example.com")
                   (Known "MX") (Known "mail.example.org") (Known 600)
                   (Known 10) (Known "")))).
Proof.
  exact (DNSRecordResource_Read_first_record (answering records_doc)
           (fun _ => "")
           (mkDNSRecordResourceModel (Known 106926659) (Known "example.com")
              Null (Known "A") (Known "1.2.3.4") (Known 300) Null Null)
           world0 records_doc ""
           (mkdnsrecord "106926659" "www.example.com" "MX" "mail.example.org"
              "600" "10" "")
           []
           (mkDNSRecord None "www.example.com" "MX" "mail.example.org" 600
              (Some 10) "")
           eq_refl eq_refl eq_refl eq_refl eq_refl).
Defined.

Section ProviderConfigure.

Variable net : Network.
Variable libText : LibErr -> string.

(** X19. [Configure] checks both keys before anything is sent. When the
    API key or the secret API key it works with (the value of the
    configuration, or the environment variable when that is null) fails
    its pattern, no request is sent and no provider data is set; the
    diagnostics are the error about the API key, if it fails, then the
    error about the secret API key, if it fails. *)
Theorem PorkbunProvider_Configure_checks_keys (model : PorkbunProviderModel)
    (PORKBUN_API_KEY PORKBUN_SECRET_API_KEY : string)
    (requests : list Request) :
  let key := effective (PorkbunProviderModel_APIKey model) PORKBUN_API_KEY in
  let secret :=
    effective (PorkbunProviderModel_SecretAPIKey model)
      PORKBUN_SECRET_API_KEY in
  apiKeyRE_Match key && secretAPIKeyRE_Match secret = false ->
  PorkbunProvider_Configure net libText model PORKBUN_API_KEY
    PORKBUN_SECRET_API_KEY requests
  = (mkResp
       ((if apiKeyRE_Match key then [] else [apiKeyDiagnostic key])
        ++ (if secretAPIKeyRE_Match secret then []
            else [secretAPIKeyDiagnostic secret]))%list
       None,
     requests).
Proof.
  cbv zeta. intros Hbad. unfold PorkbunProvider_Configure, effective in *.
  destruct (IsNull (PorkbunProviderModel_APIKey model));
    destruct (IsNull (PorkbunProviderModel_SecretAPIKey model));
    cbn [negb] in *;
    match goal with
    | Hbad : apiKeyRE_Match ?k && secretAPIKeyRE_Match ?s = false |- _ =>
        destruct (apiKeyRE_Match k); destruct (secretAPIKeyRE_Match s);
        try discriminate Hbad; reflexivity
    end.
Qed.


End ProviderConfigure.

(** X19, for a malformed key in the configuration beside a well-formed
    one in the environment: the configuration wins, and nothing is
    sent. *)
Lemma PorkbunProvider_Configure_checks_keys_witness :
  PorkbunProvider_Configure (answering success_doc) (fun _ => "")
    (mkPorkbunProviderModel (Known "pk1_XYZ") Null Null Null)
    a_key a_secret []
  = (mkResp [apiKeyDiagnostic "pk1_XYZ"] None, []).
Proof.
  exact (PorkbunProvider_Configure_checks_keys (answering success_doc)
           (fun _ => "")
           (mkPorkbunProviderModel (Known "pk1_XYZ") Null Null Null)
           a_key a_secret [] eq_refl).
Defined.


(** ** Name servers: deletion *)

Section ProviderNameServers.

Variable net : Network.
Variable libText : LibErr -> string.

(** X21. [Delete] of the name-servers resource sends nothing unless the
    provider is configured to delete name servers; when it is, it sends
    one request, to [domain/updateNs/<domain>], whose [ns] is an empty
    array (not [null]). Either way it sets no state. *)
Theorem DomainNameServersResource_Delete_request (deleteNameServers : bool)
    (model : DomainNameServersResourceModel) (w : World) :
  let path :=
    "domain/updateNs/"
    +:+ ValueString (DomainNameServersResourceModel_Domain model) in
  let out :=
    DomainNameServersResource_Delete net libText deleteNameServers model w in
  NewRequestWithContext net "POST" (url (self w)) path = None ->
  Resp_State (fst out) = None
  /\ snd out =
       mkWorld (self w)
         (sent w ++
          if deleteNameServers then
            [ post_request (self w) path
                (JObject (credentials_members (self w)
                          ++ [ ("ns", JArray []) ])) ]
          else [])%list.
Proof.
  cbv zeta. intros Hnew. unfold DomainNameServersResource_Delete.
  destruct deleteNameServers; cbn [negb].
  - unfold UpdateNameServers. cbv beta iota zeta delta [bindM ret].
    pose proof (post_world net
                  ("domain/updateNs/"
                   +:+ ValueString
                         (DomainNameServersResourceModel_Domain model))
                  (mkUpdateNameServers_req zero_Credentials (Some []))
                  zero_Status w) as Hworld.
    rewrite Hnew in Hworld.
    change (Marshal (stamped (self w)
                       (mkUpdateNameServers_req zero_Credentials (Some []))))
      with (Ok (A := json)
              (JObject (credentials_members (self w)
                        ++ [ ("ns", JArray []) ])))
      in Hworld.
    cbv beta iota in Hworld.
    destruct (post net _ (mkUpdateNameServers_req zero_Credentials (Some []))
                zero_Status w) as [[[req' res'] err] w'].
    cbn [snd] in Hworld. subst w'.
    destruct err as [e |]; split; reflexivity.
  - cbv beta iota zeta delta [ret]. cbn [fst snd Resp_State].
    rewrite app_nil_r. destruct w; split; reflexivity.
Qed.

End ProviderNameServers.

(** X21, for a provider that deletes name servers. *)
Lemma DomainNameServersResource_Delete_request_witness :
  snd (DomainNameServersResource_Delete (answering success_doc)
         (fun _ => "") true
         (mkDomainNameServersResourceModel (Known "example.com") Null) world0)
  = mkWorld client0
      [ post_request client0 "domain/updateNs/example.com"
          (JObject [ ("apikey", JString "pk1_key");
                     ("secretapikey", JString "sk1_secret");
                     ("ns", JArray []) ]) ].
Proof.
  exact (proj2 (DomainNameServersResource_Delete_request
                  (answering success_doc) (fun _ => "") true
                  (mkDomainNameServersResourceModel (Known "example.com")
                     Null)
                  world0 eq_refl)).
Defined.

(** ** The pricing data source *)

Section ProviderPricing.

Variable net : Network.
Variable libText : LibErr -> string.
Variable float64 : Type.
Variable ParseFloat : string -> result float64.

(** The map [Pricing] returns is empty on every network. *)
Lemma Pricing_map_empty (w : World) : fst (fst (Pricing_ net w)) = ∅.
Proof.
  unfold Pricing_, get. cbv beta iota zeta delta [bindM ret].
  pose proof (do_preserves net (fun r => pricing r = ∅) "GET" "pricing/get"
                None (mkPricing_res zero_Status ∅) w) as Hp.
  destruct (do net "GET" "pricing/get" None (mkPricing_res zero_Status ∅) w)
    as [[res err] w'].
  cbn [fst snd] in *. apply Hp; [| reflexivity].
  intros j r Hr. exact (eq_trans (Unmarshal_Pricing_res_map j r) Hr).
Qed.

(** X22. The pricing data source never shows a price: on every network
    and whatever the parser of prices does, its [Read] either reports an
    error and sets no state, or sets a state with an empty map and no
    diagnostic. *)
Theorem PricingDataSource_Read_shows_no_price (w : World) :
  let out := fst (PricingDataSource_Read net libText float64 ParseFloat w) in
  (Resp_State out = None /\ HasError (Resp_Diagnostics out) = true)
  \/ out = mkResp [] (Some ∅).
Proof.
  cbv zeta. unfold PricingDataSource_Read.
  cbv beta iota zeta delta [bindM].
  pose proof (Pricing_map_empty w) as Hempty.
  destruct (Pricing_ net w) as [[prices err] w'].
  cbn [fst snd] in Hempty. subst prices.
  destruct err as [e |]; cbv beta iota zeta delta [ret]; cbn [fst].
  - left. split; [reflexivity | apply HasError_AddError].
  - right. rewrite map_to_list_empty. reflexivity.
Qed.

End ProviderPricing.

(** ** The domain-list data source: failures and endless listings *)

(** The iterations of the loop of [Read] over full pages that convert. *)
Lemma Read_loop_full_pages (net : Network) (pages : list (list domain)) :
  forall (fuel : nat) (start : Z) (models : list domainModel) (w : World),
    serves net (length (sent w)) pages ->
    Forall (fun p => length p = 1000%nat) pages ->
    Forall (Forall (fun d => is_ok (domain_convert d) = true)) pages ->
    0 <= start ->
    start + 1000 * Z.of_nat (length pages) <= strconv.maxInt64 ->
    Read_loop net (length pages + fuel) start models w =
      Read_loop net fuel (start + 1000 * Z.of_nat (length pages))
        (models ++ map toModel (converted domain_convert (concat pages)))
        (mkWorld (self w)
           (sent w ++
            map (fun i => listAll_request (self w)
                            (start + 1000 * Z.of_nat i))
                (seq 0 (length pages)))).
Proof.
  induction pages as [| page pages IH];
    intros fuel start models w Hserve Hfull Hok Hstart Hmax.
  - cbn [length Nat.add concat seq map]. unfold converted. cbn [omap list_omap map].
    rewrite !app_nil_r. replace (start + 1000 * Z.of_nat 0) with start by lia.
    destruct w; reflexivity.
  - pose proof Hserve as [Hnew Hserve0].
    destruct (Hserve0 0%nat page eq_refl (listAll_request (self w) start))
      as (j & message & Htrip & Hdec).
    rewrite Nat.add_0_r in Htrip.
    cbn [length Nat.add Read_loop]. cbv beta iota zeta delta [bindM].
    rewrite (DomainList_page net start w j message page (Hnew _) Htrip Hdec).
    pose proof (Forall_inv Hok) as Hpage.
    pose proof (Forall_inv_tail Hok) as Hrest.
    pose proof (Forall_inv Hfull) as Hlenp.
    pose proof (Forall_inv_tail Hfull) as Hfull'.
    destruct (convert_each_all_ok domain_convert page Hpage) as [-> Hlen].
    rewrite appendModels_all, length_map, Hlen, Hlenp.
    change (Z.of_nat 1000 <? 1000) with false. cbv iota.
    cbn [length] in Hmax.
    rewrite wrap64_id
      by (unfold strconv.is_int64, strconv.minInt64, strconv.maxInt64 in *;
          lia).
    rewrite IH; cbn [self sent]; auto; try lia.
    + f_equal.
      * lia.
      * cbn [concat]. rewrite converted_app, map_app, app_assoc.
        reflexivity.
      * f_equal. rewrite <- app_assoc. f_equal.
        cbn [app]. apply offsets_shift.
    + rewrite length_app. cbn [length].
      replace (length (sent w) + 1)%nat with (S (length (sent w))) by lia.
      now apply serves_next in Hserve.
Qed.

(** X23. A listing that fails part way keeps what it has: when the
    server serves full pages that convert and the request after them
    does not get through, [Read] stops there, sets the state to the
    domains of the pages served, and reports the failure as its one
    diagnostic; the requests sent are those of the pages and the one that
    failed. *)
Theorem Read_keeps_pages_before_failure (net : Network)
    (pages : list (list domain)) (c : Client) (fuel : nat) (e : error) :
  serves net 0 pages ->
  Forall (fun p => length p = 1000%nat) pages ->
  Forall (Forall (fun d => is_ok (domain_convert d) = true)) pages ->
  1000 * Z.of_nat (length pages) <= strconv.maxInt64 ->
  (length pages < fuel)%nat ->
  RoundTrip net (length pages)
    (listAll_request c (1000 * Z.of_nat (length pages))) = SendFails e ->
  Read net fuel (mkWorld c []) =
    (Some (Ok (mkReadResult
                 (map toModel (converted domain_convert (concat pages)))
                 [ ("Client Error",
                    ErrorfErr
            "Failed to process an HTTP request with the following error: %s"
                      e) ])),
     mkWorld c
       (map (fun i => listAll_request c (1000 * Z.of_nat i))
            (seq 0 (S (length pages))))).
Proof.
  intros Hserve Hfull Hok Hmax Hfuel Hfail. unfold Read.
  replace fuel with (length pages + S (fuel - S (length pages)))%nat by lia.
  rewrite (Read_loop_full_pages net pages _ 0 [] (mkWorld c []));
    auto; try lia.
  cbn [self sent app].
  change (fun i : nat => listAll_request c (0 + 1000 * Z.of_nat i))
    with (fun i : nat => listAll_request c (1000 * Z.of_nat i)).
  change (0 + 1000 * Z.of_nat (length pages))
    with (1000 * Z.of_nat (length pages)).
  set (w := mkWorld c
              (map (fun i => listAll_request c (1000 * Z.of_nat i))
                   (seq 0 (length pages)))).
  assert (Hlen : length (sent w) = length pages)
    by (subst w; cbn [sent]; now rewrite length_map, length_seq).
  destruct Hserve as [Hnew _].
  destruct (DomainList_aborts net (1000 * Z.of_nat (length pages)) w
              (Hnew _)) as [Habort _].
  rewrite Hlen in Habort. specialize (Habort e Hfail).
  cbn [Read_loop]. cbv beta iota zeta delta [bindM ret].
  rewrite Habort. cbn [map]. f_equal. subst w. cbn [self sent]. f_equal.
  rewrite seq_S, map_app. reflexivity.
Qed.

(** X23, for a server that serves one full page and then drops the
    connection. *)
Lemma Read_keeps_pages_before_failure_witness :
  Read (scripted [ page_doc (repeat a_domain 1000) ]) 2 (mkWorld client0 [])
  = (Some (Ok (mkReadResult
                 (map toModel
                    (converted domain_convert
                       (concat [repeat a_domain 1000])))
                 [ ("Client Error",
                    ErrorfErr
            "Failed to process an HTTP request with the following error: %s"
                      (Lib (NetError "EOF"))) ])),
     mkWorld client0
       (map (fun i => listAll_request client0 (1000 * Z.of_nat i))
            (seq 0 (S (length [repeat a_domain 1000]))))).
Proof.
  apply (Read_keeps_pages_before_failure
           (scripted [ page_doc (repeat a_domain 1000) ])
           [repeat a_domain 1000] client0 2 (Lib (NetError "EOF"))).
  - split; [reflexivity |].
    intros [| i] page Hp req.
    + change (Some (repeat a_domain 1000) = Some page) in Hp.
      injection Hp as <-.
      exists (page_doc (repeat a_domain 1000)), "".
      split; [reflexivity | vm_compute; reflexivity].
    + discriminate Hp.
  - repeat constructor.
  - repeat constructor; apply Forall_forall; intros d Hd;
      apply repeat_spec in Hd; subst d; reflexivity.
  - vm_compute. discriminate.
  - cbn. lia.
  - reflexivity.
Defined.

(** On a server that always answers with a full page, no number of
    iterations ends the loop, and each iteration sends a request. *)
Lemma Read_loop_forever (net : Network) :
  serves_forever net ->
  forall (fuel : nat) (start : Z) (models : list domainModel) (w : World),
    fst (Read_loop net fuel start models w) = None
    /\ length (sent (snd (Read_loop net fuel start models w)))
       = (length (sent w) + fuel)%nat.
Proof.
  intros [Hnew Hserve]. induction fuel as [| fuel IH];
    intros start models w.
  - cbn. split; [reflexivity | lia].
  - destruct (Hserve (length (sent w)) (listAll_request (self w) start))
      as (j & message & page & Htrip & Hdec & Hlenp & Hpage).
    cbn [Read_loop]. cbv beta iota zeta delta [bindM].
    rewrite (DomainList_page net start w j message page (Hnew _) Htrip Hdec).
    destruct (convert_each_all_ok domain_convert page Hpage) as [-> Hlen].
    rewrite appendModels_all, length_map, Hlen, Hlenp.
    change (Z.of_nat 1000 <? 1000) with false. cbv iota.
    match goal with
    | |- context [Read_loop net fuel ?s ?m ?w'] =>
        destruct (IH s m w') as [Hnone Hsent]
    end.
    split; [exact Hnone |].
    rewrite Hsent. cbn [sent]. rewrite length_app. cbn [length]. lia.
Qed.

(** X24. The listing has no end of its own: on a server that answers
    every request with a full page of domains that convert (one that
    ignores [start], say), [Read] has not finished after any number of
    iterations, and has sent one request in each. *)
Theorem Read_never_ends_on_full_pages (net : Network) (fuel : nat)
    (w : World) :
  serves_forever net ->
  fst (Read net fuel w) = None
  /\ length (sent (snd (Read net fuel w))) = (length (sent w) + fuel)%nat.
Proof.
  intros Hforever. unfold Read.
  exact (Read_loop_forever net Hforever fuel 0 [] w).
Qed.

(** A server that answers every request with the same full page. *)
Lemma answering_serves_forever :
  serves_forever (answering (page_doc (repeat a_domain 1000))).
Proof.
  split; [reflexivity |].
  intros n req.
  exists (page_doc (repeat a_domain 1000)), "", (repeat a_domain 1000).
  split; [reflexivity |].
  split; [vm_compute; reflexivity |].
  split; [apply repeat_length |].
  apply List.Forall_forall. intros d Hd. apply repeat_spec in Hd. subst d.
  reflexivity.
Qed.

(** X24, for five iterations against such a server. *)
Lemma Read_never_ends_on_full_pages_witness :
  fst (Read (answering (page_doc (repeat a_domain 1000))) 5 world0) = None
  /\ length (sent (snd (Read (answering (page_doc (repeat a_domain 1000)))
                          5 world0)))
     = (length (sent world0) + 5)%nat.
Proof.
  exact (Read_never_ends_on_full_pages
           (answering (page_doc (repeat a_domain 1000))) 5 world0
           answering_serves_forever).
Defined.

(** ** The DNS record resource: creation and update *)

Lemma stamped_DNSRecord_req (c : Client) (d : dnsrecord) :
  stamped c (mkDNSRecord_req zero_Credentials d)
  = mkDNSRecord_req (Client_Credentials c) d.
Proof. destruct c as [[k s] u]. reflexivity. Qed.

Section ResourceRecordsWrite.

Variable net : Network.
Variable libText : LibErr -> string.

(** X25. [Create] of the DNS record resource posts the record of the
    plan, without id, to [dns/create/<domain>]. When the answer decodes,
    the outcome follows its status: on [SUCCESS] the state is the plan
    with the id of the answer and there is no diagnostic; on any other
    status there is one error diagnostic and no state. *)
Theorem DNSRecordResource_Create_outcome (plan : DNSRecordResourceModel)
    (w : World) (body j : json) (r' : CreateDNSRecord_res) :
  let path :=
    "dns/create/" +:+ ValueString (DNSRecordResourceModel_Domain plan) in
  Marshal (mkDNSRecord_req (Client_Credentials (self w))
             (DNSRecord_convert (planRecord None plan))) = Ok body ->
  NewRequestWithContext net "POST" (url (self w)) path = None ->
  RoundTrip net (length (sent w)) (post_request (self w) path body)
    = Document j ->
  Unmarshal j (mkCreateDNSRecord_res zero_Status 0) = (r', None) ->
  DNSRecordResource_Create net libText plan w =
    (match envelope_error r' with
     | None =>
         mkResp [] (Some (withRecordID (CreateDNSRecord_res_ID r') plan))
     | Some e =>
         mkResp [ mkDiagnostic SeverityError None "Client Error"
                    (Error libText e) ] None
     end,
     mkWorld (self w) (sent w ++ [post_request (self w) path body])).
Proof.
  cbv zeta. intros Hbody Hnew Htrip Hdec.
  unfold DNSRecordResource_Create, CreateDNSRecord.
  cbv beta iota zeta delta [bindM ret].
  fold (planRecord None plan).
  rewrite <- stamped_DNSRecord_req in Hbody.
  rewrite (post_decoded (R := CreateDNSRecord_res) net _ _ _ _ w body j
             Hbody Hnew Htrip Hdec).
  cbn [fst snd]. destruct (envelope_error r'); reflexivity.
Qed.

(** X26. [Update] of the DNS record resource posts the record of the
    plan, with the id of the state, to [dns/edit/<domain>/<id>], domain
    and id being those of the state. When the answer decodes, the
    outcome follows its status: on [SUCCESS] the state is the plan with
    the id of the old state and there is no diagnostic; on any other
    status there is one error diagnostic and no state. *)
Theorem DNSRecordResource_Update_outcome
    (state plan : DNSRecordResourceModel) (w : World) (body j : json)
    (r' : Status) :
  let id := ValueInt64 (DNSRecordResourceModel_ID state) in
  let path :=
    "dns/edit/" +:+ ValueString (DNSRecordResourceModel_Domain state)
    +:+ "/" +:+ strconv.FormatInt id in
  Marshal (mkDNSRecord_req (Client_Credentials (self w))
             (DNSRecord_convert (planRecord (Some id) plan))) = Ok body ->
  NewRequestWithContext net "POST" (url (self w)) path = None ->
  RoundTrip net (length (sent w)) (post_request (self w) path body)
    = Document j ->
  Unmarshal j zero_Status = (r', None) ->
  DNSRecordResource_Update net libText state plan w =
    (match envelope_error r' with
     | None => mkResp [] (Some (withRecordID id plan))
     | Some e =>
         mkResp [ mkDiagnostic SeverityError None "Client Error"
                    (Error libText e) ] None
     end,
     mkWorld (self w) (sent w ++ [post_request (self w) path body])).
Proof.
  cbv zeta. intros Hbody Hnew Htrip Hdec.
  unfold DNSRecordResource_Update, EditDNSRecord.
  fold (planRecord (Some (ValueInt64 (DNSRecordResourceModel_ID state)))
          plan).
  change (DNSRecord_ID
            (planRecord (Some (ValueInt64 (DNSRecordResourceModel_ID state)))
               plan))
    with (Some (ValueInt64 (DNSRecordResourceModel_ID state))).
  cbv beta iota zeta delta [bindM ret].
  rewrite <- stamped_DNSRecord_req in Hbody.
  rewrite (post_decoded (R := Status) net _ _ _ _ w body j
             Hbody Hnew Htrip Hdec).
  cbn [fst snd]. destruct (envelope_error r'); reflexivity.
Qed.

End ResourceRecordsWrite.

(** X25, for an [MX] record and a server that answers with an id. *)
Lemma DNSRecordResource_Create_outcome_witness :
  let plan :=
    mkDNSRecordResourceModel Unknown (Known "example.com") (Known "www")
      (Known "MX") (Known "mail.example.org") (Known 600) (Known 10) Null in
  fst (DNSRecordResource_Create (answering created_doc) (fun _ => "") plan
         world0)
  = mkResp [] (Some (withRecordID 106926659 plan)).
Proof.
  exact (f_equal fst
           (DNSRecordResource_Create_outcome (answering created_doc)
              (fun _ => "")
              (mkDNSRecordResourceModel Unknown (Known "example.com")
                 (Known "www") (Known "MX") (Known "mail.example.org")
                 (Known 600) (Known 10) Null)
              world0
              (JObject [ ("apikey", JString "pk1_key");
                         ("secretapikey", JString "sk1_secret");
                         ("name", JString "www");
                         ("type", JString "MX");
                         ("content", JString "mail.example.org");
                         ("ttl", JNumber "600");
                         ("prio", JNumber "10");
                         ("notes", JString "") ])
              created_doc
              (mkCreateDNSRecord_res (mkStatus "SUCCESS" "") 106926659)
              eq_refl eq_refl eq_refl eq_refl)).
Defined.

(** X26, for a record whose content changes and a server that refuses
    the edit. *)
Lemma DNSRecordResource_Update_outcome_witness :
  let state :=
    mkDNSRecordResourceModel (Known 106926659) (Known "example.com")
      (Known "www") (Known "A") (Known "1.2.3.4") (Known 600) Null Null in
  let plan :=
    mkDNSRecordResourceModel Unknown (Known "example.com") (Known "www")
      (Known "A") (Known "5.6.7.8") (Known 600) Null Null in
  DNSRecordResource_Update (answering not_found_doc) (fun _ => "") state plan
    world0
  = (mkResp [ mkDiagnostic SeverityError None "Client Error"
                "Received 'ERROR' response status with the following message: not found" ]
       None,
     mkWorld client0
       [ post_request client0 "dns/edit/example.com/106926659"
           (JObject [ ("apikey", JString "pk1_key");
                      ("secretapikey", JString "sk1_secret");
                      ("id", JNumber "106926659");
                      ("name", JString "www");
                      ("type", JString "A");
                      ("content", JString "5.6.7.8");
                      ("ttl", JNumber "600");
                      ("prio", JNumber "0");
                      ("notes", JString "") ]) ]).
Proof.
  exact (DNSRecordResource_Update_outcome (answering not_found_doc)
           (fun _ => "")
           (mkDNSRecordResourceModel (Known 106926659) (Known "example.com")
              (Known "www") (Known "A") (Known "1.2.3.4") (Known 600)
              Null Null)
           (mkDNSRecordResourceModel Unknown (Known "example.com")
              (Known "www") (Known "A") (Known "5.6.7.8") (Known 600)
              Null Null)
           world0
           (JObject [ ("apikey", JString "pk1_key");
                      ("secretapikey", JString "sk1_secret");
                      ("id", JNumber "106926659");
                      ("name", JString "www");
                      ("type", JString "A");
                      ("content", JString "5.6.7.8");
                      ("ttl", JNumber "600");
                      ("prio", JNumber "0");
                      ("notes", JString "") ])
           not_found_doc (mkStatus "ERROR" "not found")
           eq_refl eq_refl eq_refl eq_refl).
Defined.
